(** * clickhouse_vs_vertica: a shallow embedding of the benchmark script

    The development follows [src/main.py], [src/models.py] and
    [src/config/settings.py].  The script is straight-line effectful code that
    talks to two database drivers, a random source, the wall clock and a
    logger, so it is embedded in a small reader/state/exception monad [Py]:

    - [Env] holds what the script cannot influence: the loaded settings and
      the behaviour of the outside world (random draws, clock readings,
      driver failures and replies), given as oracles;
    - [State] holds what the script changes: how much of each oracle has been
      consumed, the object store with the [Event] instances, the calls issued
      to each driver, the column-store catalog and the log.

    Points in time and durations ([datetime], [time.time()] and their
    differences) are integers counting microseconds.  The database servers
    are outside the repository: a driver call either raises, as the oracle
    decides, or succeeds; for the four statements of the column-store
    initialization the effect on the server's catalog is modelled too. *)

From Stdlib Require Import ZArith Ascii String List Lia.
From stdpp Require Import base gmap strings list fin_maps.

Local Open Scope Z_scope.

(** ** config/settings.py *)

Module ClickhouseSettings.
Record t := mk {
  host : string;
  port : Z;
  database : string;
  user : string;
  password : string;
  table : string
}.

Definition defaults : t :=
  {| host := "clickhouse-node1"; port := 8123; database := "example";
     user := "default"; password := ""; table := "events" |}.
End ClickhouseSettings.

Module VerticaSettings.
Record t := mk {
  host : string;
  port : Z;
  database : string;
  user : string;
  password : string;
  vertica_schema : string;
  table : string
}.

Definition defaults : t :=
  {| host := "vertica"; port := 5433; database := "docker";
     user := "dbadmin"; password := ""; vertica_schema := "public";
     table := "events" |}.
End VerticaSettings.

Module Settings.
Record t := mk {
  batch_size : Z;
  run_interval_seconds : Z;
  run_once : bool;
  log_level : string;
  clickhouse : ClickhouseSettings.t;
  vertica : VerticaSettings.t
}.

Definition defaults : t :=
  {| batch_size := 1000; run_interval_seconds := 5; run_once := false;
     log_level := "info";
     clickhouse := ClickhouseSettings.defaults;
     vertica := VerticaSettings.defaults |}.
End Settings.

(** ** models.py *)

(** [timestamp] is a naive [datetime], kept as microseconds on the time line;
    [user_id] is a [uuid.UUID], kept as its 128-bit integer. *)
Record Event := mkEvent {
  event_type : string;
  timestamp : Z;
  user_id : option Z;
  url : option string
}.

#[global] Instance Event_inhabited : Inhabited Event :=
  populate (mkEvent "" 0 None None).

(** [Event.model_fields.keys()] *)
Definition Event_model_fields : list string :=
  ["event_type"; "timestamp"; "user_id"; "url"]%string.

(** [tuple(event.model_dump().values())] and the tuple built in
    [load_data_to_vertica]: the four field values, in declaration order. *)
Abbreviation Row := (string * Z * option Z * option string)%type.

Definition model_dump_values (e : Event) : Row :=
  (event_type e, timestamp e, user_id e, url e).

(** ** The Python runtime the script relies on *)

(** Exceptions.  Every class here derives from [Exception]: the drivers'
    error hierarchies do, and so do the built-in ones the script can meet. *)
Inductive PyExc :=
| VerticaConnectionError (msg : string)  (* vertica_python.errors.ConnectionError *)
| BuiltinConnectionError                 (* ConnectionError() *)
| IndexError                             (* random.choice on an empty sequence *)
| DriverError (cls msg : string).        (* any other driver or server error *)

(** The values stored in the [connection_info] dict. *)
Inductive PyVal :=
| PyStr (s : string)
| PyInt (z : Z)
| PyBool (b : bool).

(** Log records.  The literal part of each message is kept as text; the
    values interpolated by the f-strings are kept as data. *)
Inductive LogRecord :=
| LogInfo (msg : string)
| LogInfoDict (items : list (string * PyVal))
| LogInfoSeconds (label : string) (seconds : Z)
| LogError (msg : string) (e : PyExc)
| LogException (msg : string) (exc : PyExc).

(** Calls made on the clickhouse_connect client. *)
Inductive ChCall :=
| ChCommand (cmd : string)
| ChInsert (table : string) (data : list Row) (column_names : list string)
| ChQuery (query : string).

(** Calls made on a vertica_python cursor. *)
Inductive VCall :=
| VExecute (operation : string) (parameters : option Row)
| VFetchAll.

(** The column-store catalog: which databases exist and, for each table,
    its column declarations.  Rows are not tracked. *)
Definition Schema : Type := list (string * string).

Record Catalog := mkCatalog {
  databases : gset string;
  tables : gmap (string * string) Schema
}.

Record Env := mkEnv {
  settings : Settings.t;             (* config.settings.settings *)
  rng : nat -> Z;                    (* draws of the [random] module, in order *)
  urandom : nat -> Z;                (* os.urandom(16) blocks, as integers *)
  clock : nat -> Z;                  (* wall-clock readings, in order *)
  ch_connect : option PyExc;         (* failure of clickhouse_connect.get_client *)
  ch_fault : nat -> option PyExc;    (* failure injected into the k-th client call *)
  ch_reply : nat -> string;          (* what the k-th client call returns *)
  ch_has_rows : nat -> option PyExc; (* failure of the property [result_rows] of the
                                        k-th call's result, as [hasattr] meets it *)
  ch_rows : nat -> option PyExc;     (* failure of that property when it is read *)
  v_connect : option PyExc;          (* failure of vertica_python.connect *)
  v_fault : nat -> option PyExc      (* failure of the k-th cursor call *)
}.

Record State := mkState {
  rng_pos : nat;
  urandom_pos : nat;
  clock_pos : nat;
  heap : list Event;                 (* Event instances; a reference is an index *)
  ch_calls : list ChCall;            (* oldest first *)
  ch_catalog : Catalog;
  ch_session : string;               (* current database of the client session *)
  v_calls : list VCall;              (* oldest first *)
  log : list LogRecord               (* oldest first *)
}.

Definition set_rng_pos (n : nat) (s : State) : State :=
  mkState n (urandom_pos s) (clock_pos s) (heap s) (ch_calls s)
          (ch_catalog s) (ch_session s) (v_calls s) (log s).
Definition set_urandom_pos (n : nat) (s : State) : State :=
  mkState (rng_pos s) n (clock_pos s) (heap s) (ch_calls s)
          (ch_catalog s) (ch_session s) (v_calls s) (log s).
Definition set_clock_pos (n : nat) (s : State) : State :=
  mkState (rng_pos s) (urandom_pos s) n (heap s) (ch_calls s)
          (ch_catalog s) (ch_session s) (v_calls s) (log s).
Definition set_heap (h : list Event) (s : State) : State :=
  mkState (rng_pos s) (urandom_pos s) (clock_pos s) h (ch_calls s)
          (ch_catalog s) (ch_session s) (v_calls s) (log s).
Definition set_ch_calls (c : list ChCall) (s : State) : State :=
  mkState (rng_pos s) (urandom_pos s) (clock_pos s) (heap s) c
          (ch_catalog s) (ch_session s) (v_calls s) (log s).
Definition set_ch_server (c : Catalog) (db : string) (s : State) : State :=
  mkState (rng_pos s) (urandom_pos s) (clock_pos s) (heap s) (ch_calls s)
          c db (v_calls s) (log s).
Definition set_v_calls (c : list VCall) (s : State) : State :=
  mkState (rng_pos s) (urandom_pos s) (clock_pos s) (heap s) (ch_calls s)
          (ch_catalog s) (ch_session s) c (log s).
Definition set_log (l : list LogRecord) (s : State) : State :=
  mkState (rng_pos s) (urandom_pos s) (clock_pos s) (heap s) (ch_calls s)
          (ch_catalog s) (ch_session s) (v_calls s) l.

(** *** The monad *)

Inductive Outcome (A : Type) :=
| Returns (a : A)
| Raises (e : PyExc).
Arguments Returns {A} a.
Arguments Raises {A} e.

Definition Py (A : Type) : Type := Env -> State -> Outcome A * State.

Definition ret {A} (a : A) : Py A := fun _ s => (Returns a, s).

Definition raise {A} (e : PyExc) : Py A := fun _ s => (Raises e, s).

Definition bind {A B} (m : Py A) (k : A -> Py B) : Py B :=
  fun env s =>
    match m env s with
    | (Returns a, s') => k a env s'
    | (Raises e, s') => (Raises e, s')
    end.

(** [try: m  except Exception as e: h e] *)
Definition try_except {A} (m : Py A) (h : PyExc -> Py A) : Py A :=
  fun env s =>
    match m env s with
    | (Returns a, s') => (Returns a, s')
    | (Raises e, s') => h e env s'
    end.

Definition ask : Py Env := fun env s => (Returns env, s).
Definition get : Py State := fun _ s => (Returns s, s).
Definition modify (f : State -> State) : Py unit := fun _ s => (Returns tt, f s).

Notation "x <- c1 ;; c2" := (bind c1 (fun x => c2))
  (at level 100, c1 at next level, right associativity).
Notation "c1 ;; c2" := (bind c1 (fun _ => c2))
  (at level 100, right associativity).

(** [for x in xs: body x] *)
Fixpoint for_each {A} (xs : list A) (body : A -> Py unit) : Py unit :=
  match xs with
  | [] => ret tt
  | x :: xs' => body x ;; for_each xs' body
  end.

(** [[body for _ in range(n)]] *)
Fixpoint comprehension {A} (n : nat) (body : Py A) : Py (list A) :=
  match n with
  | O => ret []
  | S n' => x <- body ;; xs <- comprehension n' body ;; ret (x :: xs)
  end.

(** *** logging *)

Definition emit (r : LogRecord) : Py unit :=
  modify (fun s => set_log (log s ++ [r]) s).

Definition logger_info (msg : string) : Py unit := emit (LogInfo msg).
Definition logger_error (msg : string) (e : PyExc) : Py unit := emit (LogError msg e).
Definition logger_exception (msg : string) (exc : PyExc) : Py unit :=
  emit (LogException msg exc).

(** *** random, uuid, datetime, time *)

Definition next_random : Py Z :=
  fun env s => (Returns (rng env (rng_pos s)), set_rng_pos (S (rng_pos s)) s).

(** [random.choice(seq)]: [seq[randbelow(len(seq))]], [IndexError] when empty. *)
Definition random_choice {A} (seq : list A) : Py A :=
  match seq with
  | [] => raise IndexError
  | _ =>
      r <- next_random ;;
      match seq !! Z.to_nat (r mod Z.of_nat (length seq)) with
      | Some x => ret x
      | None => raise IndexError
      end
  end.

(** [random.randint(a, b)]: [a + randbelow(b - a + 1)]. *)
Definition random_randint (a b : Z) : Py Z :=
  r <- next_random ;; ret (a + r mod (b - a + 1)).

(** [random.random()] is [k / 2**53] for a 53-bit [k]; [k] is returned. *)
Definition random_random : Py Z :=
  r <- next_random ;; ret (r mod 2 ^ 53).

(** [random.random() > 0.5] on the numerator. *)
Definition gt_half (k : Z) : bool := 2 ^ 52 <? k.

(** [uuid.UUID(bytes=os.urandom(16), version=4)]: clear and set the variant
    and version bits of the 128-bit integer. *)
Definition UUID_version4 (int : Z) : Z :=
  let int := Z.land int (Z.lnot (Z.shiftl 0xc000 48)) in
  let int := Z.lor int (Z.shiftl 0x8000 48) in
  let int := Z.land int (Z.lnot (Z.shiftl 0xf000 64)) in
  Z.lor int (Z.shiftl 4 76).

Definition uuid4 : Py Z :=
  fun env s =>
    (Returns (UUID_version4 (urandom env (urandom_pos s) mod 2 ^ 128)),
     set_urandom_pos (S (urandom_pos s)) s).

(** One reading of the wall clock; [datetime.now()] and [time.time()] both
    read it. *)
Definition read_clock : Py Z :=
  fun env s => (Returns (clock env (clock_pos s)), set_clock_pos (S (clock_pos s)) s).

Definition datetime_now : Py Z := read_clock.
Definition time_time : Py Z := read_clock.

(** [timedelta(days=d)] in microseconds. *)
Definition timedelta_days (d : Z) : Z := d * 86400000000.

(** *** The object store *)

(** [Event(event_type=..., timestamp=..., user_id=..., url=...)]: a new
    instance; the reference to it is returned. *)
Definition new_Event (et : string) (ts : Z) (uid : option Z) (u : option string)
  : Py nat :=
  fun _ s => (Returns (length (heap s)), set_heap (heap s ++ [mkEvent et ts uid u]) s).

(** Reading the fields of the instance behind a reference. *)
Definition deref (st : State) (r : nat) : Event := heap st !!! r.

(** *** clickhouse_connect *)

(** The statements the script sends through [client.command].  [render]
    gives the text that the f-string in the source produces. *)
Inductive ChStmt :=
| CreateDatabaseIfNotExists (db : string)
| Use (db : string)
| DropTableIfExists (db tbl : string)
| CreateTableIfNotExists (db tbl : string) (columns : Schema) (tail : string).

Definition qualified (db tbl : string) : string := db +:+ "." +:+ tbl.

Fixpoint render_columns (cols : Schema) : string :=
  match cols with
  | [] => ""
  | [(n, ty)] => n +:+ " " +:+ ty
  | (n, ty) :: rest => n +:+ " " +:+ ty +:+ ", " +:+ render_columns rest
  end.

Definition render (q : ChStmt) : string :=
  match q with
  | CreateDatabaseIfNotExists db => "CREATE DATABASE IF NOT EXISTS " +:+ db
  | Use db => "USE " +:+ db
  | DropTableIfExists db tbl => "DROP TABLE IF EXISTS " +:+ qualified db tbl
  | CreateTableIfNotExists db tbl cols tail =>
      "CREATE TABLE IF NOT EXISTS " +:+ qualified db tbl +:+ " ("
        +:+ render_columns cols +:+ ") " +:+ tail
  end.

Definition unknown_database (db : string) : PyExc :=
  DriverError "DatabaseError" ("UNKNOWN_DATABASE " +:+ db).

(** What the server does with a statement it receives: the new catalog and
    session database, or the error it answers with. *)
Definition ch_apply (q : ChStmt) (c : Catalog) (session : string)
  : PyExc + Catalog * string :=
  match q with
  | CreateDatabaseIfNotExists db =>
      inr (mkCatalog ({[db]} ∪ databases c) (tables c), session)
  | Use db =>
      if decide (db ∈ databases c) then inr (c, db) else inl (unknown_database db)
  | DropTableIfExists db tbl =>
      inr (mkCatalog (databases c) (delete (db, tbl) (tables c)), session)
  | CreateTableIfNotExists db tbl cols _ =>
      if decide (db ∈ databases c) then
        match tables c !! (db, tbl) with
        | Some _ => inr (c, session)
        | None => inr (mkCatalog (databases c) (<[(db, tbl) := cols]> (tables c)), session)
        end
      else inl (unknown_database db)
  end.

(** [clickhouse_connect.get_client(..., database=database, ...)] *)
Definition get_client (host : string) (port : Z) (database username password : string)
  : Py unit :=
  fun env s =>
    match ch_connect env with
    | Some e => (Raises e, s)
    | None => (Returns tt, set_ch_server (ch_catalog s) database s)
    end.

(** [client.command(cmd)]: the call is recorded; it fails when the oracle
    says so or when the server rejects the statement, and a call that fails
    leaves the catalog as it was. *)
Definition client_command (q : ChStmt) : Py string :=
  fun env s =>
    let k := length (ch_calls s) in
    let s1 := set_ch_calls (ch_calls s ++ [ChCommand (render q)]) s in
    match ch_fault env k with
    | Some e => (Raises e, s1)
    | None =>
        match ch_apply q (ch_catalog s) (ch_session s) with
        | inl e => (Raises e, s1)
        | inr (c, db) => (Returns (ch_reply env k), set_ch_server c db s1)
        end
    end.

(** [client.insert(table=..., data=..., column_names=...)]; the summary of
    the result is returned. *)
Definition client_insert (table : string) (data : list Row) (column_names : list string)
  : Py string :=
  fun env s =>
    let k := length (ch_calls s) in
    let s1 := set_ch_calls (ch_calls s ++ [ChInsert table data column_names]) s in
    match ch_fault env k with
    | Some e => (Raises e, s1)
    | None => (Returns (ch_reply env k), s1)
    end.

(** [client.query(query)]: the [QueryResult] it returns is identified by the
    number of the call that produced it. *)
Definition client_query (query : string) : Py nat :=
  fun env s =>
    let k := length (ch_calls s) in
    let s1 := set_ch_calls (ch_calls s ++ [ChQuery query]) s in
    match ch_fault env k with
    | Some e => (Raises e, s1)
    | None => (Returns k, s1)
    end.

(** [except AttributeError]: the class is carried by its name. *)
Definition is_AttributeError (e : PyExc) : bool :=
  match e with
  | DriverError cls _ => String.eqb cls "AttributeError"
  | _ => false
  end.

(** [hasattr(query_result, 'result_rows')]: the property is evaluated; an
    [AttributeError] it raises is answered by [False], any other exception
    propagates. *)
Definition hasattr_result_rows (query_result : nat) : Py bool :=
  fun env s =>
    match ch_has_rows env query_result with
    | Some e => if is_AttributeError e then (Returns false, s) else (Raises e, s)
    | None => (Returns true, s)
    end.

(** [query_result.result_rows]: the property is evaluated and what it raises
    propagates.  The rows themselves are not observed by the script. *)
Definition get_result_rows (query_result : nat) : Py unit :=
  fun env s =>
    match ch_rows env query_result with
    | Some e => (Raises e, s)
    | None => (Returns tt, s)
    end.

(** *** vertica_python *)

Definition vertica_python_connect (connection_info : list (string * PyVal)) : Py unit :=
  fun env s =>
    match v_connect env with
    | Some e => (Raises e, s)
    | None => (Returns tt, s)
    end.

(** [cur.execute(operation, parameters)] *)
Definition cursor_execute (operation : string) (parameters : option Row) : Py unit :=
  fun env s =>
    let k := length (v_calls s) in
    let s1 := set_v_calls (v_calls s ++ [VExecute operation parameters]) s in
    match v_fault env k with
    | Some e => (Raises e, s1)
    | None => (Returns tt, s1)
    end.

(** [cur.fetchall()] *)
Definition cursor_fetchall : Py unit :=
  fun env s =>
    let k := length (v_calls s) in
    let s1 := set_v_calls (v_calls s ++ [VFetchAll]) s in
    match v_fault env k with
    | Some e => (Raises e, s1)
    | None => (Returns tt, s1)
    end.

(** [with connection.cursor() as cur: body]: opening and closing a cursor
    are local to the driver object and send nothing; an exception raised in
    the body propagates. *)
Definition with_cursor {A} (body : Py A) : Py A := body.

(** ** main.py *)

(** *** class ClickhouseLoader *)

(** [self.settings]; [self.client] is the one client of the model. *)
Record ClickhouseLoader := mkClickhouseLoader {
  loader_settings : ClickhouseSettings.t
}.

(** The column declarations of the [CREATE TABLE] statement. *)
Definition clickhouse_columns : Schema :=
  [("event_type", "String"); ("timestamp", "DateTime64");
   ("user_id", "UUID NULL"); ("url", "String NULL")]%string.

Definition init_clickhouse (self : ClickhouseLoader) : Py unit :=
  let database := ClickhouseSettings.database (loader_settings self) in
  let table := ClickhouseSettings.table (loader_settings self) in
  logger_info "Initializing ClickHouse" ;;
  try_except
    (client_command (CreateDatabaseIfNotExists database) ;;
     client_command (Use database) ;;
     result <- client_command (DropTableIfExists database table) ;;
     logger_info ("DROP db result: " +:+ result) ;;
     logger_info ("Creating table: " +:+ table +:+ " in database: " +:+ database) ;;
     client_command
       (CreateTableIfNotExists database table clickhouse_columns
          "Engine=MergeTree() ORDER BY timestamp") ;;
     logger_info ("Table '" +:+ table +:+ "' created successfully in database '"
                    +:+ database +:+ "'."))
    (fun e => logger_exception "An error occurred during ClickHouse initialization" e).

(** [ClickhouseLoader.__init__] *)
Definition ClickhouseLoader_init (settings : ClickhouseSettings.t) : Py ClickhouseLoader :=
  let self := mkClickhouseLoader settings in
  get_client (ClickhouseSettings.host settings) (ClickhouseSettings.port settings)
             "default" (ClickhouseSettings.user settings)
             (ClickhouseSettings.password settings) ;;
  init_clickhouse self ;;
  ret self.

Definition load_batch (self : ClickhouseLoader) (event_batch : list nat) : Py unit :=
  match event_batch with
  | [] => ret tt
  | _ =>
      let column_names := Event_model_fields in
      st <- get ;;
      let data := map (fun event => model_dump_values (deref st event)) event_batch in
      try_except
        (result <- client_insert "example.events" data column_names ;;
         logger_info ("Loaded batch with result " +:+ result))
        (fun e => logger_exception "Error while loading batch into ClickHouse: " e)
  end.

Definition read_data (self : ClickhouseLoader) : Py Z :=
  let database := ClickhouseSettings.database (loader_settings self) in
  let table := ClickhouseSettings.table (loader_settings self) in
  start_time <- time_time ;;
  query_result <- client_query ("SELECT * FROM " +:+ qualified database table) ;;
  now <- time_time ;;
  let read_time := now - start_time in
  has_rows <- hasattr_result_rows query_result ;;
  rows <- (if has_rows then get_result_rows query_result else ret tt) ;;
  ret read_time.

(** *** class DatabaseManager *)

(** [self.vertica_settings] and [self.clickhouse_loader];
    [self.vertica_connection] is the one connection of the model. *)
Record DatabaseManager := mkDatabaseManager {
  vertica_settings : VerticaSettings.t;
  clickhouse_loader : ClickhouseLoader
}.

Definition connect_to_vertica (vertica_settings : VerticaSettings.t) : Py unit :=
  let connection_info :=
    [("host", PyStr (VerticaSettings.host vertica_settings));
     ("port", PyInt (VerticaSettings.port vertica_settings));
     ("user", PyStr (VerticaSettings.user vertica_settings));
     ("password", PyStr (VerticaSettings.password vertica_settings));
     ("database", PyStr (VerticaSettings.database vertica_settings));
     ("autocommit", PyBool true)]%string in
  connection <-
    try_except
      (emit (LogInfoDict connection_info) ;;
       vertica_python_connect connection_info ;;
       logger_info "Connected to Vertica successfully" ;;
       ret (Some tt))
      (fun e =>
         match e with
         | VerticaConnectionError _ =>
             logger_error "connect to Vertica failed: " e ;; ret None
         | _ => raise e
         end) ;;
  match connection with
  | Some c => ret c
  | None => raise BuiltinConnectionError
  end.

(** [DatabaseManager.__init__] *)
Definition DatabaseManager_init
    (clickhouse_settings : ClickhouseSettings.t) (vertica_settings : VerticaSettings.t)
  : Py DatabaseManager :=
  clickhouse_loader <- ClickhouseLoader_init clickhouse_settings ;;
  connect_to_vertica vertica_settings ;;
  ret (mkDatabaseManager vertica_settings clickhouse_loader).

(** The table is named after the module-level [settings], not after
    [self.vertica_settings]. *)
Definition create_vertica_table (self : DatabaseManager) : Py unit :=
  logger_info "Creating Vertica table" ;;
  try_except
    (env <- ask ;;
     let vertica_schema := VerticaSettings.vertica_schema (Settings.vertica (settings env)) in
     let table := VerticaSettings.table (Settings.vertica (settings env)) in
     with_cursor
       (logger_info ("Creating table: " +:+ table +:+ " in schema: " +:+ vertica_schema) ;;
        cursor_execute
          ("CREATE TABLE IF NOT EXISTS " +:+ qualified vertica_schema table +:+ " ("
             +:+ "event_type VARCHAR(255), "
             +:+ "timestamp TIMESTAMP, "
             +:+ "user_id UUID NULL, "
             +:+ "url VARCHAR(255) NULL)") None ;;
        logger_info ("Table '" +:+ table +:+ "' created successfully in schema '"
                       +:+ vertica_schema +:+ "'.")))
    (fun e => logger_exception "An error occurred while creating the Vertica table" e).

Definition read_data_from_vertica (self : DatabaseManager) : Py Z :=
  start_time <- time_time ;;
  env <- ask ;;
  let vertica_schema := VerticaSettings.vertica_schema (Settings.vertica (settings env)) in
  let table := VerticaSettings.table (Settings.vertica (settings env)) in
  with_cursor
    (cursor_execute ("SELECT * FROM " +:+ qualified vertica_schema table) None ;;
     cursor_fetchall) ;;
  now <- time_time ;;
  let read_time := now - start_time in
  ret read_time.

(** *** Module-level functions *)

(** One element of the comprehension in [generate_events]; the keyword
    arguments are evaluated left to right. *)
Definition generate_event : Py nat :=
  event_type <- random_choice ["click"; "view"; "purchase"]%string ;;
  now <- datetime_now ;;
  days <- random_randint 0 10 ;;
  r <- random_random ;;
  user_id <- (if gt_half r then u <- uuid4 ;; ret (Some u) else ret None) ;;
  url <- random_choice [Some "http://example.com"; Some "http://test.com"; None]%string ;;
  new_Event event_type (now - timedelta_days days) user_id url.

Definition generate_events (num_events : Z) : Py (list nat) :=
  comprehension (Z.to_nat num_events) generate_event.

Definition load_data_to_clickhouse (events : list nat) (loader : ClickhouseLoader) : Py Z :=
  start_time <- time_time ;;
  load_batch loader events ;;
  now <- time_time ;;
  ret (now - start_time).

Definition vertica_insert : string := "INSERT INTO public.events VALUES (%s, %s, %s, %s)".

Definition load_data_to_vertica (events : list nat) : Py Z :=
  start_time <- time_time ;;
  with_cursor
    (st <- get ;;
     let data :=
       map (fun event =>
              let e := deref st event in
              (event_type e, timestamp e, user_id e, url e)) events in
     for_each data (fun d => cursor_execute vertica_insert (Some d)) ;;
     cursor_execute "COMMIT" None) ;;
  now <- time_time ;;
  ret (now - start_time).

(** [main] returns the dict of timings, or [None] when the handler ran. *)
Definition main : Py (option (gmap string Z)) :=
  try_except
    (logger_info "Starting data generation and loading process" ;;
     env <- ask ;;
     db_manager <- DatabaseManager_init (Settings.clickhouse (settings env))
                                        (Settings.vertica (settings env)) ;;
     init_clickhouse (clickhouse_loader db_manager) ;;
     create_vertica_table db_manager ;;
     let num_events := 1000 in
     events <- generate_events num_events ;;
     clickhouse_write_time <- load_data_to_clickhouse events (clickhouse_loader db_manager) ;;
     vertica_write_time <- load_data_to_vertica events ;;
     clickhouse_read_time <- read_data (clickhouse_loader db_manager) ;;
     vertica_read_time <- read_data_from_vertica db_manager ;;
     emit (LogInfoSeconds "ClickHouse write time" clickhouse_write_time) ;;
     emit (LogInfoSeconds "Vertica write time" vertica_write_time) ;;
     emit (LogInfoSeconds "ClickHouse read time" clickhouse_read_time) ;;
     emit (LogInfoSeconds "Vertica read time" vertica_read_time) ;;
     ret (Some (<["vertica_read_time" := vertica_read_time]>
               (<["clickhouse_read_time" := clickhouse_read_time]>
               (<["vertica_write_time" := vertica_write_time]>
               (<["clickhouse_write_time" := clickhouse_write_time]> ∅))))))
    (fun e => logger_exception "Unhandled exception" e ;; ret None).

(** *** Reporting and the script entry point *)

(** Calls made on matplotlib ([plt] and the two axes [ax[0]], [ax[1]]). *)
Inductive PlotCall :=
| Subplots (nrows ncols : Z) (figsize : Z * Z)
| Bar (axis : nat) (x : list string) (height : list Z) (color : list string)
| SetTitle (axis : nat) (label : string)
| SetYlabel (axis : nat) (label : string)
| Suptitle (t : string)
| Savefig (fname : string).

(** [plot_results] returns nothing in the source; here it returns the calls
    it makes on matplotlib, in order, so that they can be observed. *)
Definition plot_results
    (clickhouse_write_time vertica_write_time clickhouse_read_time vertica_read_time : Z)
  : Py (list PlotCall) :=
  let labels := ["ClickHouse"; "Vertica"]%string in
  let write_times := [clickhouse_write_time; vertica_write_time] in
  let read_times := [clickhouse_read_time; vertica_read_time] in
  let calls :=
    [Subplots 1 2 (12, 6);
     Bar 0 labels write_times ["blue"; "green"]%string;
     SetTitle 0 "Write Times";
     SetYlabel 0 "Time (seconds)";
     Bar 1 labels read_times ["blue"; "green"]%string;
     SetTitle 1 "Read Times";
     SetYlabel 1 "Time (seconds)";
     Suptitle "Database Performance Comparison";
     Savefig "database_performance_comparison.png"] in
  logger_info "Graph saved as 'database_performance_comparison.png'" ;;
  ret calls.

(** [TypeError(msg)]: an exception class the runtime model has no
    constructor of its own for is carried with its class name. *)
Definition TypeError (msg : string) : PyExc := DriverError "TypeError" msg.

(** The parameters of [plot_results], all required. *)
Definition plot_results_parameters : list string :=
  ["clickhouse_write_time"; "vertica_write_time";
   "clickhouse_read_time"; "vertica_read_time"]%string.

Section Script.

(** The message the interpreter puts in the [TypeError] of a call of
    [plot_results] whose unpacked argument cannot be bound to the parameters.
    The wording is the interpreter's and changes between its versions. *)
Variable binding_error : option (gmap string Z) -> string.

(** [plot_results] called with [times] unpacked into keyword arguments:
    [times] must be a mapping, each of its keys must name a parameter and
    every parameter must be given; otherwise the call raises [TypeError]. *)
Definition call_plot_results (times : option (gmap string Z)) : Py (list PlotCall) :=
  match times with
  | None => raise (TypeError (binding_error times))
  | Some kwargs =>
      if decide (dom kwargs ⊆ list_to_set plot_results_parameters) then
        match kwargs !! "clickhouse_write_time"%string,
              kwargs !! "vertica_write_time"%string,
              kwargs !! "clickhouse_read_time"%string,
              kwargs !! "vertica_read_time"%string with
        | Some cw, Some vw, Some cr, Some vr => plot_results cw vw cr vr
        | _, _, _, _ => raise (TypeError (binding_error times))
        end
      else raise (TypeError (binding_error times))
  end.

(** The [if __name__ == "__main__"] block.  [time.sleep(3)] changes nothing
    the model observes, and [asyncio.run(main())] runs [main] to its end. *)
Definition script : Py (list PlotCall) :=
  logger_info "Start script" ;;
  times <- main ;;
  call_plot_results times.

End Script.

(** The message of CPython 3.11 when the argument after the two stars is
    [None]; the function is named with its module, which is [__main__] when
    the file is run as a script. *)
Definition none_is_not_a_mapping : string :=
  "__main__.plot_results() argument after ** must be a mapping, not NoneType".

(** ** A concrete world for examples *)

Definition empty_catalog : Catalog := mkCatalog ∅ ∅.

Definition initial_state : State :=
  mkState 0 0 0 [] [] empty_catalog "" [] [].

(** Every driver call succeeds and the clock advances by one second per
    reading. *)
Definition quiet_env (cfg : Settings.t) : Env :=
  {| settings := cfg;
     rng := fun k => Z.of_nat k * (3 * 2 ^ 49 + 1);
     urandom := fun k => 2 ^ 127 + Z.of_nat k;
     clock := fun k => 1700000000000000 + 1000000 * Z.of_nat k;
     ch_connect := None;
     ch_fault := fun _ => None;
     ch_reply := fun _ => "";
     ch_has_rows := fun _ => None;
     ch_rows := fun _ => None;
     v_connect := None;
     v_fault := fun _ => None |}.

(** * Vocabulary of the statements *)

(** ** Text *)

(** Does the text contain a dot? *)
Fixpoint has_dot (s : string) : bool :=
  match s with
  | EmptyString => false
  | String c s' => if Ascii.eqb c ("."%char) then true else has_dot s'
  end.

(** ** Calls expected from the write paths *)

(** The tuples built from the events of the list, read in state [s]. *)
Definition vertica_rows (s : State) (events : list nat) : list Row :=
  map (fun event => model_dump_values (deref s event)) events.

(** One single-row insert per tuple. *)
Definition inserts (rows : list Row) : list VCall :=
  map (fun d => VExecute vertica_insert (Some d)) rows.

(** None of the [n] cursor calls numbered from [from] on raises. *)
Definition no_v_fault (env : Env) (from n : nat) : Prop :=
  forall k, (k < n)%nat -> v_fault env (from + k) = None.

(** The inserts, then the commit. *)
Definition vertica_batch (s : State) (events : list nat) : list VCall :=
  inserts (vertica_rows s events) ++ [VExecute "COMMIT" None].

(** The rows and the single call of [ClickhouseLoader.load_batch]. *)
Definition clickhouse_rows (s : State) (event_batch : list nat) : list Row :=
  map (fun event => model_dump_values (deref s event)) event_batch.

Definition clickhouse_insert (s : State) (event_batch : list nat) : ChCall :=
  ChInsert "example.events" (clickhouse_rows s event_batch) Event_model_fields.

(** A world in which the first cursor call is refused. *)
Definition refusing_vertica (env : Env) : Env :=
  {| settings := settings env; rng := rng env; urandom := urandom env;
     clock := clock env; ch_connect := ch_connect env; ch_fault := ch_fault env;
     ch_reply := ch_reply env;
     ch_has_rows := ch_has_rows env; ch_rows := ch_rows env;
     v_connect := v_connect env;
     v_fault := fun k => match k with
                         | O => Some (DriverError "QueryError" "refused")
                         | S _ => v_fault env k
                         end |}.

(** Replacing the loaded settings, everything else being equal. *)
Definition with_settings (cfg : Settings.t) (env : Env) : Env :=
  {| settings := cfg; rng := rng env; urandom := urandom env;
     clock := clock env; ch_connect := ch_connect env; ch_fault := ch_fault env;
     ch_reply := ch_reply env;
     ch_has_rows := ch_has_rows env; ch_rows := ch_rows env;
     v_connect := v_connect env; v_fault := v_fault env |}.

(** ** Column-store initialization *)

(** None of the [n] client calls numbered from [from] on raises. *)
Definition no_ch_fault (env : Env) (from n : nat) : Prop :=
  forall k, (k < n)%nat -> ch_fault env (from + k) = None.

(** The statements of [init_clickhouse] and the calls that carry them. *)
Definition init_commands (cs : ClickhouseSettings.t) : list ChStmt :=
  let database := ClickhouseSettings.database cs in
  let table := ClickhouseSettings.table cs in
  [CreateDatabaseIfNotExists database;
   Use database;
   DropTableIfExists database table;
   CreateTableIfNotExists database table clickhouse_columns
     "Engine=MergeTree() ORDER BY timestamp"].

Definition init_calls (cs : ClickhouseSettings.t) : list ChCall :=
  map (fun q => ChCommand (render q)) (init_commands cs).

(** The catalog after the four statements have been applied. *)
Definition provisioned (cs : ClickhouseSettings.t) (c : Catalog) : Catalog :=
  let database := ClickhouseSettings.database cs in
  let table := ClickhouseSettings.table cs in
  mkCatalog ({[database]} ∪ databases c)
            (<[(database, table) := clickhouse_columns]>
               (delete (database, table) (tables c))).

Definition init_failed : string := "An error occurred during ClickHouse initialization".

(** The four statements, as the text the f-strings produce. *)
Definition init_statements (database table : string) : list ChCall :=
  [ChCommand ("CREATE DATABASE IF NOT EXISTS " +:+ database);
   ChCommand ("USE " +:+ database);
   ChCommand ("DROP TABLE IF EXISTS " +:+ database +:+ "." +:+ table);
   ChCommand ("CREATE TABLE IF NOT EXISTS " +:+ database +:+ "." +:+ table
                +:+ " (event_type String, timestamp DateTime64, "
                +:+ "user_id UUID NULL, url String NULL) "
                +:+ "Engine=MergeTree() ORDER BY timestamp")].

(** A world in which the client raises on its third call. *)
Definition failing_drop (env : Env) : Env :=
  {| settings := settings env; rng := rng env; urandom := urandom env;
     clock := clock env; ch_connect := ch_connect env;
     ch_fault := fun k => match k with
                          | 2%nat => Some (DriverError "OperationalError" "timeout")
                          | _ => ch_fault env k
                          end;
     ch_reply := ch_reply env;
     ch_has_rows := ch_has_rows env; ch_rows := ch_rows env;
     v_connect := v_connect env; v_fault := v_fault env |}.

(** A catalog that already holds [example.events] with another schema. *)
Definition stale_catalog : Catalog :=
  mkCatalog {["example"%string]}
            {[("example"%string, "events"%string) := [("id"%string, "UInt64"%string)]]}.

Definition stale_state : State :=
  mkState 0 0 0 [] [] stale_catalog "default" [] [].

(** ** Reading the column store *)

(** The exception, if any, that leaves
    [query_result.result_rows if hasattr(query_result, 'result_rows') else []]
    for the result of the k-th client call. *)
Definition result_rows_fault (env : Env) (k : nat) : option PyExc :=
  match ch_has_rows env k with
  | Some e => if is_AttributeError e then None else Some e
  | None => ch_rows env k
  end.

(** ** The generator *)

Definition event_types : list string := ["click"; "view"; "purchase"]%string.

Definition urls : list (option string) :=
  [Some "http://example.com"; Some "http://test.com"; None]%string.

(** The UUID that [uuid4] makes from the k-th entropy block. *)
Definition uuid_of_draw (env : Env) (k : nat) : Z :=
  UUID_version4 (urandom env k mod 2 ^ 128).

(** What one iteration produces: the event built from the clock reading
    [cp] and, when it carries a user id, from the entropy block [up]. *)
Definition generated_at (env : Env) (cp up : nat) (e : Event) (up' : nat) : Prop :=
  event_type e ∈ event_types /\
  (exists days, 0 <= days <= 10 /\ timestamp e = clock env cp - days * 86400000000) /\
  (user_id e = None /\ up' = up \/
   user_id e = Some (uuid_of_draw env up) /\ up' = S up) /\
  url e ∈ urls.

(** The events of consecutive iterations, starting at clock reading [cp]
    and entropy block [up]. *)
Inductive generated (env : Env) : nat -> nat -> list Event -> nat -> Prop :=
| generated_nil cp up : generated env cp up [] up
| generated_cons cp up e up1 evs up' :
    generated_at env cp up e up1 ->
    generated env (S cp) up1 evs up' ->
    generated env cp up (e :: evs) up'.

(** ** The orchestrator *)

(** What the Python side of the state holds: the consumed part of the random
    source, of the entropy source and of the clock, and the object store. *)
Definition same_python_side (s s' : State) : Prop :=
  rng_pos s' = rng_pos s /\ urandom_pos s' = urandom_pos s /\
  clock_pos s' = clock_pos s /\ heap s' = heap s.

(** Calls that are all [client.command] calls: no insert, no query. *)
Definition only_commands (calls : list ChCall) : Prop :=
  Forall (fun c => exists cmd, c = ChCommand cmd) calls.

(** The dict built in [connect_to_vertica]. *)
Definition connection_info (vs : VerticaSettings.t) : list (string * PyVal) :=
  [("host", PyStr (VerticaSettings.host vs));
   ("port", PyInt (VerticaSettings.port vs));
   ("user", PyStr (VerticaSettings.user vs));
   ("password", PyStr (VerticaSettings.password vs));
   ("database", PyStr (VerticaSettings.database vs));
   ("autocommit", PyBool true)]%string.

(** The exception that leaves [connect_to_vertica] when the driver raises [e]. *)
Definition connect_error (e : PyExc) : PyExc :=
  match e with
  | VerticaConnectionError _ => BuiltinConnectionError
  | _ => e
  end.

(** A world in which the row store cannot be reached. *)
Definition unreachable_vertica (env : Env) : Env :=
  {| settings := settings env; rng := rng env; urandom := urandom env;
     clock := clock env; ch_connect := ch_connect env; ch_fault := ch_fault env;
     ch_reply := ch_reply env;
     ch_has_rows := ch_has_rows env; ch_rows := ch_rows env;
     v_connect := Some (VerticaConnectionError "Failed to establish a connection");
     v_fault := v_fault env |}.

(** A world in which the rows of a query result cannot be read: the
    property [result_rows] raises when [hasattr] evaluates it. *)
Definition unreadable_rows (env : Env) : Env :=
  {| settings := settings env; rng := rng env; urandom := urandom env;
     clock := clock env; ch_connect := ch_connect env; ch_fault := ch_fault env;
     ch_reply := ch_reply env;
     ch_has_rows := fun _ => Some (DriverError "OperationalError" "connection reset");
     ch_rows := ch_rows env;
     v_connect := v_connect env; v_fault := v_fault env |}.

(** ** Further worlds: a clock set back, a late failure *)

(** A world whose wall clock is set back by five seconds after its 1001st
    reading: readings 0 to 1000 are those of [env], the later ones are five
    seconds behind. *)
Definition clock_set_back (env : Env) : Env :=
  {| settings := settings env; rng := rng env; urandom := urandom env;
     clock := fun k => if (k <=? 1000)%nat then clock env k else clock env k - 5000000;
     ch_connect := ch_connect env; ch_fault := ch_fault env;
     ch_reply := ch_reply env;
     ch_has_rows := ch_has_rows env; ch_rows := ch_rows env;
     v_connect := v_connect env; v_fault := v_fault env |}.

(** A world in which the client raises on its eighth call. *)
Definition failing_eighth_call (env : Env) : Env :=
  {| settings := settings env; rng := rng env; urandom := urandom env;
     clock := clock env; ch_connect := ch_connect env;
     ch_fault := fun k => match k with
                          | 7%nat => Some (DriverError "OperationalError" "timeout")
                          | _ => ch_fault env k
                          end;
     ch_reply := ch_reply env;
     ch_has_rows := ch_has_rows env; ch_rows := ch_rows env;
     v_connect := v_connect env; v_fault := v_fault env |}.

(** ** The statements under [try] in [main] *)

(** The body of the [try] statement of [main], without its handler. *)
Definition main_body : Py (option (gmap string Z)) :=
  logger_info "Starting data generation and loading process" ;;
  env <- ask ;;
  db_manager <- DatabaseManager_init (Settings.clickhouse (settings env))
                                     (Settings.vertica (settings env)) ;;
  init_clickhouse (clickhouse_loader db_manager) ;;
  create_vertica_table db_manager ;;
  let num_events := 1000 in
  events <- generate_events num_events ;;
  clickhouse_write_time <- load_data_to_clickhouse events (clickhouse_loader db_manager) ;;
  vertica_write_time <- load_data_to_vertica events ;;
  clickhouse_read_time <- read_data (clickhouse_loader db_manager) ;;
  vertica_read_time <- read_data_from_vertica db_manager ;;
  emit (LogInfoSeconds "ClickHouse write time" clickhouse_write_time) ;;
  emit (LogInfoSeconds "Vertica write time" vertica_write_time) ;;
  emit (LogInfoSeconds "ClickHouse read time" clickhouse_read_time) ;;
  emit (LogInfoSeconds "Vertica read time" vertica_read_time) ;;
  ret (Some (<["vertica_read_time" := vertica_read_time]>
            (<["clickhouse_read_time" := clickhouse_read_time]>
            (<["vertica_write_time" := vertica_write_time]>
            (<["clickhouse_write_time" := clickhouse_write_time]> ∅))))).

(** ** Further vocabulary: the generator, draw by draw *)

(** The event of the iteration that starts at random draw [p] and takes the
    clock reading [cp]: which draw decides which field. *)
Definition drawn_at (env : Env) (p cp : nat) (e : Event) : Prop :=
  ["click"; "view"; "purchase"]%string !! Z.to_nat (rng env p mod 3)
    = Some (event_type e) /\
  timestamp e = clock env cp - (rng env (1 + p) mod 11) * 86400000000 /\
  (user_id e <> None <-> 2 ^ 52 < rng env (2 + p) mod 2 ^ 53) /\
  [Some "http://example.com"; Some "http://test.com"; None]%string
    !! Z.to_nat (rng env (3 + p) mod 3) = Some (url e).

(** ** Further vocabulary: failures, counts and invariants *)

(** A world in which every call on the column-store client raises. *)
Definition failing_clickhouse (env : Env) : Env :=
  {| settings := settings env; rng := rng env; urandom := urandom env;
     clock := clock env; ch_connect := ch_connect env;
     ch_fault := fun _ => Some (DriverError "DatabaseError" "UNKNOWN_TABLE");
     ch_reply := ch_reply env;
     ch_has_rows := ch_has_rows env; ch_rows := ch_rows env;
     v_connect := v_connect env; v_fault := v_fault env |}.

(** A world in which the third cursor call raises. *)
Definition failing_third_execute (env : Env) : Env :=
  {| settings := settings env; rng := rng env; urandom := urandom env;
     clock := clock env; ch_connect := ch_connect env; ch_fault := ch_fault env;
     ch_reply := ch_reply env;
     ch_has_rows := ch_has_rows env; ch_rows := ch_rows env;
     v_connect := v_connect env;
     v_fault := fun k => match k with
                         | 2%nat => Some (DriverError "QueryError" "value too long")
                         | _ => v_fault env k
                         end |}.

(** How many of [count] consecutive calls, the first numbered [from], are
    made when the sequence is abandoned after the first one that raises. *)
Fixpoint issued_until_fault (fault : nat -> option PyExc) (from count : nat) : nat :=
  match count with
  | O => O
  | S c =>
      match fault from with
      | Some _ => 1%nat
      | None => S (issued_until_fault fault (S from) c)
      end
  end.

(** [m], run in the world [env], takes every state to one related to it. *)
Definition preserves {A} (R : State -> State -> Prop) (env : Env) (m : Py A) : Prop :=
  forall s, R s (snd (m env s)).

(** No database has been removed and no table other than [key] differs. *)
Definition catalog_frame (key : string * string) (s s' : State) : Prop :=
  databases (ch_catalog s) ⊆ databases (ch_catalog s') /\
  forall k, k <> key -> tables (ch_catalog s') !! k = tables (ch_catalog s) !! k.

(** A world in which the column store cannot be reached. *)
Definition unreachable_clickhouse (env : Env) : Env :=
  {| settings := settings env; rng := rng env; urandom := urandom env;
     clock := clock env;
     ch_connect := Some (DriverError "OperationalError" "connection refused");
     ch_fault := ch_fault env; ch_reply := ch_reply env;
     ch_has_rows := ch_has_rows env; ch_rows := ch_rows env;
     v_connect := v_connect env; v_fault := v_fault env |}.

(** * Properties *)

(** ** Text *)

Lemma append_assoc (a b c : string) : (a +:+ b) +:+ c = a +:+ b +:+ c.
Proof.
  induction a as [| ch a IH]; [reflexivity |].
  change (String ch ((a +:+ b) +:+ c) = String ch (a +:+ b +:+ c)).
  now rewrite IH.
Qed.

Lemma has_dot_qualified (db tbl : string) : has_dot (db +:+ "." +:+ tbl) = true.
Proof.
  induction db as [| c db IH]; [reflexivity |].
  change (has_dot (String c (db +:+ "." +:+ tbl)) = true).
  cbn [has_dot]. now destruct (Ascii.eqb c ("."%char)).
Qed.

(** A qualified name whose two parts contain no dot splits in one way only. *)
Lemma qualified_split (db' tbl' db tbl : string) :
  has_dot db' = false -> has_dot tbl' = false ->
  db +:+ "." +:+ tbl = db' +:+ "." +:+ tbl' -> db = db' /\ tbl = tbl'.
Proof.
  revert db. induction db' as [| c' db' IH]; intros db Hd Ht H.
  - destruct db as [| c db].
    + split; [reflexivity |]. now injection H.
    + change (String c (db +:+ "." +:+ tbl) = String ("."%char) tbl') in H.
      injection H as -> H. rewrite <- H, has_dot_qualified in Ht. discriminate.
  - cbn [has_dot] in Hd. destruct (Ascii.eqb c' ("."%char)) eqn:Hc; [discriminate |].
    destruct db as [| c db].
    + change (String ("."%char) tbl = String c' (db' +:+ "." +:+ tbl')) in H.
      injection H as <- _. discriminate.
    + change (String c (db +:+ "." +:+ tbl) = String c' (db' +:+ "." +:+ tbl')) in H.
      injection H as -> H. destruct (IH db Hd Ht H) as [-> ->]. now split.
Qed.

(** ** UUID fields *)

Lemma testbit_small c k n : 0 <= c < 2 ^ k -> k <= n -> Z.testbit c n = false.
Proof.
  intros Hc Hn. destruct (Z.eq_dec c 0) as [-> | Hz]; [apply Z.bits_0 |].
  apply Z.bits_above_log2; [lia |].
  assert (Z.log2 c < k); [| lia]. apply Z.log2_lt_pow2; lia.
Qed.

(** The version field (bits 76..79) of a generated UUID is 4. *)
Lemma UUID_version4_version x : Z.land (Z.shiftr (UUID_version4 x) 76) 15 = 4.
Proof.
  apply Z.bits_inj'. intros n Hn. unfold UUID_version4.
  rewrite Z.land_spec, Z.shiftr_spec, Z.lor_spec, Z.land_spec, Z.lor_spec, Z.land_spec by lia.
  rewrite !Z.lnot_spec, !Z.shiftl_spec by lia.
  destruct (Z_lt_le_dec n 4) as [Hlt | Hge].
  - assert (n = 0 \/ n = 1 \/ n = 2 \/ n = 3) as [-> | [-> | [-> | ->]]] by lia; cbn;
      rewrite ?Bool.andb_false_r; reflexivity.
  - rewrite (testbit_small 15 4 n), (testbit_small 4 4 n) by lia.
    now rewrite Bool.andb_false_r.
Qed.

(** The variant field (bits 62..63) of a generated UUID is binary 10. *)
Lemma UUID_version4_variant x : Z.land (Z.shiftr (UUID_version4 x) 62) 3 = 2.
Proof.
  apply Z.bits_inj'. intros n Hn. unfold UUID_version4.
  rewrite Z.land_spec, Z.shiftr_spec, Z.lor_spec, Z.land_spec, Z.lor_spec, Z.land_spec by lia.
  rewrite !Z.lnot_spec, !Z.shiftl_spec by lia.
  destruct (Z_lt_le_dec n 2) as [Hlt | Hge].
  - assert (n = 0 \/ n = 1) as [-> | ->] by lia; cbn;
      rewrite ?Bool.andb_false_r, ?Bool.orb_true_r; reflexivity.
  - rewrite (testbit_small 3 2 n), (testbit_small 2 2 n) by lia.
    now rewrite Bool.andb_false_r.
Qed.

(** ** Running monadic code *)

Section Running.
Context {A B : Type}.
Implicit Types (m : Py A) (k : A -> Py B).

Lemma bind_returns m k env s a s1 :
  m env s = (Returns a, s1) -> bind m k env s = k a env s1.
Proof. intros H. unfold bind. now rewrite H. Qed.

Lemma bind_raises m k env s e s1 :
  m env s = (Raises e, s1) -> bind m k env s = (Raises e, s1).
Proof. intros H. unfold bind. now rewrite H. Qed.

Lemma bind_inv_returns m k env s b s' :
  bind m k env s = (Returns b, s') ->
  exists a s1, m env s = (Returns a, s1) /\ k a env s1 = (Returns b, s').
Proof.
  unfold bind. destruct (m env s) as [[a | e] s1]; intros H.
  - now exists a, s1.
  - discriminate.
Qed.
End Running.

Lemma try_except_returns {A} (m : Py A) h env s a s1 :
  m env s = (Returns a, s1) -> try_except m h env s = (Returns a, s1).
Proof. intros H. unfold try_except. now rewrite H. Qed.

Lemma try_except_raises {A} (m : Py A) h env s e s1 :
  m env s = (Raises e, s1) -> try_except m h env s = h e env s1.
Proof. intros H. unfold try_except. now rewrite H. Qed.

(** ** The row-store write path *)

(** The loop issues the inserts in order and stops at the first one that
    raises; nothing but the list of calls changes. *)
Lemma for_each_insert env (rows : list Row) :
  forall s, exists r issued,
    for_each rows (fun d => cursor_execute vertica_insert (Some d)) env s
      = (r, set_v_calls (v_calls s ++ issued) s) /\
    issued `prefix_of` inserts rows /\
    (forall u, r = Returns u -> issued = inserts rows) /\
    (no_v_fault env (length (v_calls s)) (length rows) -> r = Returns tt).
Proof.
  induction rows as [| d rows IH]; intros s.
  - exists (Returns tt), []. cbn. rewrite app_nil_r.
    split; [now destruct s |]. split; [reflexivity |]. split; [reflexivity | trivial].
  - cbn [for_each]. unfold bind at 1. unfold cursor_execute at 1.
    destruct (v_fault env (length (v_calls s))) as [e |] eqn:F.
    + exists (Raises e), [VExecute vertica_insert (Some d)].
      split; [reflexivity |]. split.
      * exists (inserts rows). reflexivity.
      * split; [discriminate |]. intros Hq. specialize (Hq 0%nat).
        rewrite Nat.add_0_r, F in Hq. cbn in Hq. discriminate Hq. lia.
    + destruct (IH (set_v_calls (v_calls s ++ [VExecute vertica_insert (Some d)]) s))
        as (r & issued & Hrun & Hpre & Hret & Hok).
      exists r, (VExecute vertica_insert (Some d) :: issued).
      split.
      * rewrite Hrun. cbn. now rewrite <- app_assoc.
      * split; [cbn; now apply prefix_cons |].
        split; [intros u Hu; cbn; f_equal; eauto |].
        intros Hq. apply Hok. cbn. intros k Hk. rewrite length_app. cbn.
        replace (length (v_calls s) + 1 + k)%nat with (length (v_calls s) + S k)%nat by lia.
        apply Hq. cbn. lia.
Qed.

(** The whole write path: the calls issued are a prefix of the batch, the
    whole batch when the function returns, and only the clock position and
    the list of calls change. *)
Lemma load_data_to_vertica_run env s events :
  exists r issued cp,
    load_data_to_vertica events env s
      = (r, set_clock_pos cp (set_v_calls (v_calls s ++ issued) s)) /\
    issued `prefix_of` vertica_batch s events /\
    (forall d, r = Returns d ->
       issued = vertica_batch s events /\
       d = clock env (S (clock_pos s)) - clock env (clock_pos s) /\
       cp = S (S (clock_pos s))) /\
    (no_v_fault env (length (v_calls s)) (S (length events)) -> exists d, r = Returns d).
Proof.
  unfold load_data_to_vertica, with_cursor, time_time, read_clock.
  unfold bind at 1. unfold bind at 1. unfold bind at 1. unfold get at 1.
  set (s0 := set_clock_pos (S (clock_pos s)) s).
  change (map _ events) with (vertica_rows s events).
  destruct (for_each_insert env (vertica_rows s events) s0)
    as (r1 & issued & Hrun & Hpre & Hret & Hok).
  unfold bind at 1. rewrite Hrun. destruct r1 as [[] | e].
  - specialize (Hret tt eq_refl). subst issued.
    unfold cursor_execute. cbn [v_calls set_v_calls s0 set_clock_pos].
    destruct (v_fault env (length (v_calls s ++ inserts (vertica_rows s events))))
      as [e |] eqn:F.
    + exists (Raises e), (vertica_batch s events), (S (clock_pos s)).
      split; [unfold vertica_batch; cbn; now rewrite <- app_assoc |].
      split; [reflexivity |].
      split; [discriminate |].
      intros Hq. specialize (Hq (length events)).
      rewrite length_app in F. unfold inserts, vertica_rows in F.
      rewrite !length_map in F. rewrite F in Hq. discriminate Hq. lia.
    + exists (Returns (clock env (S (clock_pos s)) - clock env (clock_pos s))),
        (vertica_batch s events), (S (S (clock_pos s))).
      split; [unfold vertica_batch; cbn; now rewrite <- app_assoc |].
      split; [reflexivity |].
      split; [| eauto].
      intros d Hd. injection Hd as <-. auto.
  - exists (Raises e), issued, (S (clock_pos s)).
    split; [reflexivity |].
    split; [unfold vertica_batch; now apply prefix_app_r |].
    split; [discriminate |].
    intros Hq. exfalso.
    assert (Raises e = Returns tt :> Outcome unit) as Hc; [| discriminate Hc].
    apply Hok. intros k Hk. unfold vertica_rows in Hk. rewrite length_map in Hk.
    apply Hq. lia.
Qed.

(** ** The column-store write path *)

(** A non-empty batch is sent in one [insert] call; whether the call
    succeeds or raises, one log record is written and [load_batch] returns. *)
Lemma load_batch_run env s self event_batch :
  event_batch <> [] ->
  exists record,
    load_batch self event_batch env s
      = (Returns tt,
         set_log (log s ++ [record])
           (set_ch_calls (ch_calls s ++ [clickhouse_insert s event_batch]) s)) /\
    match ch_fault env (length (ch_calls s)) with
    | Some e => record = LogException "Error while loading batch into ClickHouse: " e
    | None => exists summary, record = LogInfo ("Loaded batch with result " +:+ summary)
    end.
Proof.
  intros Hne. destruct event_batch as [| e0 rest]; [congruence |].
  unfold load_batch, bind, get, try_except, client_insert, logger_info,
    logger_exception, emit, modify.
  change (map _ (e0 :: rest)) with (clickhouse_rows s (e0 :: rest)).
  fold (clickhouse_insert s (e0 :: rest)).
  destruct (ch_fault env (length (ch_calls s))) as [e |].
  - eexists. split; reflexivity.
  - eexists. split; [reflexivity | eauto].
Qed.

Lemma load_batch_empty env s self : load_batch self [] env s = (Returns tt, s).
Proof. reflexivity. Qed.

Lemma load_batch_heap env s self event_batch :
  heap (snd (load_batch self event_batch env s)) = heap s.
Proof.
  destruct event_batch as [| e0 rest]; [reflexivity |].
  destruct (load_batch_run env s self (e0 :: rest)) as (record & -> & _); [discriminate |].
  reflexivity.
Qed.

(** * The claims *)

(** C2.  For a non-empty list of [n] events, [load_data_to_vertica] sends
    one single-row [INSERT] per event, in the order of the list, and then one
    [COMMIT]: the calls it issues are always a prefix of that sequence (so no
    bulk insert and no commit before the last insert), they are the whole
    sequence whenever the function returns, and it does return when no
    cursor call raises. *)
Theorem load_data_to_vertica_one_insert_per_event env s (events : list nat) :
  events <> [] ->
  let batch :=
    map (fun event => VExecute "INSERT INTO public.events VALUES (%s, %s, %s, %s)"
                        (Some (model_dump_values (deref s event)))) events
      ++ [VExecute "COMMIT" None] in
  exists r s' issued,
    load_data_to_vertica events env s = (r, s') /\
    v_calls s' = v_calls s ++ issued /\
    issued `prefix_of` batch /\
    length batch = S (length events) /\
    (forall d, r = Returns d -> issued = batch) /\
    ((forall k, (k <= length events)%nat -> v_fault env (length (v_calls s) + k) = None) ->
     exists d, r = Returns d).
Proof.
  intros _ batch.
  destruct (load_data_to_vertica_run env s events) as (r & issued & cp & Hrun & Hpre & Hret & Hok).
  assert (batch = vertica_batch s events) as Hb.
  { unfold batch, vertica_batch, inserts, vertica_rows. now rewrite map_map. }
  exists r, (set_clock_pos cp (set_v_calls (v_calls s ++ issued) s)), issued.
  split; [exact Hrun |]. split; [reflexivity |]. rewrite Hb.
  split; [exact Hpre |].
  split; [unfold vertica_batch, inserts, vertica_rows;
          rewrite length_app, !length_map; cbn; lia |].
  split; [intros d Hd; now apply (Hret d) |].
  intros Hq. apply Hok. intros k Hk. apply Hq. lia.
Qed.

Lemma load_data_to_vertica_one_insert_per_event_witness :
  let s :=
    set_heap [mkEvent "click" 5 None None;
              mkEvent "view" 6 (Some 9) (Some "http://test.com")] initial_state in
  exists d s',
    load_data_to_vertica [0%nat; 1%nat] (quiet_env Settings.defaults) s = (Returns d, s') /\
    v_calls s'
    = [VExecute "INSERT INTO public.events VALUES (%s, %s, %s, %s)"
         (Some ("click"%string, 5, None, None));
       VExecute "INSERT INTO public.events VALUES (%s, %s, %s, %s)"
         (Some ("view"%string, 6, Some 9, Some "http://test.com"%string));
       VExecute "COMMIT" None].
Proof.
  intros s.
  destruct (load_data_to_vertica_one_insert_per_event (quiet_env Settings.defaults) s
              [0%nat; 1%nat])
    as (r & s' & issued & Hrun & Hcalls & _ & _ & Hret & Hok); [discriminate |].
  destruct Hok as (d & ->); [intros k _; reflexivity |].
  exists d, s'. split; [exact Hrun |].
  rewrite Hcalls, (Hret d eq_refl). reflexivity.
Defined.

(** C3 (as amended).  On an empty list, [ClickhouseLoader.load_batch]
    returns at once: no client call, no log record, no exception, the state
    is untouched.  [load_data_to_vertica] on an empty list sends no [INSERT]
    but still sends its [COMMIT], and raises exactly when that call raises. *)
Theorem empty_batch_calls env s self :
  load_batch self [] env s = (Returns tt, s) /\
  exists r cp,
    load_data_to_vertica [] env s
      = (r, set_clock_pos cp (set_v_calls (v_calls s ++ [VExecute "COMMIT" None]) s)) /\
    match v_fault env (length (v_calls s)) with
    | Some e => r = Raises e
    | None => exists d, r = Returns d
    end.
Proof.
  split; [reflexivity |].
  unfold load_data_to_vertica, with_cursor, bind, get, time_time, read_clock,
    cursor_execute, ret. cbn.
  destruct (v_fault env (length (v_calls s))) as [e |]; eexists _, _; split;
    try reflexivity.
  eauto.
Qed.

(** C3, counterexample.  On the empty list the row-store write path issues
    a statement, and it raises when the server refuses that statement. *)
Lemma load_data_to_vertica_empty_commits :
  v_calls initial_state = [] /\
  v_calls (snd (load_data_to_vertica [] (quiet_env Settings.defaults) initial_state))
    = [VExecute "COMMIT" None] /\
  fst (load_data_to_vertica [] (refusing_vertica (quiet_env Settings.defaults)) initial_state)
    = Raises (DriverError "QueryError" "refused").
Proof. repeat split. Qed.

Lemma for_each_insert_settings cfg env (rows : list Row) :
  forall s,
    for_each rows (fun d => cursor_execute vertica_insert (Some d)) (with_settings cfg env) s
    = for_each rows (fun d => cursor_execute vertica_insert (Some d)) env s.
Proof.
  induction rows as [| d rows IH]; intros s; [reflexivity |].
  cbn [for_each]. unfold bind. unfold cursor_execute at 1 3.
  cbn [v_fault with_settings].
  destruct (v_fault env (length (v_calls s))); [reflexivity | apply IH].
Qed.

Lemma load_data_to_vertica_settings cfg env s events :
  load_data_to_vertica events (with_settings cfg env) s = load_data_to_vertica events env s.
Proof.
  unfold load_data_to_vertica, with_cursor.
  unfold bind at 1 5. unfold time_time, read_clock at 1 3. cbn [clock with_settings].
  unfold bind at 1 5. unfold bind at 1 4. unfold get at 1 2.
  unfold bind at 1 3. rewrite for_each_insert_settings.
  reflexivity.
Qed.

(** C7.  Whatever schema and table names are configured, every insert
    statement of the row-store write path is the fixed text that names
    [public.events]: the run does not depend on the settings at all, and the
    only other statement it sends is [COMMIT].  Table creation and the read
    do name the configured schema and table. *)
Theorem vertica_insert_ignores_settings env s (events : list nat) (self : DatabaseManager) :
  let schema := VerticaSettings.vertica_schema (Settings.vertica (settings env)) in
  let table := VerticaSettings.table (Settings.vertica (settings env)) in
  (forall cfg,
     load_data_to_vertica events (with_settings cfg env) s
     = load_data_to_vertica events env s) /\
  (exists issued,
     v_calls (snd (load_data_to_vertica events env s)) = v_calls s ++ issued /\
     Forall (fun c =>
               c = VExecute "COMMIT" None \/
               exists row,
                 c = VExecute "INSERT INTO public.events VALUES (%s, %s, %s, %s)" (Some row))
            issued) /\
  v_calls (snd (create_vertica_table self env s))
    = v_calls s ++
      [VExecute ("CREATE TABLE IF NOT EXISTS " +:+ schema +:+ "." +:+ table
                   +:+ " (event_type VARCHAR(255), timestamp TIMESTAMP, "
                   +:+ "user_id UUID NULL, url VARCHAR(255) NULL)") None] /\
  (exists rest,
     v_calls (snd (read_data_from_vertica self env s))
     = v_calls s ++ VExecute ("SELECT * FROM " +:+ schema +:+ "." +:+ table) None :: rest).
Proof.
  intros schema table.
  split; [intros cfg; apply load_data_to_vertica_settings |].
  split.
  { destruct (load_data_to_vertica_run env s events)
      as (r & issued & cp & -> & Hpre & _).
    exists issued. split; [reflexivity |].
    destruct Hpre as [rest Hrest].
    assert (Forall (fun c =>
               c = VExecute "COMMIT" None \/
               exists row, c = VExecute vertica_insert (Some row))
              (vertica_batch s events)) as Hall.
    { unfold vertica_batch, inserts. apply Forall_app. split.
      - apply Forall_forall. intros c Hc. apply list_elem_of_In, in_map_iff in Hc.
        destruct Hc as (row & <- & _). right. now exists row.
      - repeat constructor. }
    rewrite Hrest in Hall. now apply Forall_app in Hall. }
  split.
  { unfold create_vertica_table, with_cursor, bind, try_except, ask, logger_info,
      logger_exception, emit, modify, cursor_execute. cbn.
    fold schema table.
    destruct (v_fault env (length (v_calls s))); cbn [snd v_calls set_log set_v_calls];
      unfold qualified; rewrite !append_assoc; reflexivity. }
  unfold read_data_from_vertica, with_cursor, bind, ask, time_time, read_clock,
    cursor_execute, cursor_fetchall, ret. cbn.
  fold schema table.
  destruct (v_fault env (length (v_calls s))); cbn.
  - now exists [].
  - destruct (v_fault env _); cbn; exists [VFetchAll]; now rewrite <- app_assoc.
Qed.

(** ** Column-store initialization *)

Lemma init_clickhouse_run env s self :
  let cs := loader_settings self in
  let n := length (ch_calls s) in
  exists issued c session lg,
    init_clickhouse self env s
      = (Returns tt,
         set_log (log s ++ LogInfo "Initializing ClickHouse" :: lg)
           (set_ch_server c session (set_ch_calls (ch_calls s ++ issued) s))) /\
    issued `prefix_of` init_calls cs /\
    (forall k e, (k < 4)%nat -> no_ch_fault env n k -> ch_fault env (n + k) = Some e ->
       issued = take (S k) (init_calls cs) /\
       last lg = Some (LogException init_failed e)) /\
    (no_ch_fault env n 4 ->
       issued = init_calls cs /\
       c = provisioned cs (ch_catalog s) /\
       session = ClickhouseSettings.database cs).
Proof.
  intros cs n.
  assert (forall a, length (ch_calls s ++ [a]) = (n + 1)%nat) as E1
    by (intros; rewrite length_app; reflexivity).
  assert (forall a b, length ((ch_calls s ++ [a]) ++ [b]) = (n + 2)%nat) as E2
    by (intros; rewrite !length_app; cbn; fold n; lia).
  assert (forall a b c, length (((ch_calls s ++ [a]) ++ [b]) ++ [c]) = (n + 3)%nat) as E3
    by (intros; rewrite !length_app; cbn; fold n; lia).
  unfold init_clickhouse, bind, try_except, client_command, logger_info,
    logger_exception, emit, modify.
  cbn. fold cs n.
  destruct (ch_fault env n) as [e0 |] eqn:F0; cbn.
  { exists [ChCommand (render (CreateDatabaseIfNotExists (ClickhouseSettings.database cs)))],
      (ch_catalog s), (ch_session s), [LogException init_failed e0].
    split; [cbn; rewrite <- ?app_assoc; reflexivity |]. split; [now eexists |]. split.
    - intros k e Hk Hno Hat. destruct k as [| k].
      + rewrite Nat.add_0_r in Hat. now replace e with e0 by congruence.
      + specialize (Hno 0%nat ltac:(lia)). rewrite Nat.add_0_r in Hno. congruence.
    - intros Hno. specialize (Hno 0%nat ltac:(lia)). rewrite Nat.add_0_r in Hno. congruence. }
  rewrite E1. rewrite decide_True by set_solver. cbn.
  destruct (ch_fault env (n + 1)) as [e1 |] eqn:F1; cbn.
  { exists (take 2 (init_calls cs)),
      (mkCatalog ({[ClickhouseSettings.database cs]} ∪ databases (ch_catalog s))
                 (tables (ch_catalog s))),
      (ch_session s), [LogException init_failed e1].
    split; [cbn; rewrite <- ?app_assoc; reflexivity |]. split; [now eexists |]. split.
    - intros k e Hk Hno Hat. destruct k as [| [| k]].
      + rewrite Nat.add_0_r in Hat. congruence.
      + now replace e with e1 by congruence.
      + specialize (Hno 1%nat ltac:(lia)). congruence.
    - intros Hno. specialize (Hno 1%nat ltac:(lia)). congruence. }
  rewrite E2.
  destruct (ch_fault env (n + 2)) as [e2 |] eqn:F2; cbn.
  { exists (take 3 (init_calls cs)),
      (mkCatalog ({[ClickhouseSettings.database cs]} ∪ databases (ch_catalog s))
                 (tables (ch_catalog s))),
      (ClickhouseSettings.database cs), [LogException init_failed e2].
    split; [cbn; rewrite <- ?app_assoc; reflexivity |]. split; [now eexists |]. split.
    - intros k e Hk Hno Hat. destruct k as [| [| [| k]]].
      + rewrite Nat.add_0_r in Hat. congruence.
      + congruence.
      + now replace e with e2 by congruence.
      + specialize (Hno 2%nat ltac:(lia)). congruence.
    - intros Hno. specialize (Hno 2%nat ltac:(lia)). congruence. }
  rewrite E3. rewrite decide_True by set_solver. rewrite lookup_delete_eq. cbn.
  destruct (ch_fault env (n + 3)) as [e3 |] eqn:F3; cbn.
  { eexists (init_calls cs), _, _, [_; _; LogException init_failed e3].
    split; [cbn; rewrite <- ?app_assoc; reflexivity |]. split; [reflexivity |]. split.
    - intros k e Hk Hno Hat. destruct k as [| [| [| [| k]]]]; try lia.
      + rewrite Nat.add_0_r in Hat. congruence.
      + congruence.
      + congruence.
      + now replace e with e3 by congruence.
    - intros Hno. specialize (Hno 3%nat ltac:(lia)). congruence. }
  eexists (init_calls cs), _, _, [_; _; _].
  split; [cbn; rewrite <- ?app_assoc; reflexivity |]. split; [reflexivity |]. split.
  - intros k e Hk Hno Hat. destruct k as [| [| [| [| k]]]]; try lia;
      rewrite ?Nat.add_0_r in Hat; congruence.
  - intros _. repeat split.
Qed.

Lemma init_calls_text cs :
  init_calls cs
  = init_statements (ClickhouseSettings.database cs) (ClickhouseSettings.table cs).
Proof.
  unfold init_calls, init_commands, init_statements. cbn [map render].
  unfold qualified. now rewrite !append_assoc.
Qed.

Lemma provisioned_idempotent cs c : provisioned cs (provisioned cs c) = provisioned cs c.
Proof.
  unfold provisioned. cbn [databases tables]. f_equal.
  - now rewrite (assoc_L (∪)), union_idemp_L.
  - now rewrite insert_delete_eq, insert_insert_eq.
Qed.

(** C4.  [init_clickhouse] sends, in this order, the statements that create
    the database, select it, drop the configured table if it exists and
    create it again with the four fixed columns.  It returns normally in
    every case.  When the k-th statement is the first that the client raises
    on, the statements up to it have been sent and the exception is the last
    record of the log; when none raises, all four have been sent and the
    catalog holds the configured table with exactly the four columns,
    whatever it held before. *)
Theorem init_clickhouse_drops_recreates_never_raises env s self :
  let database := ClickhouseSettings.database (loader_settings self) in
  let table := ClickhouseSettings.table (loader_settings self) in
  let n := length (ch_calls s) in
  exists s' issued,
    init_clickhouse self env s = (Returns tt, s') /\
    ch_calls s' = ch_calls s ++ issued /\
    issued `prefix_of` init_statements database table /\
    (forall k e, (k < 4)%nat ->
       (forall j, (j < k)%nat -> ch_fault env (n + j) = None) ->
       ch_fault env (n + k) = Some e ->
       issued = take (S k) (init_statements database table) /\
       last (log s')
         = Some (LogException "An error occurred during ClickHouse initialization" e)) /\
    ((forall j, (j < 4)%nat -> ch_fault env (n + j) = None) ->
       issued = init_statements database table /\
       database ∈ databases (ch_catalog s') /\
       tables (ch_catalog s') !! (database, table)
         = Some [("event_type", "String"); ("timestamp", "DateTime64");
                 ("user_id", "UUID NULL"); ("url", "String NULL")]%string).
Proof.
  intros database table n.
  destruct (init_clickhouse_run env s self)
    as (issued & c & session & lg & Hrun & Hpre & Hfail & Hok).
  rewrite init_calls_text in Hpre, Hfail, Hok. fold database table in Hpre, Hfail, Hok.
  eexists _, issued. split; [exact Hrun |].
  split; [reflexivity |]. split; [exact Hpre |]. split.
  - intros k e Hk Hno Hat. destruct (Hfail k e Hk Hno Hat) as [Hi Hl].
    split; [exact Hi |]. cbn [log set_log].
    rewrite last_app_cons, last_cons, Hl. reflexivity.
  - intros Hno. destruct (Hok Hno) as (Hi & Hc & _).
    split; [exact Hi |]. cbn [ch_catalog set_log set_ch_server]. subst c.
    unfold provisioned. cbn [databases tables].
    split; [now apply elem_of_union_l, elem_of_singleton |].
    apply lookup_insert_eq.
Qed.

Lemma init_clickhouse_drops_recreates_never_raises_witness :
  (exists s',
     init_clickhouse (mkClickhouseLoader ClickhouseSettings.defaults)
       (quiet_env Settings.defaults) stale_state = (Returns tt, s') /\
     ch_calls s' = init_statements "example" "events" /\
     tables (ch_catalog s') !! ("example"%string, "events"%string)
       = Some clickhouse_columns) /\
  (exists s',
     init_clickhouse (mkClickhouseLoader ClickhouseSettings.defaults)
       (failing_drop (quiet_env Settings.defaults)) stale_state = (Returns tt, s') /\
     ch_calls s' = take 3 (init_statements "example" "events") /\
     last (log s')
       = Some (LogException "An error occurred during ClickHouse initialization"
                 (DriverError "OperationalError" "timeout"))).
Proof.
  split.
  - destruct (init_clickhouse_drops_recreates_never_raises
                (quiet_env Settings.defaults) stale_state
                (mkClickhouseLoader ClickhouseSettings.defaults))
      as (s' & issued & Hrun & Hcalls & _ & _ & Hok).
    destruct Hok as (Hi & _ & Ht); [reflexivity |].
    exists s'. split; [exact Hrun |]. split; [| exact Ht].
    rewrite Hcalls, Hi. reflexivity.
  - destruct (init_clickhouse_drops_recreates_never_raises
                (failing_drop (quiet_env Settings.defaults)) stale_state
                (mkClickhouseLoader ClickhouseSettings.defaults))
      as (s' & issued & Hrun & Hcalls & _ & Hfail & _).
    destruct (Hfail 2%nat (DriverError "OperationalError" "timeout")) as [Hi Hl].
    + lia.
    + intros j Hj. destruct j as [| [| j]]; [reflexivity | reflexivity | lia].
    + reflexivity.
    + exists s'. split; [exact Hrun |]. split; [| exact Hl].
      rewrite Hcalls, Hi. reflexivity.
Defined.

(** C8.  Column-store initialization is idempotent on the database as long
    as none of the eight client calls of the two runs raises: from any
    catalog and session, running [init_clickhouse] a second time then leaves
    the catalog and the session database exactly as the first run left them,
    with the configured table carrying the four fixed columns.  Without that
    condition it is not: the handler swallows a failure, and a second run
    whose [CREATE TABLE] raises leaves the table dropped. *)
Theorem init_clickhouse_idempotent env s self :
  (forall j, (j < 8)%nat -> ch_fault env (length (ch_calls s) + j) = None) ->
  let database := ClickhouseSettings.database (loader_settings self) in
  let table := ClickhouseSettings.table (loader_settings self) in
  let once := snd (init_clickhouse self env s) in
  let twice := snd (init_clickhouse self env once) in
  ch_catalog twice = ch_catalog once /\
  ch_session twice = ch_session once /\
  tables (ch_catalog twice) !! (database, table)
    = Some [("event_type", "String"); ("timestamp", "DateTime64");
            ("user_id", "UUID NULL"); ("url", "String NULL")]%string.
Proof.
  intros Hno database table once twice.
  destruct (init_clickhouse_run env s self)
    as (issued & c & session & lg & Hrun & _ & _ & Hok).
  destruct Hok as (-> & -> & ->).
  { intros j Hj. apply Hno. lia. }
  assert (length (ch_calls once) = (length (ch_calls s) + 4)%nat) as Hlen.
  { unfold once. rewrite Hrun. cbn. rewrite length_app. reflexivity. }
  destruct (init_clickhouse_run env once self)
    as (issued2 & c2 & session2 & lg2 & Hrun2 & _ & _ & Hok2).
  destruct Hok2 as (-> & -> & ->).
  { intros j Hj. rewrite Hlen, <- Nat.add_assoc. apply Hno. lia. }
  unfold twice. rewrite Hrun2. cbn [snd ch_catalog ch_session set_log set_ch_server].
  unfold once. rewrite Hrun. cbn [snd ch_catalog ch_session set_log set_ch_server].
  split; [apply provisioned_idempotent |]. split; [reflexivity |].
  rewrite provisioned_idempotent. unfold provisioned. cbn [tables].
  apply lookup_insert_eq.
Qed.

Lemma init_clickhouse_idempotent_witness :
  let self := mkClickhouseLoader ClickhouseSettings.defaults in
  let once := snd (init_clickhouse self (quiet_env Settings.defaults) stale_state) in
  let twice := snd (init_clickhouse self (quiet_env Settings.defaults) once) in
  ch_catalog twice = ch_catalog once /\
  ch_session twice = ch_session once /\
  tables (ch_catalog twice) !! ("example"%string, "events"%string)
    = Some clickhouse_columns.
Proof.
  apply (init_clickhouse_idempotent (quiet_env Settings.defaults) stale_state
           (mkClickhouseLoader ClickhouseSettings.defaults)).
  intros j Hj. reflexivity.
Defined.

(** Two runs that differ from one: the second run drops the table and its
    [CREATE TABLE] raises; the handler swallows the exception, both runs
    return normally, and the table that existed after one run is gone after
    two. *)
Lemma init_clickhouse_second_run_loses_table :
  let self := mkClickhouseLoader ClickhouseSettings.defaults in
  let env := failing_eighth_call (quiet_env Settings.defaults) in
  let first := init_clickhouse self env initial_state in
  let second := init_clickhouse self env (snd first) in
  fst first = Returns tt /\ fst second = Returns tt /\
  tables (ch_catalog (snd first)) !! ("example"%string, "events"%string)
    = Some clickhouse_columns /\
  tables (ch_catalog (snd second)) !! ("example"%string, "events"%string) = None /\
  ch_catalog (snd second) <> ch_catalog (snd first).
Proof.
  intros self env first second.
  assert (tables (ch_catalog (snd first)) !! ("example"%string, "events"%string)
          = Some clickhouse_columns) as H1 by (vm_compute; reflexivity).
  assert (tables (ch_catalog (snd second)) !! ("example"%string, "events"%string) = None)
    as H2 by (vm_compute; reflexivity).
  split; [vm_compute; reflexivity |]. split; [vm_compute; reflexivity |].
  split; [exact H1 |]. split; [exact H2 |].
  intros Heq. rewrite Heq, H1 in H2. discriminate H2.
Qed.

Lemma read_data_run env s self :
  let database := ClickhouseSettings.database (loader_settings self) in
  let table := ClickhouseSettings.table (loader_settings self) in
  let s1 :=
    set_ch_calls (ch_calls s ++ [ChQuery ("SELECT * FROM " +:+ database +:+ "." +:+ table)])
      (set_clock_pos (S (clock_pos s)) s) in
  let s2 := set_clock_pos (S (S (clock_pos s))) s1 in
  read_data self env s
  = match ch_fault env (length (ch_calls s)) with
    | Some e => (Raises e, s1)
    | None =>
        match result_rows_fault env (length (ch_calls s)) with
        | Some e => (Raises e, s2)
        | None => (Returns (clock env (S (clock_pos s)) - clock env (clock_pos s)), s2)
        end
    end.
Proof.
  intros database table s1 s2.
  unfold read_data, bind, time_time, read_clock, client_query, ret,
    hasattr_result_rows, get_result_rows, result_rows_fault. cbn.
  destruct (ch_fault env (length (ch_calls s))); [reflexivity |].
  destruct (ch_has_rows env (length (ch_calls s))) as [e |].
  - now destruct (is_AttributeError e).
  - now destruct (ch_rows env (length (ch_calls s))).
Qed.

Lemma result_rows_fault_None env k :
  result_rows_fault env k = None <->
  match ch_has_rows env k with
  | Some e => is_AttributeError e = true
  | None => ch_rows env k = None
  end.
Proof.
  unfold result_rows_fault. destruct (ch_has_rows env k) as [e |]; [| reflexivity].
  destruct (is_AttributeError e); split; congruence.
Qed.

(** C10.  [load_batch] sends its batch to the literal table
    [example.events]: the call does not depend on the loader's settings.
    Initialization and [read_data] name the configured database and table,
    and that qualified name is [example.events] only for the default
    database and table names; under any other names the batch goes to a
    table other than the one provisioned and read. *)
Theorem load_batch_targets_example_events env s self (event_batch : list nat) :
  event_batch <> [] ->
  let database := ClickhouseSettings.database (loader_settings self) in
  let table := ClickhouseSettings.table (loader_settings self) in
  (forall self', load_batch self' event_batch env s = load_batch self event_batch env s) /\
  ch_calls (snd (load_batch self event_batch env s))
    = ch_calls s ++
      [ChInsert "example.events"
         (map (fun event => model_dump_values (deref s event)) event_batch)
         ["event_type"; "timestamp"; "user_id"; "url"]%string] /\
  (exists issued,
     ch_calls (snd (init_clickhouse self env s)) = ch_calls s ++ issued /\
     issued `prefix_of`
       [ChCommand ("CREATE DATABASE IF NOT EXISTS " +:+ database);
        ChCommand ("USE " +:+ database);
        ChCommand ("DROP TABLE IF EXISTS " +:+ database +:+ "." +:+ table);
        ChCommand ("CREATE TABLE IF NOT EXISTS " +:+ database +:+ "." +:+ table
                     +:+ " (event_type String, timestamp DateTime64, "
                     +:+ "user_id UUID NULL, url String NULL) "
                     +:+ "Engine=MergeTree() ORDER BY timestamp")]) /\
  ch_calls (snd (read_data self env s))
    = ch_calls s ++ [ChQuery ("SELECT * FROM " +:+ database +:+ "." +:+ table)] /\
  (database +:+ "." +:+ table = "example.events"
   <-> database = "example"%string /\ table = "events"%string).
Proof.
  intros Hne database table.
  split; [reflexivity |]. split.
  { destruct (load_batch_run env s self event_batch Hne) as (record & -> & _).
    reflexivity. }
  split.
  { destruct (init_clickhouse_run env s self)
      as (issued & c & session & lg & -> & Hpre & _).
    exists issued. split; [reflexivity |]. now rewrite init_calls_text in Hpre. }
  split.
  { rewrite read_data_run. fold database table.
    destruct (ch_fault env (length (ch_calls s))); [reflexivity |].
    now destruct (result_rows_fault env (length (ch_calls s))). }
  split.
  - intros H. now apply (qualified_split "example" "events").
  - now intros [-> ->].
Qed.

Lemma load_batch_targets_example_events_witness :
  let cs := ClickhouseSettings.mk "clickhouse-node1" 8123 "analytics" "default" "" "clicks" in
  let s := set_heap [mkEvent "click" 5 None None] initial_state in
  ch_calls (snd (load_batch (mkClickhouseLoader cs) [0%nat] (quiet_env Settings.defaults) s))
    = [ChInsert "example.events" [("click"%string, 5, None, None)]
         ["event_type"; "timestamp"; "user_id"; "url"]%string] /\
  ch_calls (snd (read_data (mkClickhouseLoader cs) (quiet_env Settings.defaults) s))
    = [ChQuery "SELECT * FROM analytics.clicks"] /\
  ~ ("analytics" +:+ "." +:+ "clicks" = "example.events").
Proof.
  intros cs s.
  destruct (load_batch_targets_example_events (quiet_env Settings.defaults) s
              (mkClickhouseLoader cs) [0%nat]) as (_ & Hins & _ & Hread & Hiff).
  - discriminate.
  - split; [exact Hins |]. split; [exact Hread |].
    intros H. apply Hiff in H. destruct H as [H _]. discriminate H.
Defined.

(** ** The timed column-store write *)

Lemma load_data_to_clickhouse_run env s loader events :
  exists s',
    load_data_to_clickhouse events loader env s
      = (Returns (clock env (S (clock_pos s)) - clock env (clock_pos s)), s') /\
    clock_pos s' = S (S (clock_pos s)) /\
    rng_pos s' = rng_pos s /\ urandom_pos s' = urandom_pos s /\
    heap s' = heap s /\ v_calls s' = v_calls s /\
    ch_calls s' = ch_calls s ++
                  match events with
                  | [] => []
                  | _ => [clickhouse_insert s events]
                  end.
Proof.
  unfold load_data_to_clickhouse, time_time, read_clock.
  unfold bind at 1. unfold bind at 1.
  destruct events as [| e0 rest].
  - rewrite load_batch_empty. eexists. split; [reflexivity |].
    cbn. now rewrite app_nil_r.
  - destruct (load_batch_run env (set_clock_pos (S (clock_pos s)) s) loader (e0 :: rest))
      as (record & -> & _); [discriminate |].
    eexists. split; [reflexivity |]. cbn. repeat split.
Qed.

(** C9.  Neither write path changes an [Event]: after
    [ClickhouseLoader.load_batch], after the timed [load_data_to_clickhouse]
    and after [load_data_to_vertica] the object store is the one the call
    started from, so every event of the list reads as it did before; this
    also holds when the call raises. *)
Theorem write_paths_leave_events_unchanged env s self (events : list nat) :
  let after_batch := snd (load_batch self events env s) in
  let after_clickhouse := snd (load_data_to_clickhouse events self env s) in
  let after_vertica := snd (load_data_to_vertica events env s) in
  (heap after_batch = heap s /\
   heap after_clickhouse = heap s /\
   heap after_vertica = heap s) /\
  (map (deref after_batch) events = map (deref s) events /\
   map (deref after_clickhouse) events = map (deref s) events /\
   map (deref after_vertica) events = map (deref s) events).
Proof.
  intros after_batch after_clickhouse after_vertica.
  assert (heap after_batch = heap s /\ heap after_clickhouse = heap s /\
          heap after_vertica = heap s) as (H1 & H2 & H3).
  { split; [apply load_batch_heap |]. split.
    - unfold after_clickhouse.
      destruct (load_data_to_clickhouse_run env s self events) as (s' & -> & H); apply H.
    - unfold after_vertica.
      destruct (load_data_to_vertica_run env s events) as (r & issued & cp & -> & _).
      reflexivity. }
  split; [auto |]. unfold deref. rewrite H1, H2, H3. auto.
Qed.

(** ** The generator *)

Lemma random_choice_run {A} (seq : list A) env s :
  seq <> [] ->
  exists x, random_choice seq env s = (Returns x, set_rng_pos (S (rng_pos s)) s) /\ x ∈ seq.
Proof.
  intros Hne. destruct seq as [| a seq]; [congruence |].
  unfold random_choice, bind, next_random.
  set (i := Z.to_nat (rng env (rng_pos s) mod Z.of_nat (length (a :: seq)))).
  assert (i < length (a :: seq))%nat as Hi.
  { unfold i.
    pose proof (Z.mod_pos_bound (rng env (rng_pos s)) (Z.of_nat (length (a :: seq)))) as Hb.
    cbn [length] in *. lia. }
  destruct (lookup_lt_is_Some_2 _ _ Hi) as [x Hx].
  exists x. rewrite Hx. split; [reflexivity |].
  apply list_elem_of_lookup. now exists i.
Qed.

Lemma generate_event_run env s :
  exists e up',
    generate_event env s
      = (Returns (length (heap s)),
         mkState (4 + rng_pos s) up' (S (clock_pos s)) (heap s ++ [e])
                 (ch_calls s) (ch_catalog s) (ch_session s) (v_calls s) (log s)) /\
    generated_at env (clock_pos s) (urandom_pos s) e up'.
Proof.
  unfold generate_event.
  destruct (random_choice_run event_types env s) as (et & Het & Hin); [discriminate |].
  rewrite (bind_returns _ _ _ _ _ _ Het).
  unfold bind at 1. unfold datetime_now, read_clock at 1.
  unfold bind at 1. unfold random_randint, bind at 1, next_random at 1, ret at 1.
  unfold bind at 1. unfold random_random, bind at 1, next_random at 1, ret at 1.
  cbn [rng_pos clock_pos set_rng_pos set_clock_pos].
  set (days := 0 + rng env (S (rng_pos s)) mod (10 - 0 + 1)).
  assert (0 <= days <= 10) as Hdays.
  { unfold days. pose proof (Z.mod_pos_bound (rng env (S (rng_pos s))) (10 - 0 + 1)). lia. }
  unfold bind at 1.
  destruct (gt_half (rng env (S (S (rng_pos s))) mod 2 ^ 53)).
  - unfold bind at 1, uuid4 at 1, ret at 1.
    match goal with |- context [bind (random_choice _) _ ?e ?st] =>
      destruct (random_choice_run urls e st) as (u & Hu & Hinu); [discriminate |]
    end.
    rewrite (bind_returns _ _ _ _ _ _ Hu).
    eexists _, _. split.
    + reflexivity.
    + split; [exact Hin |]. split; [exists days; now split |].
      split; [right; now split | exact Hinu].
  - unfold ret at 1.
    match goal with |- context [bind (random_choice _) _ ?e ?st] =>
      destruct (random_choice_run urls e st) as (u & Hu & Hinu); [discriminate |]
    end.
    rewrite (bind_returns _ _ _ _ _ _ Hu).
    eexists _, _. split.
    + reflexivity.
    + split; [exact Hin |]. split; [exists days; now split |].
      split; [left; now split | exact Hinu].
Qed.

Lemma comprehension_generate env n :
  forall s, exists evs up',
    comprehension n generate_event env s
      = (Returns (seq (length (heap s)) n),
         mkState (4 * n + rng_pos s) up' (n + clock_pos s) (heap s ++ evs)
                 (ch_calls s) (ch_catalog s) (ch_session s) (v_calls s) (log s)) /\
    length evs = n /\
    generated env (clock_pos s) (urandom_pos s) evs up'.
Proof.
  induction n as [| n IH]; intros s.
  - exists [], (urandom_pos s). split; [| split; [reflexivity | constructor]].
    cbn. rewrite app_nil_r. now destruct s.
  - destruct (generate_event_run env s) as (e & up1 & Hrun & Hat).
    cbn [comprehension]. rewrite (bind_returns _ _ _ _ _ _ Hrun).
    match type of Hrun with _ = (_, ?st) => destruct (IH st) as (evs & up' & Hrest & Hlen & Hgen) end.
    rewrite (bind_returns _ _ _ _ _ _ Hrest). unfold ret.
    cbn [heap rng_pos clock_pos urandom_pos ch_calls ch_catalog ch_session v_calls log] in *.
    exists (e :: evs), up'. split; [| split; [cbn; now rewrite Hlen | econstructor; eauto]].
    rewrite length_app, Nat.add_1_r, <- app_assoc. cbn [seq app].
    do 2 f_equal; lia.
Qed.

Lemma generated_lookup env cp up evs up' :
  generated env cp up evs up' ->
  (up <= up')%nat /\
  omap user_id evs = map (uuid_of_draw env) (seq up (up' - up)) /\
  forall (i : nat) e, evs !! i = Some e ->
    event_type e ∈ event_types /\
    (exists days, 0 <= days <= 10 /\
       timestamp e = clock env (cp + i) - days * 86400000000) /\
    (user_id e = None \/
     exists k, (up <= k < up')%nat /\ user_id e = Some (uuid_of_draw env k)) /\
    url e ∈ urls.
Proof.
  induction 1 as [cp up | cp up e up1 evs up' Hat Hgen (Hle & Hids & IH)].
  - split; [lia |]. split; [now rewrite Nat.sub_diag |]. intros i e Hi. discriminate Hi.
  - destruct Hat as (Het & Hts & Hid & Hurl).
    assert (up <= up1 <= up')%nat as Hup by (destruct Hid as [[_ ->] | [_ ->]]; lia).
    split; [lia |]. split.
    + cbn [omap list_omap]. destruct Hid as [[-> ->] | [-> ->]]; cbn; rewrite Hids.
      * reflexivity.
      * replace (up' - up)%nat with (S (up' - S up)) by lia. reflexivity.
    + intros [| i] e' Hi.
      * injection Hi as <-. rewrite Nat.add_0_r.
        split; [exact Het |]. split; [exact Hts |]. split; [| exact Hurl].
        destruct Hid as [[Hn _] | [Hs ->]]; [now left |].
        right. exists up. split; [lia | exact Hs].
      * destruct (IH i e' Hi) as (H1 & H2 & H3 & H4).
        replace (cp + S i)%nat with (S cp + i)%nat by lia.
        split; [exact H1 |]. split; [exact H2 |]. split; [| exact H4].
        destruct H3 as [Hn | (k & Hk & Hs)]; [now left |].
        right. exists k. split; [lia | exact Hs].
Qed.

Lemma deref_new h (evs : list Event) :
  map (fun r => (h ++ evs) !!! r) (seq (length h) (length evs)) = evs.
Proof.
  revert h. induction evs as [| e evs IH]; intros h; [reflexivity |].
  cbn [length seq map]. f_equal.
  - now apply list_lookup_total_middle.
  - specialize (IH (h ++ [e])). rewrite length_app, Nat.add_1_r, <- app_assoc in IH.
    exact IH.
Qed.

(** C1.  For [count >= 0], [generate_events count] returns a list of exactly
    [count] new [Event] objects, in creation order.  The i-th of them has an
    event type among click, view and purchase (so a non-empty one); its
    timestamp is the clock reading taken in its iteration minus a whole
    number of days between 0 and 10, hence within the ten days before that
    reading; its user id is absent or the version-4 UUID made from an entropy
    block drawn during the call, each block serving one event; its url is
    one of the two sample URLs or absent. *)
Theorem generate_events_spec (count : Z) env s :
  0 <= count ->
  exists refs s',
    generate_events count env s = (Returns refs, s') /\
    Z.of_nat (length refs) = count /\
    heap s' = heap s ++ map (deref s') refs /\
    (forall (i r : nat), refs !! i = Some r ->
       let e := deref s' r in
       let now := clock env (clock_pos s + i) in
       event_type e ∈ ["click"; "view"; "purchase"]%string /\
       event_type e <> ""%string /\
       (exists days, 0 <= days <= 10 /\ timestamp e = now - days * 86400000000) /\
       now - 10 * 86400000000 <= timestamp e <= now /\
       (user_id e = None \/
        exists k, (urandom_pos s <= k < urandom_pos s')%nat /\
                  user_id e = Some (UUID_version4 (urandom env k mod 2 ^ 128))) /\
       (forall u, user_id e = Some u ->
          Z.land (Z.shiftr u 76) 15 = 4 /\ Z.land (Z.shiftr u 62) 3 = 2) /\
       url e ∈ [Some "http://example.com"; Some "http://test.com"; None]%string) /\
    omap user_id (map (deref s') refs)
      = map (fun k => UUID_version4 (urandom env k mod 2 ^ 128))
            (seq (urandom_pos s) (urandom_pos s' - urandom_pos s)).
Proof.
  intros Hcount. unfold generate_events.
  destruct (comprehension_generate env (Z.to_nat count) s)
    as (evs & up' & Hrun & Hlen & Hgen).
  eexists _, _. split; [exact Hrun |].
  destruct (generated_lookup _ _ _ _ _ Hgen) as (Hle & Hids & Hall).
  assert (map (deref (mkState (4 * Z.to_nat count + rng_pos s) up'
                        (Z.to_nat count + clock_pos s) (heap s ++ evs) (ch_calls s)
                        (ch_catalog s) (ch_session s) (v_calls s) (log s)))
              (seq (length (heap s)) (Z.to_nat count)) = evs) as Hderef.
  { unfold deref. cbn [heap]. rewrite <- Hlen at 1. apply deref_new. }
  split; [rewrite length_seq; lia |].
  split; [cbn [heap]; now rewrite Hderef |].
  split; [| rewrite Hderef; exact Hids].
  intros i r Hi.
  match goal with |- context [deref ?st r] => set (e := deref st r) end.
  set (reading := clock env (clock_pos s + i)).
  assert (evs !! i = Some e) as He.
  { pose proof (f_equal (fun l => l !! i) Hderef) as Hl. cbn beta in Hl.
    rewrite list_lookup_fmap, Hi in Hl. symmetry. exact Hl. }
  destruct (Hall i e He) as (Het & (days & Hdays & Hts) & Hid & Hurl).
  split; [exact Het |].
  split.
  { intros Hempty. rewrite Hempty in Het. unfold event_types in Het.
    repeat (apply elem_of_cons in Het; destruct Het as [Het | Het]; [discriminate Het |]).
    now apply elem_of_nil in Het. }
  split; [exists days; split; [exact Hdays | exact Hts] |].
  split; [fold reading in Hts; lia |].
  split; [exact Hid |]. split; [| exact Hurl].
  intros u Hu. destruct Hid as [Hn | (k & _ & Hs)]; [congruence |].
  rewrite Hs in Hu. injection Hu as <-.
  split; [apply UUID_version4_version | apply UUID_version4_variant].
Qed.

Lemma generate_events_spec_witness :
  exists refs s',
    generate_events 5 (quiet_env Settings.defaults) initial_state = (Returns refs, s') /\
    refs = [0; 1; 2; 3; 4]%nat /\
    heap s' = map (deref s') refs /\
    Forall (fun r => event_type (deref s' r) ∈ ["click"; "view"; "purchase"]%string) refs.
Proof.
  destruct (generate_events_spec 5 (quiet_env Settings.defaults) initial_state)
    as (refs & s' & Hrun & Hlen & Hheap & Hall & _); [lia |].
  exists refs, s'. split; [exact Hrun |].
  assert (refs = [0; 1; 2; 3; 4]%nat) as Hrefs.
  { vm_compute in Hrun. now injection Hrun as <- _. }
  split; [exact Hrefs |]. split; [exact Hheap |].
  apply Forall_lookup. intros i r Hi. now destruct (Hall i r Hi) as (H & _).
Defined.

(** ** The orchestrator *)

Lemma same_python_side_trans s1 s2 s3 :
  same_python_side s1 s2 -> same_python_side s2 s3 -> same_python_side s1 s3.
Proof. unfold same_python_side. intuition congruence. Qed.

Lemma init_clickhouse_frame env s self :
  exists s' issued,
    init_clickhouse self env s = (Returns tt, s') /\
    same_python_side s s' /\ v_calls s' = v_calls s /\
    ch_calls s' = ch_calls s ++ issued /\ only_commands issued.
Proof.
  destruct (init_clickhouse_run env s self)
    as (issued & c & session & lg & Hrun & [rest Hpre] & _).
  eexists _, issued. split; [exact Hrun |]. split; [repeat split |].
  split; [reflexivity |]. split; [reflexivity |].
  assert (only_commands (init_calls (loader_settings self))) as Hall.
  { unfold init_calls. apply Forall_forall. intros x Hx.
    apply list_elem_of_In, in_map_iff in Hx. destruct Hx as (q & <- & _). eauto. }
  rewrite Hpre in Hall. now apply Forall_app in Hall.
Qed.

Lemma connect_to_vertica_run env s vs :
  connect_to_vertica vs env s
  = match v_connect env with
    | None =>
        (Returns tt,
         set_log (log s ++ [LogInfoDict (connection_info vs);
                            LogInfo "Connected to Vertica successfully"]) s)
    | Some (VerticaConnectionError msg) =>
        (Raises BuiltinConnectionError,
         set_log (log s ++ [LogInfoDict (connection_info vs);
                            LogError "connect to Vertica failed: "
                                     (VerticaConnectionError msg)]) s)
    | Some e => (Raises e, set_log (log s ++ [LogInfoDict (connection_info vs)]) s)
    end.
Proof.
  unfold connect_to_vertica, bind, try_except, emit, modify, vertica_python_connect,
    logger_info, logger_error, ret, raise.
  fold (connection_info vs). cbn.
  destruct (v_connect env) as [[msg | | | cls msg] |]; cbn;
    rewrite <- ?app_assoc; reflexivity.
Qed.

Lemma DatabaseManager_init_refused env s cs vs e :
  v_connect env = Some e ->
  exists exc s' issued,
    DatabaseManager_init cs vs env s = (Raises exc, s') /\
    same_python_side s s' /\ v_calls s' = v_calls s /\
    ch_calls s' = ch_calls s ++ issued /\ only_commands issued /\
    (ch_connect env = None -> exc = connect_error e).
Proof.
  intros Hv. unfold DatabaseManager_init, ClickhouseLoader_init.
  unfold bind at 1. unfold bind at 1. unfold get_client.
  destruct (ch_connect env) as [e0 |].
  - exists e0, s, []. rewrite app_nil_r.
    repeat split; [constructor | discriminate].
  - unfold bind at 1.
    destruct (init_clickhouse_frame env (set_ch_server (ch_catalog s) "default" s)
                (mkClickhouseLoader cs)) as (s1 & issued & -> & Hside & Hv1 & Hc1 & Hcmd).
    unfold ret at 1. unfold bind at 1. rewrite connect_to_vertica_run, Hv.
    exists (connect_error e). destruct e; cbn [connect_error];
      eexists _, issued; (split; [reflexivity |]); cbn;
      (split; [exact Hside |]); (split; [exact Hv1 |]); (split; [exact Hc1 |]);
      (split; [exact Hcmd | reflexivity]).
Qed.

(** C5.  When [vertica_python.connect] raises, [connect_to_vertica] raises
    too: the built-in [ConnectionError] when the driver reported a
    connection error (any other exception passes through).  The run then
    ends in the handler of [main]: [main] returns [None], so no timing is
    produced; the random source, the entropy source, the clock and the
    object store are as they were, whereas [generate_events 1000] always
    consumes 4000 random draws, so it was not called; the column store
    received nothing but initialization commands and the row store
    received no statement. *)
Theorem vertica_connection_failure_aborts env s e :
  v_connect env = Some e ->
  (forall vs s0, exists s1,
     connect_to_vertica vs env s0
     = (Raises match e with
               | VerticaConnectionError _ => BuiltinConnectionError
               | _ => e
               end, s1)) /\
  (exists s' issued exc,
     main env s = (Returns None, s') /\
     rng_pos s' = rng_pos s /\ urandom_pos s' = urandom_pos s /\
     clock_pos s' = clock_pos s /\ heap s' = heap s /\
     v_calls s' = v_calls s /\
     ch_calls s' = ch_calls s ++ issued /\
     Forall (fun c => exists cmd, c = ChCommand cmd) issued /\
     last (log s') = Some (LogException "Unhandled exception" exc) /\
     (ch_connect env = None ->
      exc = match e with
            | VerticaConnectionError _ => BuiltinConnectionError
            | _ => e
            end)) /\
  (forall s0, rng_pos (snd (generate_events 1000 env s0)) = (4000 + rng_pos s0)%nat).
Proof.
  intros Hv. split; [| split].
  - intros vs s0. rewrite connect_to_vertica_run, Hv.
    destruct e; eexists; reflexivity.
  - set (s0 := set_log (log s ++ [LogInfo "Starting data generation and loading process"]) s).
    destruct (DatabaseManager_init_refused env s0
                (Settings.clickhouse (settings env)) (Settings.vertica (settings env)) e Hv)
      as (exc & s1 & issued & Hrun & (H1 & H2 & H3 & H4) & H5 & H6 & H7 & H8).
    assert (main env s = (Returns None, set_log (log s1 ++ [LogException "Unhandled exception" exc]) s1))
      as Hmain.
    { unfold main, try_except. unfold bind at 1.
      unfold logger_info at 1, emit at 1, modify at 1. fold s0.
      unfold bind at 1. unfold ask at 1. unfold bind at 1. rewrite Hrun.
      reflexivity. }
    exists (set_log (log s1 ++ [LogException "Unhandled exception" exc]) s1), issued, exc.
    split; [exact Hmain |]. cbn.
    repeat (split; [assumption |]). split; [apply last_snoc | exact H8].
  - intros s0. unfold generate_events.
    destruct (comprehension_generate env (Z.to_nat 1000) s0) as (evs & up' & -> & _).
    cbn [snd rng_pos]. lia.
Qed.

Lemma vertica_connection_failure_aborts_witness :
  exists s',
    main (unreachable_vertica (quiet_env Settings.defaults)) initial_state
      = (Returns None, s') /\
    rng_pos s' = 0%nat /\ clock_pos s' = 0%nat /\ heap s' = [] /\ v_calls s' = [] /\
    last (log s') = Some (LogException "Unhandled exception" BuiltinConnectionError).
Proof.
  destruct (vertica_connection_failure_aborts
              (unreachable_vertica (quiet_env Settings.defaults)) initial_state
              (VerticaConnectionError "Failed to establish a connection") eq_refl)
    as (_ & (s' & issued & exc & Hmain & H1 & H2 & H3 & H4 & H5 & H6 & H7 & H8 & H9) & _).
  exists s'. rewrite (H9 eq_refl) in H8. repeat (split; [assumption |]). exact H8.
Defined.

(** *** Clock readings along a run *)

Lemma DatabaseManager_init_clock env s cs vs r s' :
  DatabaseManager_init cs vs env s = (r, s') -> clock_pos s' = clock_pos s.
Proof.
  unfold DatabaseManager_init, ClickhouseLoader_init.
  unfold bind at 1. unfold bind at 1. unfold get_client.
  destruct (ch_connect env) as [e0 |]; [now intros [= _ <-] |].
  unfold bind at 1.
  destruct (init_clickhouse_frame env (set_ch_server (ch_catalog s) "default" s)
              (mkClickhouseLoader cs)) as (s1 & issued & -> & (_ & _ & Hc & _) & _).
  unfold ret at 1. unfold bind at 1. rewrite connect_to_vertica_run.
  destruct (v_connect env) as [[] |]; intros [= _ <-]; exact Hc.
Qed.

Lemma create_vertica_table_run env s self :
  exists record,
    create_vertica_table self env s
    = (Returns tt,
       set_log (log s ++ record)
         (set_v_calls
            (v_calls s ++
             [VExecute
                ("CREATE TABLE IF NOT EXISTS "
                   +:+ qualified (VerticaSettings.vertica_schema (Settings.vertica (settings env)))
                                 (VerticaSettings.table (Settings.vertica (settings env)))
                   +:+ " (" +:+ "event_type VARCHAR(255), " +:+ "timestamp TIMESTAMP, "
                   +:+ "user_id UUID NULL, " +:+ "url VARCHAR(255) NULL)") None]) s)).
Proof.
  unfold create_vertica_table, with_cursor, bind, try_except, ask, logger_info,
    logger_exception, emit, modify, cursor_execute. cbn.
  destruct (v_fault env (length (v_calls s))); cbn; eexists;
    rewrite <- ?app_assoc; reflexivity.
Qed.

Lemma read_data_from_vertica_returns env s self d s' :
  read_data_from_vertica self env s = (Returns d, s') ->
  d = clock env (S (clock_pos s)) - clock env (clock_pos s).
Proof.
  unfold read_data_from_vertica, with_cursor, bind, ask, time_time, read_clock,
    cursor_execute, cursor_fetchall, ret. cbn.
  destruct (v_fault env (length (v_calls s))); cbn; [discriminate |].
  destruct (v_fault env _); cbn; [discriminate |].
  now intros [= <- _].
Qed.

Lemma generate_events_clock env s n :
  exists refs s',
    generate_events n env s = (Returns refs, s') /\
    clock_pos s' = (Z.to_nat n + clock_pos s)%nat.
Proof.
  unfold generate_events.
  destruct (comprehension_generate env (Z.to_nat n) s) as (evs & up' & -> & _).
  eexists _, _. split; reflexivity.
Qed.

(** The body of [main] under its handler either raises or returns the dict
    of the four differences of consecutive clock readings. *)
Lemma main_timings env s m s' :
  main env s = (Returns (Some m), s') ->
  let c := (1000 + clock_pos s)%nat in
  m = <["vertica_read_time" := clock env (7 + c) - clock env (6 + c)]>
     (<["clickhouse_read_time" := clock env (5 + c) - clock env (4 + c)]>
     (<["vertica_write_time" := clock env (3 + c) - clock env (2 + c)]>
     (<["clickhouse_write_time" := clock env (1 + c) - clock env c]> ∅))).
Proof.
  intros Hmain c. unfold main, try_except in Hmain.
  match type of Hmain with (let (_, _) := ?body env s in _) = _ =>
    destruct (body env s) as [[r | e] s1] eqn:Hbody
  end; [| discriminate Hmain].
  injection Hmain as -> <-.
  apply bind_inv_returns in Hbody. destruct Hbody as ([] & s0 & Hlog & Hbody).
  injection Hlog as <-.
  apply bind_inv_returns in Hbody. destruct Hbody as (env' & s0' & Hask & Hbody).
  injection Hask as <- <-.
  apply bind_inv_returns in Hbody. destruct Hbody as (db_manager & s2 & Hinit & Hbody).
  apply DatabaseManager_init_clock in Hinit. cbn in Hinit.
  apply bind_inv_returns in Hbody. destruct Hbody as ([] & s3 & Hinit2 & Hbody).
  destruct (init_clickhouse_frame env s2 (clickhouse_loader db_manager))
    as (s3' & issued & Hrun & (_ & _ & Hc3 & _) & _).
  rewrite Hrun in Hinit2. injection Hinit2 as ->.
  apply bind_inv_returns in Hbody. destruct Hbody as ([] & s4 & Hcreate & Hbody).
  destruct (create_vertica_table_run env s3 db_manager) as (record & Hrun4).
  rewrite Hrun4 in Hcreate. injection Hcreate as <-.
  apply bind_inv_returns in Hbody. destruct Hbody as (events & s5 & Hgen & Hbody).
  match type of Hgen with generate_events _ _ ?st = _ =>
    destruct (generate_events_clock env st 1000) as (refs & s5' & Hrun5 & Hc5)
  end.
  rewrite Hrun5 in Hgen. injection Hgen as -> ->.
  cbn [clock_pos set_log set_v_calls] in Hc5.
  apply bind_inv_returns in Hbody. destruct Hbody as (d1 & s6 & Hcw & Hbody).
  destruct (load_data_to_clickhouse_run env s5 (clickhouse_loader db_manager) events)
    as (s6' & Hrun6 & Hc6 & _).
  rewrite Hrun6 in Hcw. injection Hcw as <- ->.
  apply bind_inv_returns in Hbody. destruct Hbody as (d2 & s7 & Hvw & Hbody).
  destruct (load_data_to_vertica_run env s6 events)
    as (r7 & issued7 & cp7 & Hrun7 & _ & Hret7 & _).
  rewrite Hrun7 in Hvw. injection Hvw as -> <-.
  destruct (Hret7 d2 eq_refl) as (_ & -> & ->).
  apply bind_inv_returns in Hbody. destruct Hbody as (d3 & s8 & Hcr & Hbody).
  rewrite read_data_run in Hcr. cbn [ch_calls clock_pos set_clock_pos set_v_calls] in Hcr.
  destruct (ch_fault env (length (ch_calls s6))); [discriminate Hcr |].
  destruct (result_rows_fault env (length (ch_calls s6))); [discriminate Hcr |].
  injection Hcr as <- <-.
  apply bind_inv_returns in Hbody. destruct Hbody as (d4 & s9 & Hvr & Hbody).
  apply read_data_from_vertica_returns in Hvr.
  cbn [clock_pos set_clock_pos set_ch_calls set_v_calls] in Hvr. subst d4.
  unfold bind, emit, modify, ret in Hbody. injection Hbody as <- _.
  rewrite Hc6, Hc5, Hc3, Hinit.
  replace (Z.to_nat 1000 + clock_pos s)%nat with c by (unfold c; lia).
  reflexivity.
Qed.

(** [main] never lets an exception out: its handler catches whatever the
    body raises. *)
Lemma main_never_raises env s : exists r s', main env s = (Returns r, s').
Proof.
  unfold main, try_except.
  match goal with |- context [let (_, _) := ?body env s in _] =>
    destruct (body env s) as [[r | e] s1]
  end; eexists _, _; reflexivity.
Qed.

(** [main] is its [try] block under its handler. *)
Lemma main_unfold :
  main = try_except main_body (fun e => logger_exception "Unhandled exception" e ;; ret None).
Proof. reflexivity. Qed.

(** When both connections are established, no driver call raises and the
    rows of the query can be read, the run completes and [main] returns a
    dict. *)
Lemma main_completes env s :
  ch_connect env = None -> v_connect env = None ->
  (forall k, ch_fault env k = None) -> (forall k, result_rows_fault env k = None) ->
  (forall k, v_fault env k = None) ->
  exists m s', main env s = (Returns (Some m), s').
Proof.
  intros Hcc Hvc Hcf Hrows Hvf. unfold main.
  match goal with |- context [try_except ?body ?h env s] =>
    assert (exists m s', body env s = (Returns (Some m), s')) as (m & s' & Hbody)
  end.
  2:{ exists m, s'. now rewrite (try_except_returns _ _ _ _ _ _ Hbody). }
  unfold bind at 1. unfold logger_info at 1, emit at 1, modify at 1.
  unfold bind at 1. unfold ask at 1.
  unfold bind at 1. unfold DatabaseManager_init, ClickhouseLoader_init.
  unfold bind at 1. unfold bind at 1. unfold get_client. rewrite Hcc.
  unfold bind at 1.
  match goal with |- context [init_clickhouse ?l env ?st] =>
    destruct (init_clickhouse_frame env st l) as (s1 & i1 & -> & _)
  end.
  unfold ret at 1. unfold bind at 1. rewrite connect_to_vertica_run, Hvc.
  unfold ret at 1. unfold bind at 1. cbn [clickhouse_loader].
  match goal with |- context [init_clickhouse ?l env ?st] =>
    destruct (init_clickhouse_frame env st l) as (s2 & i2 & -> & _)
  end.
  unfold bind at 1.
  match goal with |- context [create_vertica_table ?l env ?st] =>
    destruct (create_vertica_table_run env st l) as (rec3 & ->)
  end.
  unfold bind at 1.
  match goal with |- context [generate_events ?n env ?st] =>
    destruct (generate_events_clock env st n) as (events & s4 & -> & _)
  end.
  unfold bind at 1.
  match goal with |- context [load_data_to_clickhouse ?ev ?l env ?st] =>
    destruct (load_data_to_clickhouse_run env st l ev) as (s5 & -> & _)
  end.
  unfold bind at 1.
  destruct (load_data_to_vertica_run env s5 events)
    as (r6 & i6 & cp6 & -> & _ & _ & Hok6).
  destruct Hok6 as (d6 & ->); [intros k _; apply Hvf |].
  unfold bind at 1. rewrite read_data_run, Hcf, Hrows.
  unfold bind at 1.
  unfold read_data_from_vertica, with_cursor, bind, ask, time_time, read_clock,
    cursor_execute, cursor_fetchall, emit, modify, ret.
  rewrite !Hvf. eexists _, _. reflexivity.
Qed.

(** The operations whose results [main] puts in its dict. *)
Lemma main_stages env s m s' :
  main env s = (Returns (Some m), s') ->
  exists db_manager events s1 s2 s3 s4 s5 s6 cw vw cr vr,
    generate_events 1000 env s1 = (Returns events, s2) /\
    load_data_to_clickhouse events (clickhouse_loader db_manager) env s2 = (Returns cw, s3) /\
    load_data_to_vertica events env s3 = (Returns vw, s4) /\
    read_data (clickhouse_loader db_manager) env s4 = (Returns cr, s5) /\
    read_data_from_vertica db_manager env s5 = (Returns vr, s6) /\
    m = <["vertica_read_time" := vr]>
       (<["clickhouse_read_time" := cr]>
       (<["vertica_write_time" := vw]>
       (<["clickhouse_write_time" := cw]> ∅))).
Proof.
  intros Hmain. unfold main, try_except in Hmain.
  match type of Hmain with (let (_, _) := ?body env s in _) = _ =>
    destruct (body env s) as [[r | e] s0] eqn:Hbody
  end; [| discriminate Hmain].
  injection Hmain as -> <-.
  apply bind_inv_returns in Hbody. destruct Hbody as ([] & sa & _ & Hbody).
  apply bind_inv_returns in Hbody. destruct Hbody as (env' & sb & Hask & Hbody).
  injection Hask as <- <-.
  apply bind_inv_returns in Hbody. destruct Hbody as (db_manager & sc & _ & Hbody).
  apply bind_inv_returns in Hbody. destruct Hbody as ([] & sd & _ & Hbody).
  apply bind_inv_returns in Hbody. destruct Hbody as ([] & s1 & _ & Hbody).
  apply bind_inv_returns in Hbody. destruct Hbody as (events & s2 & Hgen & Hbody).
  apply bind_inv_returns in Hbody. destruct Hbody as (cw & s3 & Hcw & Hbody).
  apply bind_inv_returns in Hbody. destruct Hbody as (vw & s4 & Hvw & Hbody).
  apply bind_inv_returns in Hbody. destruct Hbody as (cr & s5 & Hcr & Hbody).
  apply bind_inv_returns in Hbody. destruct Hbody as (vr & s6 & Hvr & Hbody).
  unfold bind, emit, modify, ret in Hbody. injection Hbody as <- _.
  exists db_manager, events, s1, s2, s3, s4, s5, s6, cw, vw, cr, vr.
  repeat split; assumption.
Qed.

(** C6.  When [main] returns a dict (no exception reached its handler),
    the dict has exactly the four keys [clickhouse_write_time],
    [vertica_write_time], [clickhouse_read_time] and [vertica_read_time].
    Each key holds what its operation returned: the write times are the
    results of [load_data_to_clickhouse] and [load_data_to_vertica] on the
    generated events, the read times those of [read_data] and
    [read_data_from_vertica], run in this order.  Each value is the
    difference of the two consecutive clock readings taken around its
    operation, the later minus the earlier; the first of the eight readings
    follows the 1000 readings of the generator.  No value is guaranteed to
    be non-negative: a value is non-negative when the clock did not step
    back between its two readings.  Durations are kept in the unit of the
    clock readings. *)
Theorem main_returns_four_timings env s m s' :
  main env s = (Returns (Some m), s') ->
  let c := (1000 + clock_pos s)%nat in
  dom m = ({["clickhouse_write_time"; "vertica_write_time";
             "clickhouse_read_time"; "vertica_read_time"]} : gset string) /\
  (exists db_manager events s1 s2 s3 s4 s5 s6 cw vw cr vr,
     generate_events 1000 env s1 = (Returns events, s2) /\
     load_data_to_clickhouse events (clickhouse_loader db_manager) env s2 = (Returns cw, s3) /\
     load_data_to_vertica events env s3 = (Returns vw, s4) /\
     read_data (clickhouse_loader db_manager) env s4 = (Returns cr, s5) /\
     read_data_from_vertica db_manager env s5 = (Returns vr, s6) /\
     m !! "clickhouse_write_time"%string = Some cw /\
     m !! "vertica_write_time"%string = Some vw /\
     m !! "clickhouse_read_time"%string = Some cr /\
     m !! "vertica_read_time"%string = Some vr) /\
  m !! "clickhouse_write_time"%string = Some (clock env (1 + c) - clock env c) /\
  m !! "vertica_write_time"%string = Some (clock env (3 + c) - clock env (2 + c)) /\
  m !! "clickhouse_read_time"%string = Some (clock env (5 + c) - clock env (4 + c)) /\
  m !! "vertica_read_time"%string = Some (clock env (7 + c) - clock env (6 + c)) /\
  (forall key d, m !! key = Some d ->
     exists k, d = clock env (S k) - clock env k /\
               (clock env k <= clock env (S k) -> 0 <= d)).
Proof.
  intros Hmain c.
  split.
  { rewrite (main_timings env s m s' Hmain).
    rewrite !dom_insert_L, dom_empty_L. set_solver. }
  split.
  { destruct (main_stages env s m s' Hmain)
      as (db_manager & events & s1 & s2 & s3 & s4 & s5 & s6 & cw & vw & cr & vr
          & Hgen & Hcw & Hvw & Hcr & Hvr & ->).
    exists db_manager, events, s1, s2, s3, s4, s5, s6, cw, vw, cr, vr.
    split; [exact Hgen |]. split; [exact Hcw |]. split; [exact Hvw |].
    split; [exact Hcr |]. split; [exact Hvr |].
    split; [now rewrite lookup_insert_ne, lookup_insert_ne, lookup_insert_ne,
                        lookup_insert_eq by discriminate |].
    split; [now rewrite lookup_insert_ne, lookup_insert_ne, lookup_insert_eq
              by discriminate |].
    split; [now rewrite lookup_insert_ne, lookup_insert_eq by discriminate |].
    now rewrite lookup_insert_eq. }
  rewrite (main_timings env s m s' Hmain). fold c.
  split; [now rewrite lookup_insert_ne, lookup_insert_ne, lookup_insert_ne,
                      lookup_insert_eq by discriminate |].
  split; [now rewrite lookup_insert_ne, lookup_insert_ne, lookup_insert_eq
            by discriminate |].
  split; [now rewrite lookup_insert_ne, lookup_insert_eq by discriminate |].
  split; [now rewrite lookup_insert_eq |].
  intros key d. rewrite !lookup_insert_Some, lookup_empty.
  intros [[_ <-] | [_ [[_ <-] | [_ [[_ <-] | [_ [[_ <-] | [_ H]]]]]]]];
    [| | | | discriminate H];
    (eexists; split; [reflexivity | intros Hle; apply Z.le_0_sub, Hle]).
Qed.

Lemma main_returns_four_timings_witness :
  exists m s',
    main (quiet_env Settings.defaults) initial_state = (Returns (Some m), s') /\
    dom m = ({["clickhouse_write_time"; "vertica_write_time";
               "clickhouse_read_time"; "vertica_read_time"]} : gset string) /\
    m !! "clickhouse_write_time"%string = Some 1000000 /\
    m !! "vertica_write_time"%string = Some 1000000 /\
    m !! "clickhouse_read_time"%string = Some 1000000 /\
    m !! "vertica_read_time"%string = Some 1000000.
Proof.
  destruct (main_completes (quiet_env Settings.defaults) initial_state)
    as (m & s' & Hmain); try reflexivity.
  destruct (main_returns_four_timings _ _ _ _ Hmain)
    as (Hdom & _ & Hcw & Hvw & Hcr & Hvr & _).
  exists m, s'. split; [exact Hmain |]. split; [exact Hdom |].
  split; [exact Hcw |]. split; [exact Hvw |]. split; [exact Hcr | exact Hvr].
Defined.

(** A run that completes and reports a negative duration: the clock is set
    back five seconds while the batch is written to the column store, and
    the write time in the dict is minus four seconds. *)
Lemma main_negative_timing :
  exists m s',
    main (clock_set_back (quiet_env Settings.defaults)) initial_state
    = (Returns (Some m), s') /\
    m !! "clickhouse_write_time"%string = Some (-4000000) /\
    ~ (forall key d, m !! key = Some d -> 0 <= d).
Proof.
  destruct (main_completes (clock_set_back (quiet_env Settings.defaults)) initial_state)
    as (m & s' & Hmain); try reflexivity.
  pose proof (main_timings _ _ _ _ Hmain) as Hm. cbn zeta in Hm.
  assert (m !! "clickhouse_write_time"%string = Some (-4000000)) as Hcw.
  { rewrite Hm.
    now rewrite lookup_insert_ne, lookup_insert_ne, lookup_insert_ne, lookup_insert_eq
      by discriminate. }
  exists m, s'. split; [exact Hmain |]. split; [exact Hcw |].
  intros Hpos. specialize (Hpos _ _ Hcw). lia.
Qed.

(** * Further properties of the code *)

(** ** The generator, draw by draw *)

Lemma random_choice_exact {A} (seq : list A) env s :
  seq <> [] ->
  exists x,
    random_choice seq env s = (Returns x, set_rng_pos (S (rng_pos s)) s) /\
    seq !! Z.to_nat (rng env (rng_pos s) mod Z.of_nat (length seq)) = Some x.
Proof.
  intros Hne. destruct seq as [| a seq]; [congruence |].
  unfold random_choice, bind, next_random.
  set (i := Z.to_nat (rng env (rng_pos s) mod Z.of_nat (length (a :: seq)))).
  assert (i < length (a :: seq))%nat as Hi.
  { unfold i.
    pose proof (Z.mod_pos_bound (rng env (rng_pos s)) (Z.of_nat (length (a :: seq)))) as Hb.
    cbn [length] in *. lia. }
  destruct (lookup_lt_is_Some_2 _ _ Hi) as [x Hx].
  exists x. rewrite Hx. now split.
Qed.

Lemma generate_event_exact env s :
  exists e up',
    generate_event env s
      = (Returns (length (heap s)),
         mkState (4 + rng_pos s) up' (S (clock_pos s)) (heap s ++ [e])
                 (ch_calls s) (ch_catalog s) (ch_session s) (v_calls s) (log s)) /\
    drawn_at env (rng_pos s) (clock_pos s) e.
Proof.
  unfold generate_event.
  destruct (random_choice_exact ["click"; "view"; "purchase"]%string env s)
    as (et & Het & Hin); [discriminate |].
  rewrite (bind_returns _ _ _ _ _ _ Het).
  unfold bind at 1. unfold datetime_now, read_clock at 1.
  unfold bind at 1. unfold random_randint, bind at 1, next_random at 1, ret at 1.
  unfold bind at 1. unfold random_random, bind at 1, next_random at 1, ret at 1.
  cbn [rng_pos clock_pos set_rng_pos set_clock_pos].
  unfold bind at 1. unfold gt_half.
  destruct (2 ^ 52 <? rng env (S (S (rng_pos s))) mod 2 ^ 53) eqn:Hhalf.
  - unfold bind at 1, uuid4 at 1, ret at 1.
    match goal with |- context [bind (random_choice ?l) _ ?e ?st] =>
      destruct (random_choice_exact l e st) as (u & Hu & Hinu); [discriminate |]
    end.
    rewrite (bind_returns _ _ _ _ _ _ Hu).
    eexists _, _. split; [reflexivity |].
    split; [exact Hin |]. split; [reflexivity |].
    split; [| exact Hinu]. cbn [user_id]. apply Z.ltb_lt in Hhalf.
    split; [intros _; exact Hhalf | discriminate].
  - unfold ret at 1.
    match goal with |- context [bind (random_choice ?l) _ ?e ?st] =>
      destruct (random_choice_exact l e st) as (u & Hu & Hinu); [discriminate |]
    end.
    rewrite (bind_returns _ _ _ _ _ _ Hu).
    eexists _, _. split; [reflexivity |].
    split; [exact Hin |]. split; [reflexivity |].
    split; [| exact Hinu]. cbn [user_id]. apply Z.ltb_ge in Hhalf.
    split; [intros H; now contradict H |].
    intros H. exfalso. apply (Z.lt_irrefl (2 ^ 52)).
    eapply Z.lt_le_trans; [exact H | exact Hhalf].
Qed.

Lemma comprehension_generate_exact env n :
  forall s, exists evs up',
    comprehension n generate_event env s
      = (Returns (seq (length (heap s)) n),
         mkState (4 * n + rng_pos s) up' (n + clock_pos s) (heap s ++ evs)
                 (ch_calls s) (ch_catalog s) (ch_session s) (v_calls s) (log s)) /\
    length evs = n /\
    forall (i : nat) e, evs !! i = Some e ->
      drawn_at env (4 * i + rng_pos s) (i + clock_pos s) e.
Proof.
  induction n as [| n IH]; intros s.
  - exists [], (urandom_pos s). split; [| split; [reflexivity | intros i e Hi; discriminate Hi]].
    cbn. rewrite app_nil_r. now destruct s.
  - destruct (generate_event_exact env s) as (e & up1 & Hrun & Hat).
    cbn [comprehension]. rewrite (bind_returns _ _ _ _ _ _ Hrun).
    match type of Hrun with _ = (_, ?st) => destruct (IH st) as (evs & up' & Hrest & Hlen & Hall) end.
    rewrite (bind_returns _ _ _ _ _ _ Hrest). unfold ret.
    cbn [heap rng_pos clock_pos urandom_pos ch_calls ch_catalog ch_session v_calls log] in *.
    exists (e :: evs), up'. split; [| split; [cbn; now rewrite Hlen |]].
    + rewrite length_app, Nat.add_1_r, <- app_assoc. cbn [seq app].
      do 2 f_equal; lia.
    + intros [| i] e' Hi.
      * injection Hi as <-. exact Hat.
      * specialize (Hall i e' Hi).
        replace (4 * S i + rng_pos s)%nat with (4 * i + (4 + rng_pos s))%nat by lia.
        replace (S i + clock_pos s)%nat with (i + S (clock_pos s))%nat by lia.
        exact Hall.
Qed.

(** X1.  A count that is zero or negative gives the empty list, as
    [range(num_events)] is empty then, and the call leaves everything as it
    was: no random draw, no clock reading, no new object. *)
Theorem generate_events_nonpositive (count : Z) env s :
  count <= 0 -> generate_events count env s = (Returns [], s).
Proof.
  intros Hc. unfold generate_events.
  replace (Z.to_nat count) with 0%nat by lia. reflexivity.
Qed.

Lemma generate_events_nonpositive_witness :
  generate_events (-3) (quiet_env Settings.defaults) initial_state
  = (Returns [], initial_state).
Proof.
  apply (generate_events_nonpositive (-3) (quiet_env Settings.defaults) initial_state).
  lia.
Defined.

(** X2.  What [generate_events count] uses up and what it leaves alone, for
    [count >= 0]: exactly four random draws and one clock reading per event,
    one entropy block per event that carries a user id, and [count] objects
    appended to the store after the existing ones.  It issues no call to
    either database and writes no log record. *)
Theorem generate_events_consumes (count : Z) env s :
  0 <= count ->
  exists refs s',
    generate_events count env s = (Returns refs, s') /\
    rng_pos s' = (4 * Z.to_nat count + rng_pos s)%nat /\
    clock_pos s' = (Z.to_nat count + clock_pos s)%nat /\
    (urandom_pos s' = urandom_pos s + length (omap user_id (map (deref s') refs)))%nat /\
    heap s `prefix_of` heap s' /\
    length (heap s') = (length (heap s) + Z.to_nat count)%nat /\
    ch_calls s' = ch_calls s /\ v_calls s' = v_calls s /\
    ch_catalog s' = ch_catalog s /\ ch_session s' = ch_session s /\
    log s' = log s.
Proof.
  intros Hcount. unfold generate_events.
  destruct (comprehension_generate env (Z.to_nat count) s)
    as (evs & up' & Hrun & Hlen & Hgen).
  eexists _, _. split; [exact Hrun |].
  destruct (generated_lookup _ _ _ _ _ Hgen) as (Hle & Hids & _).
  cbn [rng_pos clock_pos urandom_pos heap ch_calls v_calls ch_catalog ch_session log].
  split; [reflexivity |]. split; [reflexivity |]. split.
  { unfold deref. cbn [heap]. rewrite <- Hlen at 1. rewrite deref_new, Hids.
    rewrite length_map, length_seq. lia. }
  split; [now apply prefix_app_r |].
  split; [rewrite length_app; lia |].
  repeat split.
Qed.

Lemma generate_events_consumes_witness :
  exists refs s',
    generate_events 5 (quiet_env Settings.defaults) initial_state = (Returns refs, s') /\
    rng_pos s' = 20%nat /\ clock_pos s' = 5%nat /\ urandom_pos s' = 2%nat /\
    length (heap s') = 5%nat /\ ch_calls s' = [] /\ v_calls s' = [] /\ log s' = [].
Proof.
  destruct (generate_events_consumes 5 (quiet_env Settings.defaults) initial_state)
    as (refs & s' & Hrun & H1 & H2 & H3 & _ & H5 & H6 & H7 & _ & _ & H8); [lia |].
  exists refs, s'. split; [exact Hrun |].
  assert (urandom_pos s' = 2%nat) as Hu.
  { vm_compute in Hrun. now injection Hrun as _ <-. }
  repeat split; assumption.
Defined.

(** X3.  Which draw decides which field.  The i-th event of a call uses the
    four random draws numbered [4 i] to [4 i + 3] from the position the call
    started at: the first picks the event type, the second the number of
    days (modulo 11), the third decides the user id, which is present
    exactly when [random.random()] is strictly greater than one half, and
    the fourth picks the url. *)
Theorem generate_events_draw_by_draw (count : Z) env s :
  0 <= count ->
  exists refs s',
    generate_events count env s = (Returns refs, s') /\
    forall (i r : nat), refs !! i = Some r ->
      let e := deref s' r in
      let p := (4 * i + rng_pos s)%nat in
      ["click"; "view"; "purchase"]%string !! Z.to_nat (rng env p mod 3)
        = Some (event_type e) /\
      timestamp e
        = clock env (i + clock_pos s) - (rng env (1 + p) mod 11) * 86400000000 /\
      (user_id e <> None <-> 2 ^ 52 < rng env (2 + p) mod 2 ^ 53) /\
      [Some "http://example.com"; Some "http://test.com"; None]%string
        !! Z.to_nat (rng env (3 + p) mod 3) = Some (url e).
Proof.
  intros Hcount. unfold generate_events.
  destruct (comprehension_generate_exact env (Z.to_nat count) s)
    as (evs & up' & Hrun & Hlen & Hall).
  eexists _, _. split; [exact Hrun |].
  intros i r Hi.
  match goal with |- context [deref ?st r] =>
    assert (evs !! i = Some (deref st r)) as He
  end.
  { unfold deref. cbn [heap].
    pose proof (deref_new (heap s) evs) as Hd. rewrite Hlen in Hd.
    pose proof (f_equal (fun l => l !! i) Hd) as Hl. cbn beta in Hl.
    rewrite list_lookup_fmap, Hi in Hl. symmetry. exact Hl. }
  exact (Hall i _ He).
Qed.

Lemma generate_events_draw_by_draw_witness :
  exists refs s',
    generate_events 5 (quiet_env Settings.defaults) initial_state = (Returns refs, s') /\
    map (fun r => event_type (deref s' r)) refs
      = ["click"; "view"; "purchase"; "click"; "view"]%string.
Proof.
  destruct (generate_events_draw_by_draw 5 (quiet_env Settings.defaults) initial_state)
    as (refs & s' & Hrun & _); [lia |].
  exists refs, s'. split; [exact Hrun |].
  vm_compute in Hrun. injection Hrun as <- <-. reflexivity.
Defined.

Lemma bind_ret_cons {A} (m : Py (list A)) env s :
  (ys <- m ;; ret ([] ++ ys)) env s = m env s.
Proof. unfold bind, ret. now destruct (m env s) as [[ys | e] s1]. Qed.

(** A comprehension over [n + m] rounds is the one over [n] rounds followed
    by the one over [m] rounds. *)
Lemma comprehension_add {A} (body : Py A) (n m : nat) :
  forall env s,
    comprehension (n + m) body env s
    = (xs <- comprehension n body ;;
       ys <- comprehension m body ;;
       ret (xs ++ ys)) env s.
Proof.
  induction n as [| n IH]; intros env s.
  - cbn [Nat.add comprehension]. unfold bind at 1, ret at 1.
    now rewrite bind_ret_cons.
  - cbn [Nat.add comprehension]. unfold bind.
    destruct (body env s) as [[x | e] s1]; [| reflexivity].
    rewrite IH. unfold bind.
    destruct (comprehension n body env s1) as [[xs | e] s2]; [| reflexivity].
    unfold ret.
    now destruct (comprehension m body env s2) as [[ys | e] s3].
Qed.

(** X4.  Generating [a + b] events is generating [a] events and then [b]
    more, the second list after the first: the same objects, the same
    draws and the same final state. *)
Theorem generate_events_add (a b : Z) env s :
  0 <= a -> 0 <= b ->
  generate_events (a + b) env s
  = (xs <- generate_events a ;; ys <- generate_events b ;; ret (xs ++ ys)) env s.
Proof.
  intros Ha Hb. unfold generate_events.
  rewrite Z2Nat.inj_add by assumption. apply comprehension_add.
Qed.

Lemma generate_events_add_witness :
  generate_events (2 + 3) (quiet_env Settings.defaults) initial_state
  = (xs <- generate_events 2 ;; ys <- generate_events 3 ;; ret (xs ++ ys))
      (quiet_env Settings.defaults) initial_state.
Proof.
  apply (generate_events_add 2 3 (quiet_env Settings.defaults) initial_state); lia.
Defined.

(** ** The write paths under failure *)

(** X5.  [ClickhouseLoader.load_batch] never raises.  An empty batch changes
    nothing.  A non-empty batch is sent in a single [insert] call into
    [example.events] whose rows are the field values of the events of the
    batch, one row per event and in the order of the batch; if that call
    raises, the
    exception is swallowed: the caller gets the same [None] as after a
    successful insert and the only trace is the last log record.  The
    random source, the clock, the object store, the catalog and the row
    store are not touched. *)
Theorem load_batch_never_raises env s self (event_batch : list nat) :
  exists s',
    load_batch self event_batch env s = (Returns tt, s') /\
    (event_batch = [] -> s' = s) /\
    (event_batch <> [] ->
     ch_calls s' = ch_calls s ++
       [ChInsert "example.events"
          (map (fun event => model_dump_values (deref s event)) event_batch)
          ["event_type"; "timestamp"; "user_id"; "url"]%string] /\
     match ch_fault env (length (ch_calls s)) with
     | Some e =>
         last (log s')
         = Some (LogException "Error while loading batch into ClickHouse: " e)
     | None =>
         exists summary,
           last (log s') = Some (LogInfo ("Loaded batch with result " +:+ summary))
     end) /\
    rng_pos s' = rng_pos s /\ urandom_pos s' = urandom_pos s /\
    clock_pos s' = clock_pos s /\ heap s' = heap s /\
    ch_catalog s' = ch_catalog s /\ v_calls s' = v_calls s.
Proof.
  destruct event_batch as [| e0 rest].
  - exists s. split; [reflexivity |]. split; [reflexivity |].
    split; [congruence |]. repeat split.
  - destruct (load_batch_run env s self (e0 :: rest)) as (record & Hrun & Hrec);
      [discriminate |].
    eexists. split; [exact Hrun |]. split; [discriminate |].
    split; [| repeat split].
    intros _. split.
    + reflexivity.
    + cbn [log set_log]. rewrite last_snoc.
      destruct (ch_fault env (length (ch_calls s))) as [e |].
      * now rewrite Hrec.
      * destruct Hrec as (summary & ->). now exists summary.
Qed.

Lemma load_batch_never_raises_witness :
  let s := set_heap [mkEvent "click" 5 None None] initial_state in
  exists s',
    load_batch (mkClickhouseLoader ClickhouseSettings.defaults) [0%nat]
      (failing_clickhouse (quiet_env Settings.defaults)) s = (Returns tt, s') /\
    ch_calls s'
    = [ChInsert "example.events" [("click"%string, 5, None, None)]
         ["event_type"; "timestamp"; "user_id"; "url"]%string] /\
    last (log s')
    = Some (LogException "Error while loading batch into ClickHouse: "
              (DriverError "DatabaseError" "UNKNOWN_TABLE")).
Proof.
  intros s.
  destruct (load_batch_never_raises (failing_clickhouse (quiet_env Settings.defaults)) s
              (mkClickhouseLoader ClickhouseSettings.defaults) [0%nat])
    as (s' & Hrun & _ & Hne & _).
  destruct Hne as (_ & Hlog); [discriminate |].
  exists s'. split; [exact Hrun |]. split; [| exact Hlog].
  vm_compute in Hrun. now injection Hrun as <-.
Defined.

(** X6.  [load_data_to_clickhouse] always returns an elapsed time, the
    second of two consecutive clock readings minus the first, and takes
    exactly these two readings.  This is so even when the insert raised: a
    failed write is timed and reported like a successful one, and only the
    log tells them apart. *)
Theorem load_data_to_clickhouse_always_times env s loader (events : list nat) :
  exists s',
    load_data_to_clickhouse events loader env s
      = (Returns (clock env (S (clock_pos s)) - clock env (clock_pos s)), s') /\
    clock_pos s' = S (S (clock_pos s)) /\
    (forall e, events <> [] -> ch_fault env (length (ch_calls s)) = Some e ->
       last (log s')
       = Some (LogException "Error while loading batch into ClickHouse: " e)) /\
    (events = [] -> ch_calls s' = ch_calls s /\ log s' = log s).
Proof.
  unfold load_data_to_clickhouse, time_time, read_clock.
  unfold bind at 1. unfold bind at 1.
  destruct events as [| e0 rest].
  - rewrite load_batch_empty. eexists. split; [reflexivity |].
    cbn. split; [reflexivity |]. split; [congruence | auto].
  - destruct (load_batch_run env (set_clock_pos (S (clock_pos s)) s) loader (e0 :: rest))
      as (record & -> & Hrec); [discriminate |].
    eexists. split; [reflexivity |]. cbn [clock_pos set_clock_pos set_log set_ch_calls].
    split; [reflexivity |]. split; [| discriminate].
    intros e _ He. cbn [ch_calls set_clock_pos] in Hrec. rewrite He in Hrec.
    cbn [log set_log set_clock_pos]. now rewrite last_snoc, Hrec.
Qed.

Lemma load_data_to_clickhouse_always_times_witness :
  let s := set_heap [mkEvent "click" 5 None None] initial_state in
  exists s',
    load_data_to_clickhouse [0%nat] (mkClickhouseLoader ClickhouseSettings.defaults)
      (failing_clickhouse (quiet_env Settings.defaults)) s = (Returns 1000000, s') /\
    last (log s')
    = Some (LogException "Error while loading batch into ClickHouse: "
              (DriverError "DatabaseError" "UNKNOWN_TABLE")).
Proof.
  intros s.
  destruct (load_data_to_clickhouse_always_times
              (failing_clickhouse (quiet_env Settings.defaults)) s
              (mkClickhouseLoader ClickhouseSettings.defaults) [0%nat])
    as (s' & Hrun & _ & Hlog & _).
  exists s'. split; [exact Hrun |].
  apply Hlog; [discriminate | reflexivity].
Defined.

(** The first cursor call that raises, if any, among [m] consecutive ones. *)
Lemma first_v_fault env (from m : nat) :
  no_v_fault env from m \/
  exists k e, (k < m)%nat /\ no_v_fault env from k /\ v_fault env (from + k) = Some e.
Proof.
  induction m as [| m IH].
  - left. intros k Hk. lia.
  - destruct IH as [Hno | (k & e & Hk & Hno & He)].
    + destruct (v_fault env (from + m)) as [e |] eqn:Hm.
      * right. exists m, e. split; [lia |]. now split.
      * left. intros k Hk. destruct (Nat.eq_dec k m) as [-> | Hne]; [exact Hm |].
        apply Hno. lia.
    + right. exists k, e. split; [lia |]. now split.
Qed.

(** The loop stops at the first insert that raises: the inserts up to and
    including that one have been sent, the later ones have not. *)
Lemma for_each_insert_fault env (rows : list Row) :
  forall s k e,
    (k < length rows)%nat ->
    no_v_fault env (length (v_calls s)) k ->
    v_fault env (length (v_calls s) + k) = Some e ->
    for_each rows (fun d => cursor_execute vertica_insert (Some d)) env s
    = (Raises e, set_v_calls (v_calls s ++ inserts (take (S k) rows)) s).
Proof.
  induction rows as [| d rows IH]; intros s k e Hk Hno He; [cbn in Hk; lia |].
  cbn [for_each]. unfold bind at 1. unfold cursor_execute at 1.
  destruct k as [| k].
  - rewrite Nat.add_0_r in He. rewrite He. reflexivity.
  - pose proof (Hno 0%nat ltac:(lia)) as H0. rewrite Nat.add_0_r in H0. rewrite H0.
    rewrite (IH _ k e).
    + cbn. now rewrite <- app_assoc.
    + cbn in Hk. lia.
    + intros j Hj. cbn. rewrite length_app. cbn.
      replace (length (v_calls s) + 1 + j)%nat with (length (v_calls s) + S j)%nat by lia.
      apply Hno. lia.
    + cbn. rewrite length_app. cbn.
      replace (length (v_calls s) + 1 + k)%nat with (length (v_calls s) + S k)%nat by lia.
      exact He.
Qed.

Lemma load_data_to_vertica_insert_fault env s events k e :
  (k < length events)%nat ->
  no_v_fault env (length (v_calls s)) k ->
  v_fault env (length (v_calls s) + k) = Some e ->
  load_data_to_vertica events env s
  = (Raises e,
     set_clock_pos (S (clock_pos s))
       (set_v_calls (v_calls s ++ inserts (vertica_rows s (take (S k) events))) s)).
Proof.
  intros Hk Hno He.
  unfold load_data_to_vertica, with_cursor, time_time, read_clock.
  unfold bind at 1. unfold bind at 1. unfold bind at 1. unfold get at 1.
  change (map _ events) with (vertica_rows s events).
  unfold bind at 1.
  rewrite (for_each_insert_fault env (vertica_rows s events) _ k e).
  - cbn. unfold vertica_rows. now rewrite firstn_map.
  - unfold vertica_rows. now rewrite length_map.
  - exact Hno.
  - exact He.
Qed.

Lemma load_data_to_vertica_commit_fault env s events e :
  no_v_fault env (length (v_calls s)) (length events) ->
  v_fault env (length (v_calls s) + length events) = Some e ->
  load_data_to_vertica events env s
  = (Raises e,
     set_clock_pos (S (clock_pos s))
       (set_v_calls (v_calls s ++ vertica_batch s events) s)).
Proof.
  intros Hno He.
  unfold load_data_to_vertica, with_cursor, time_time, read_clock.
  unfold bind at 1. unfold bind at 1. unfold bind at 1. unfold get at 1.
  change (map _ events) with (vertica_rows s events).
  destruct (for_each_insert env (vertica_rows s events) (set_clock_pos (S (clock_pos s)) s))
    as (r1 & issued & Hrun & _ & Hret & Hok).
  unfold bind at 1. rewrite Hrun.
  assert (r1 = Returns tt) as ->.
  { apply Hok. unfold vertica_rows. rewrite length_map. exact Hno. }
  rewrite (Hret tt eq_refl). unfold cursor_execute.
  cbn [v_calls set_v_calls set_clock_pos].
  rewrite length_app. unfold inserts, vertica_rows at 1. rewrite !length_map, He.
  unfold vertica_batch. cbn. now rewrite <- app_assoc.
Qed.

(** X7.  [load_data_to_vertica] has no handler: the first cursor call that
    raises ends it and the exception reaches the caller.  If that call is
    the insert of event number [k], the inserts of events [0..k] have been
    sent, in order, and no [COMMIT] follows; if all inserts pass and the
    [COMMIT] raises, the whole batch has been sent.  In both cases the clock
    has been read once only and no elapsed time is returned. *)
Theorem load_data_to_vertica_stops_at_failure env s (events : list nat) k e :
  (k <= length events)%nat ->
  (forall j, (j < k)%nat -> v_fault env (length (v_calls s) + j) = None) ->
  v_fault env (length (v_calls s) + k) = Some e ->
  exists s',
    load_data_to_vertica events env s = (Raises e, s') /\
    v_calls s'
    = v_calls s ++
      map (fun event => VExecute "INSERT INTO public.events VALUES (%s, %s, %s, %s)"
                          (Some (model_dump_values (deref s event))))
          (take (S k) events)
      ++ (if decide (k = length events) then [VExecute "COMMIT" None] else []) /\
    clock_pos s' = S (clock_pos s) /\ heap s' = heap s.
Proof.
  intros Hk Hno He. destruct (decide (k = length events)) as [-> | Hne].
  - rewrite (load_data_to_vertica_commit_fault env s events e Hno He).
    eexists. split; [reflexivity |]. cbn. split; [| now split].
    rewrite take_ge by lia.
    unfold vertica_batch, inserts, vertica_rows. now rewrite map_map.
  - rewrite (load_data_to_vertica_insert_fault env s events k e ltac:(lia) Hno He).
    eexists. split; [reflexivity |]. cbn. split; [| now split].
    unfold inserts, vertica_rows. now rewrite map_map, app_nil_r.
Qed.

Lemma load_data_to_vertica_stops_at_failure_witness :
  let s :=
    set_heap [mkEvent "click" 5 None None; mkEvent "view" 6 None None;
              mkEvent "purchase" 7 None None; mkEvent "click" 8 None None]
      initial_state in
  exists s',
    load_data_to_vertica [0; 1; 2; 3]%nat
      (failing_third_execute (quiet_env Settings.defaults)) s
    = (Raises (DriverError "QueryError" "value too long"), s') /\
    v_calls s'
    = [VExecute "INSERT INTO public.events VALUES (%s, %s, %s, %s)"
         (Some ("click"%string, 5, None, None));
       VExecute "INSERT INTO public.events VALUES (%s, %s, %s, %s)"
         (Some ("view"%string, 6, None, None));
       VExecute "INSERT INTO public.events VALUES (%s, %s, %s, %s)"
         (Some ("purchase"%string, 7, None, None))].
Proof.
  intros s.
  destruct (load_data_to_vertica_stops_at_failure
              (failing_third_execute (quiet_env Settings.defaults)) s [0; 1; 2; 3]%nat
              2%nat (DriverError "QueryError" "value too long"))
    as (s' & Hrun & Hcalls & _).
  - cbn. lia.
  - intros j Hj. destruct j as [| [| j]]; [reflexivity | reflexivity | lia].
  - reflexivity.
  - exists s'. split; [exact Hrun |]. rewrite Hcalls. reflexivity.
Defined.

(** ** The read paths *)

(** X8.  [ClickhouseLoader.read_data] sends one [SELECT *] on the configured
    table and has no handler.  If the query raises, the exception reaches
    the caller and the clock has been read once.  Otherwise the clock is
    read a second time and the rows of the result are looked up: an
    [AttributeError] met by [hasattr] is answered by the empty list, any
    other exception raised by the property [result_rows], under [hasattr] or
    when it is read, reaches the caller; if none is raised the result is the
    difference of the two clock readings.  The method never writes a log
    record and never changes the catalog. *)
Theorem read_data_propagates env s self :
  let database := ClickhouseSettings.database (loader_settings self) in
  let table := ClickhouseSettings.table (loader_settings self) in
  let n := length (ch_calls s) in
  let read_time := clock env (S (clock_pos s)) - clock env (clock_pos s) in
  exists r s',
    read_data self env s = (r, s') /\
    ch_calls s' = ch_calls s ++ [ChQuery ("SELECT * FROM " +:+ database +:+ "." +:+ table)] /\
    log s' = log s /\ ch_catalog s' = ch_catalog s /\ heap s' = heap s /\
    match ch_fault env n with
    | Some e => r = Raises e /\ clock_pos s' = S (clock_pos s)
    | None =>
        clock_pos s' = S (S (clock_pos s)) /\
        match ch_has_rows env n with
        | Some e => r = if is_AttributeError e then Returns read_time else Raises e
        | None =>
            match ch_rows env n with
            | Some e => r = Raises e
            | None => r = Returns read_time
            end
        end
    end.
Proof.
  intros database table n read_time. rewrite read_data_run. fold database table n.
  unfold result_rows_fault.
  destruct (ch_fault env n).
  { eexists _, _. split; [reflexivity |]. cbn. repeat split. }
  destruct (ch_has_rows env n) as [e |].
  - destruct (is_AttributeError e); eexists _, _;
      (split; [reflexivity |]); cbn; repeat split.
  - destruct (ch_rows env n); eexists _, _;
      (split; [reflexivity |]); cbn; repeat split.
Qed.

Lemma read_data_propagates_witness :
  exists s',
    read_data (mkClickhouseLoader ClickhouseSettings.defaults)
      (unreadable_rows (quiet_env Settings.defaults)) initial_state
    = (Raises (DriverError "OperationalError" "connection reset"), s') /\
    clock_pos s' = 2%nat /\
    ch_calls s' = [ChQuery "SELECT * FROM example.events"].
Proof.
  destruct (read_data_propagates (unreadable_rows (quiet_env Settings.defaults))
              initial_state (mkClickhouseLoader ClickhouseSettings.defaults))
    as (r & s' & Hrun & Hcalls & _ & _ & _ & Hout).
  cbn in Hout. destruct Hout as [Hclock ->].
  exists s'. split; [exact Hrun |]. split; [exact Hclock | exact Hcalls].
Defined.

(** X9.  [read_data_from_vertica] executes the [SELECT *] on the table named
    by the module-level settings and then fetches all rows; it has no
    handler.  If the [SELECT] raises, nothing is fetched and the exception
    reaches the caller; if the fetch raises, that exception reaches the
    caller; otherwise the result is the difference of two consecutive clock
    readings, taken before the [SELECT] and after the fetch. *)
Theorem read_data_from_vertica_propagates env s self :
  let schema := VerticaSettings.vertica_schema (Settings.vertica (settings env)) in
  let table := VerticaSettings.table (Settings.vertica (settings env)) in
  let n := length (v_calls s) in
  let select := VExecute ("SELECT * FROM " +:+ schema +:+ "." +:+ table) None in
  exists r s',
    read_data_from_vertica self env s = (r, s') /\
    log s' = log s /\ heap s' = heap s /\ ch_calls s' = ch_calls s /\
    match v_fault env n, v_fault env (S n) with
    | Some e, _ =>
        r = Raises e /\ v_calls s' = v_calls s ++ [select] /\
        clock_pos s' = S (clock_pos s)
    | None, Some e =>
        r = Raises e /\ v_calls s' = v_calls s ++ [select; VFetchAll] /\
        clock_pos s' = S (clock_pos s)
    | None, None =>
        r = Returns (clock env (S (clock_pos s)) - clock env (clock_pos s)) /\
        v_calls s' = v_calls s ++ [select; VFetchAll] /\
        clock_pos s' = S (S (clock_pos s))
    end.
Proof.
  intros schema table n select.
  unfold read_data_from_vertica, with_cursor, bind, ask, time_time, read_clock,
    cursor_execute, cursor_fetchall, ret. cbn.
  fold schema table n.
  destruct (v_fault env n) as [e |]; cbn.
  - eexists _, _. split; [reflexivity |]. cbn. repeat split.
  - rewrite length_app. cbn [length]. fold n. rewrite Nat.add_1_r.
    destruct (v_fault env (S n)) as [e |]; cbn; eexists _, _;
      (split; [reflexivity |]); cbn; rewrite <- app_assoc; repeat split.
Qed.

(** ** Provisioning and construction *)

(** X10.  [create_vertica_table] never raises: it sends one
    [CREATE TABLE IF NOT EXISTS] statement and, if the cursor raises, logs
    the exception and returns.  The statement names the schema and table of
    the module-level settings; the settings the manager was constructed
    with play no part. *)
Theorem create_vertica_table_never_raises env s self :
  let schema := VerticaSettings.vertica_schema (Settings.vertica (settings env)) in
  let table := VerticaSettings.table (Settings.vertica (settings env)) in
  (forall self', create_vertica_table self' env s = create_vertica_table self env s) /\
  exists s',
    create_vertica_table self env s = (Returns tt, s') /\
    v_calls s'
    = v_calls s ++
      [VExecute ("CREATE TABLE IF NOT EXISTS " +:+ schema +:+ "." +:+ table
                   +:+ " (event_type VARCHAR(255), timestamp TIMESTAMP, "
                   +:+ "user_id UUID NULL, url VARCHAR(255) NULL)") None] /\
    ch_calls s' = ch_calls s /\ heap s' = heap s /\ clock_pos s' = clock_pos s /\
    match v_fault env (length (v_calls s)) with
    | Some e =>
        last (log s')
        = Some (LogException "An error occurred while creating the Vertica table" e)
    | None =>
        last (log s')
        = Some (LogInfo ("Table '" +:+ table +:+ "' created successfully in schema '"
                           +:+ schema +:+ "'."))
    end.
Proof.
  intros schema table. split; [reflexivity |].
  unfold create_vertica_table, with_cursor, bind, try_except, ask, logger_info,
    logger_exception, emit, modify, cursor_execute. cbn.
  fold schema table.
  destruct (v_fault env (length (v_calls s))); cbn; eexists;
    (split; [reflexivity |]); cbn;
    (split; [unfold qualified; now rewrite !append_assoc |]);
    repeat split; apply last_snoc.
Qed.

Lemma DatabaseManager_init_run env s cs vs :
  DatabaseManager_init cs vs env s
  = match ch_connect env with
    | Some e => (Raises e, s)
    | None =>
        let s1 := snd (init_clickhouse (mkClickhouseLoader cs) env
                         (set_ch_server (ch_catalog s) "default" s)) in
        match connect_to_vertica vs env s1 with
        | (Returns _, s2) => (Returns (mkDatabaseManager vs (mkClickhouseLoader cs)), s2)
        | (Raises e, s2) => (Raises e, s2)
        end
    end.
Proof.
  unfold DatabaseManager_init, ClickhouseLoader_init.
  unfold bind at 1. unfold bind at 1. unfold get_client.
  destruct (ch_connect env) as [e0 |]; [reflexivity |].
  unfold bind at 1.
  destruct (init_clickhouse_frame env (set_ch_server (ch_catalog s) "default" s)
              (mkClickhouseLoader cs)) as (s1 & issued & -> & _).
  unfold ret at 1. unfold bind. cbn [snd].
  now destruct (connect_to_vertica vs env s1) as [[[] | e] s2].
Qed.

(** X11.  Constructing the [DatabaseManager] succeeds exactly when both
    connections are established: the outcome of the initialization commands
    that the [ClickhouseLoader] constructor runs makes no difference.  The
    manager then carries the settings it was given.  When
    [clickhouse_connect.get_client] raises, that exception leaves the
    constructor at once: no command is sent, nothing is logged and the row
    store is never contacted. *)
Theorem DatabaseManager_init_succeeds_iff env s cs vs :
  ((exists dm s', DatabaseManager_init cs vs env s = (Returns dm, s')) <->
   ch_connect env = None /\ v_connect env = None) /\
  (forall dm s', DatabaseManager_init cs vs env s = (Returns dm, s') ->
     dm = mkDatabaseManager vs (mkClickhouseLoader cs)) /\
  (forall e, ch_connect env = Some e ->
     DatabaseManager_init cs vs env s = (Raises e, s)).
Proof.
  rewrite DatabaseManager_init_run.
  destruct (ch_connect env) as [e0 |].
  - split; [| split].
    + split; [intros (dm & s' & H); discriminate H | intros [H _]; discriminate H].
    + intros dm s' H. discriminate H.
    + now intros e [= <-].
  - cbn zeta. rewrite connect_to_vertica_run.
    destruct (v_connect env) as [e1 |].
    + destruct e1;
        (split; [split; [intros (dm & s' & H); discriminate H
                        | intros [_ H]; discriminate H] |]);
        (split; [intros dm s' H; discriminate H | intros e H; discriminate H]).
    + split; [split; [now intros _ | intros _; eexists _, _; reflexivity] |].
      split; [now intros dm s' [= <- _] | intros e H; discriminate H].
Qed.

(** X12.  [connect_to_vertica] logs the whole [connection_info] dict before
    it calls the driver: whether the connection is established or not, the
    first record it writes carries the configured password in clear. *)
Theorem connect_to_vertica_logs_password env s vs :
  exists items rest,
    log (snd (connect_to_vertica vs env s)) = log s ++ LogInfoDict items :: rest /\
    ("password"%string, PyStr (VerticaSettings.password vs)) ∈ items /\
    ("host"%string, PyStr (VerticaSettings.host vs)) ∈ items /\
    ("user"%string, PyStr (VerticaSettings.user vs)) ∈ items.
Proof.
  rewrite connect_to_vertica_run.
  exists (connection_info vs).
  destruct (v_connect env) as [[] |]; cbn; eexists; (split; [reflexivity |]);
    unfold connection_info; repeat split; repeat (constructor; try done).
Qed.

(** ** Which failures end a run *)

Lemma issued_until_fault_bounds fault from count :
  (issued_until_fault fault from (S count) >= 1)%nat /\
  (issued_until_fault fault from (S count) <= S count)%nat.
Proof.
  revert from. induction count as [| c IH]; intros from.
  - cbn. destruct (fault from); lia.
  - specialize (IH (S from)). cbn [issued_until_fault] in *.
    destruct (fault from); [lia |]. destruct (fault (S from)); lia.
Qed.

Lemma init_clickhouse_counts env s self :
  exists s',
    init_clickhouse self env s = (Returns tt, s') /\
    length (ch_calls s')
    = (length (ch_calls s) + issued_until_fault (ch_fault env) (length (ch_calls s)) 4)%nat /\
    v_calls s' = v_calls s /\ same_python_side s s'.
Proof.
  destruct (init_clickhouse_run env s self)
    as (issued & c & session & lg & Hrun & _ & Hfail & Hok).
  eexists. split; [exact Hrun |]. cbn [ch_calls v_calls set_log set_ch_server set_ch_calls].
  split; [| split; [reflexivity | repeat split]].
  rewrite length_app. f_equal.
  set (n := length (ch_calls s)) in *.
  assert (forall k e, (k < 4)%nat -> no_ch_fault env n k -> ch_fault env (n + k) = Some e ->
          length issued = S k) as Hlen.
  { intros k e Hk Hno He. destruct (Hfail k e Hk Hno He) as [-> _].
    rewrite length_take. cbn. lia. }
  cbn [issued_until_fault].
  destruct (ch_fault env n) as [e0 |] eqn:F0.
  { apply (Hlen 0%nat e0); [lia | intros j Hj; lia | now rewrite Nat.add_0_r]. }
  destruct (ch_fault env (S n)) as [e1 |] eqn:F1.
  { apply (Hlen 1%nat e1); [lia | | now rewrite Nat.add_1_r].
    intros j Hj. replace j with 0%nat by lia. now rewrite Nat.add_0_r. }
  destruct (ch_fault env (S (S n))) as [e2 |] eqn:F2.
  { apply (Hlen 2%nat e2); [lia | | now replace (n + 2)%nat with (S (S n)) by lia].
    intros j Hj. destruct j as [| [| j]]; [| | lia].
    - now rewrite Nat.add_0_r.
    - now rewrite Nat.add_1_r. }
  assert (no_ch_fault env n 3) as H3.
  { intros j Hj. destruct j as [| [| [| j]]]; [| | | lia].
    - now rewrite Nat.add_0_r.
    - now rewrite Nat.add_1_r.
    - now replace (n + 2)%nat with (S (S n)) by lia. }
  destruct (ch_fault env (S (S (S n)))) as [e3 |] eqn:F3.
  { apply (Hlen 3%nat e3); [lia | exact H3 |].
    now replace (n + 3)%nat with (S (S (S n))) by lia. }
  destruct Hok as (-> & _).
  { intros j Hj. destruct (Nat.eq_dec j 3%nat) as [-> | Hne].
    - now replace (n + 3)%nat with (S (S (S n))) by lia.
    - apply H3. lia. }
  reflexivity.
Qed.

Lemma generate_events_counts env s :
  exists refs s',
    generate_events 1000 env s = (Returns refs, s') /\
    length refs = 1000%nat /\
    ch_calls s' = ch_calls s /\ v_calls s' = v_calls s /\
    length (heap s') = (length (heap s) + 1000)%nat /\
    heap s `prefix_of` heap s'.
Proof.
  unfold generate_events.
  destruct (comprehension_generate env (Z.to_nat 1000) s) as (evs & up' & -> & Hlen & _).
  eexists _, _. split; [reflexivity |].
  split; [rewrite length_seq; lia |]. cbn [ch_calls v_calls heap].
  split; [reflexivity |]. split; [reflexivity |].
  split; [rewrite length_app; lia | now apply prefix_app_r].
Qed.

Lemma load_data_to_clickhouse_counts env s loader events :
  events <> [] ->
  exists d s',
    load_data_to_clickhouse events loader env s = (Returns d, s') /\
    length (ch_calls s') = S (length (ch_calls s)) /\
    v_calls s' = v_calls s /\ heap s' = heap s.
Proof.
  intros Hne.
  destruct (load_data_to_clickhouse_run env s loader events)
    as (s' & Hrun & _ & _ & _ & Hh & Hv & Hc).
  eexists _, s'. split; [exact Hrun |]. split; [| now split].
  rewrite Hc. destruct events; [congruence |]. rewrite length_app. cbn. lia.
Qed.

(** The row-store write returns exactly when none of its cursor calls
    raises. *)
Lemma load_data_to_vertica_returns_iff env s events :
  (exists d s', load_data_to_vertica events env s = (Returns d, s')) <->
  no_v_fault env (length (v_calls s)) (S (length events)).
Proof.
  split.
  - intros (d & s' & Hrun).
    destruct (first_v_fault env (length (v_calls s)) (S (length events)))
      as [Hno | (k & e & Hk & Hno & He)]; [exact Hno |].
    destruct (Nat.eq_dec k (length events)) as [-> | Hne].
    + rewrite (load_data_to_vertica_commit_fault env s events e Hno He) in Hrun.
      discriminate Hrun.
    + rewrite (load_data_to_vertica_insert_fault env s events k e ltac:(lia) Hno He) in Hrun.
      discriminate Hrun.
  - intros Hno.
    destruct (load_data_to_vertica_run env s events)
      as (r & issued & cp & Hrun & _ & _ & Hok).
    destruct (Hok Hno) as (d & ->). eauto.
Qed.

Lemma read_data_from_vertica_run env s self :
  let n := length (v_calls s) in
  let select :=
    VExecute ("SELECT * FROM "
                +:+ qualified (VerticaSettings.vertica_schema (Settings.vertica (settings env)))
                              (VerticaSettings.table (Settings.vertica (settings env))))
             None in
  let s1 := set_clock_pos (S (clock_pos s)) s in
  read_data_from_vertica self env s
  = match v_fault env n with
    | Some e => (Raises e, set_v_calls (v_calls s ++ [select]) s1)
    | None =>
        match v_fault env (S n) with
        | Some e => (Raises e, set_v_calls (v_calls s ++ [select; VFetchAll]) s1)
        | None =>
            (Returns (clock env (S (clock_pos s)) - clock env (clock_pos s)),
             set_clock_pos (S (S (clock_pos s)))
               (set_v_calls (v_calls s ++ [select; VFetchAll]) s1))
        end
    end.
Proof.
  intros n select s1.
  unfold read_data_from_vertica, with_cursor, bind, ask, time_time, read_clock,
    cursor_execute, cursor_fetchall, ret. cbn.
  fold n. destruct (v_fault env n) as [e |]; cbn; [reflexivity |].
  rewrite length_app. cbn [length]. fold n. rewrite Nat.add_1_r.
  destruct (v_fault env (S n)) as [e |]; cbn; rewrite <- app_assoc; reflexivity.
Qed.

(** X14.  Which failures end a run.  [main] returns the dict exactly when
    both connections are established, the column store's [SELECT] does not
    raise, looking up the rows of its result lets no exception out, and no
    cursor call after the row store's [CREATE TABLE] raises (the 1000
    inserts, the [COMMIT], the [SELECT] and the fetch).  Whether the column
    store's initialization commands, its insert, or the row store's
    [CREATE TABLE] raise makes no difference: those failures are logged and
    the run goes on.  The [SELECT] of the column store is the client call
    that follows the commands of the two initializations and the insert. *)
Theorem main_returns_dict_iff env s :
  let n := length (ch_calls s) in
  let vn := length (v_calls s) in
  let i1 := issued_until_fault (ch_fault env) n 4 in
  let i2 := issued_until_fault (ch_fault env) (n + i1) 4 in
  (exists m s', main env s = (Returns (Some m), s')) <->
  ch_connect env = None /\ v_connect env = None /\
  (forall k, (1 <= k <= 1003)%nat -> v_fault env (vn + k) = None) /\
  ch_fault env (n + i1 + i2 + 1) = None /\
  match ch_has_rows env (n + i1 + i2 + 1) with
  | Some e => is_AttributeError e = true
  | None => ch_rows env (n + i1 + i2 + 1) = None
  end.
Proof.
  intros n vn i1 i2. rewrite <- result_rows_fault_None. unfold main.
  match goal with |- context [try_except ?b ?h env s] => set (body := b); set (handler := h) end.
  assert ((exists m s', try_except body handler env s = (Returns (Some m), s')) <->
          (exists m s', body env s = (Returns (Some m), s'))) as ->.
  { unfold try_except. destruct (body env s) as [[r | e] s1]; [reflexivity |].
    unfold handler, bind, logger_exception, emit, modify, ret.
    split; intros (m & s' & H); discriminate H. }
  unfold body. clear body handler.
  unfold bind at 1. unfold logger_info at 1, emit at 1, modify at 1.
  unfold bind at 1. unfold ask at 1. unfold bind at 1.
  rewrite DatabaseManager_init_run.
  destruct (ch_connect env) as [e0 |].
  { split; [intros (m & s' & H); discriminate H | intros [H _]; discriminate H]. }
  cbn zeta.
  match goal with |- context [init_clickhouse ?l env ?st] =>
    destruct (init_clickhouse_counts env st l) as (s1 & Hrun1 & Hlen1 & Hv1 & _)
  end.
  rewrite Hrun1. cbn [snd]. rewrite connect_to_vertica_run.
  destruct (v_connect env) as [e1 |].
  { destruct e1; (split; [intros (m & s' & H); discriminate H
                         | intros (_ & H & _); discriminate H]). }
  cbn [clickhouse_loader].
  cbn [ch_calls v_calls set_log set_ch_server] in Hlen1, Hv1. fold n i1 in Hlen1.
  unfold bind at 1.
  match goal with |- context [init_clickhouse ?l env ?st] =>
    destruct (init_clickhouse_counts env st l) as (s2 & Hrun2 & Hlen2 & Hv2 & _)
  end.
  rewrite Hrun2. cbn [ch_calls v_calls set_log] in Hlen2, Hv2.
  rewrite Hlen1 in Hlen2. fold i2 in Hlen2. rewrite Hv1 in Hv2.
  unfold bind at 1.
  match goal with |- context [create_vertica_table ?l env ?st] =>
    destruct (create_vertica_table_run env st l) as (rec3 & ->)
  end.
  unfold bind at 1.
  match goal with |- context [generate_events ?c env ?st] =>
    destruct (generate_events_counts env st) as (events & s4 & -> & Hlen4 & Hc4 & Hv4 & _)
  end.
  cbn [ch_calls v_calls set_log set_v_calls] in Hc4, Hv4.
  unfold bind at 1.
  match goal with |- context [load_data_to_clickhouse ?ev ?l env ?st] =>
    destruct (load_data_to_clickhouse_counts env st l ev) as (d5 & s5 & -> & Hc5 & Hv5 & _)
  end.
  { intros ->. discriminate Hlen4. }
  rewrite Hc4, Hlen2 in Hc5. rewrite Hv4, Hv2 in Hv5.
  assert (length (v_calls s5) = (vn + 1)%nat) as Hvn5.
  { rewrite Hv5, length_app. reflexivity. }
  unfold bind at 1.
  destruct (first_v_fault env (length (v_calls s5)) (S (length events)))
    as [Hno | (k & e & Hk & Hno & He)].
  2:{ assert (exists s6, load_data_to_vertica events env s5 = (Raises e, s6)) as (s6 & ->).
      { destruct (Nat.eq_dec k (length events)) as [-> | Hne].
        - rewrite (load_data_to_vertica_commit_fault env s5 events e Hno He). eauto.
        - rewrite (load_data_to_vertica_insert_fault env s5 events k e ltac:(lia) Hno He).
          eauto. }
      split; [intros (m & s' & H); discriminate H |].
      intros (_ & _ & Hc & _). rewrite Hvn5 in He.
      specialize (Hc (1 + k)%nat ltac:(lia)).
      replace (vn + (1 + k))%nat with (vn + 1 + k)%nat in Hc by lia. congruence. }
  destruct (load_data_to_vertica_run env s5 events)
    as (r6 & issued6 & cp6 & -> & _ & Hret6 & Hok6).
  destruct (Hok6 Hno) as (d6 & ->). destruct (Hret6 d6 eq_refl) as (-> & _ & ->).
  unfold bind at 1. rewrite read_data_run.
  cbn [ch_calls set_clock_pos set_v_calls]. rewrite Hc5.
  replace (S (n + i1 + i2)) with (n + i1 + i2 + 1)%nat by lia.
  destruct (ch_fault env (n + i1 + i2 + 1)) as [e7 |].
  { split; [intros (m & s' & H); discriminate H | intros (_ & _ & _ & H & _); discriminate H]. }
  destruct (result_rows_fault env (n + i1 + i2 + 1)) as [e7 |].
  { split; [intros (m & s' & H); discriminate H
           | intros (_ & _ & _ & _ & H); discriminate H]. }
  unfold bind at 1. rewrite read_data_from_vertica_run.
  cbn [v_calls set_clock_pos set_v_calls set_ch_calls].
  assert (length (v_calls s5 ++ vertica_batch s5 events) = (vn + 1002)%nat) as Hvn7.
  { rewrite length_app, Hvn5. unfold vertica_batch, inserts, vertica_rows.
    rewrite length_app, !length_map, Hlen4. cbn. lia. }
  rewrite Hvn7.
  destruct (v_fault env (vn + 1002)) as [e8 |] eqn:F8.
  { split; [intros (m & s' & H); discriminate H |].
    intros (_ & _ & Hc & _). specialize (Hc 1002%nat ltac:(lia)). congruence. }
  destruct (v_fault env (S (vn + 1002))) as [e9 |] eqn:F9.
  { split; [intros (m & s' & H); discriminate H |].
    intros (_ & _ & Hc & _). specialize (Hc 1003%nat ltac:(lia)).
    replace (vn + 1003)%nat with (S (vn + 1002)) in Hc by lia. congruence. }
  split; [| intros _; unfold bind, emit, modify, ret; eexists _, _; reflexivity].
  intros _. repeat split. intros k Hk.
  destruct (Nat.eq_dec k 1003%nat) as [-> | H1003].
  { now replace (vn + 1003)%nat with (S (vn + 1002)) by lia. }
  destruct (Nat.eq_dec k 1002%nat) as [-> | H1002]; [exact F8 |].
  specialize (Hno (k - 1)%nat ltac:(lia)). rewrite Hvn5 in Hno.
  now replace (vn + 1 + (k - 1))%nat with (vn + k)%nat in Hno by lia.
Qed.

(** X13.  [main] never raises.  When the statements under its [try] raise
    an exception, the handler catches it: [main] returns [None] and the log
    gains one record, that very exception logged as unhandled; nothing else
    of the state changes.  When they complete, [main] returns what they
    return, which is the dict, and the last log record is the row-store read
    time the dict holds. *)
Theorem main_never_raises_and_logs env s :
  match main_body env s with
  | (Raises e, s1) =>
      main env s
      = (Returns None, set_log (log s1 ++ [LogException "Unhandled exception" e]) s1)
  | (Returns r, s1) =>
      main env s = (Returns r, s1) /\
      exists m d,
        r = Some m /\ m !! "vertica_read_time"%string = Some d /\
        last (log s1) = Some (LogInfoSeconds "Vertica read time" d)
  end.
Proof.
  rewrite main_unfold. unfold try_except.
  destruct (main_body env s) as [[r | e] s1] eqn:Hbody.
  - split; [reflexivity |]. unfold main_body in Hbody.
    do 10 (apply bind_inv_returns in Hbody; destruct Hbody as (? & ? & _ & Hbody)).
    unfold bind, emit, modify, ret in Hbody. injection Hbody as <- <-.
    eexists _, _. split; [reflexivity |].
    split; [apply lookup_insert_eq |]. cbn [log set_log]. apply last_snoc.
  - reflexivity.
Qed.

(** ** A run without failures *)

Lemma generate_events_rows env s :
  exists refs evs s',
    generate_events 1000 env s = (Returns refs, s') /\
    length refs = 1000%nat /\ length evs = 1000%nat /\
    heap s' = heap s ++ evs /\
    ch_calls s' = ch_calls s /\ v_calls s' = v_calls s /\
    forall st, heap st = heap s' ->
      map (fun event => model_dump_values (deref st event)) refs
      = map model_dump_values evs.
Proof.
  unfold generate_events.
  destruct (comprehension_generate env (Z.to_nat 1000) s) as (evs & up' & -> & Hlen & _).
  eexists _, evs, _. split; [reflexivity |].
  split; [rewrite length_seq; lia |]. split; [rewrite Hlen; lia |].
  cbn [heap ch_calls v_calls]. split; [reflexivity |].
  split; [reflexivity |]. split; [reflexivity |].
  intros st Hst. unfold deref. rewrite Hst.
  rewrite <- (map_map (fun r => (heap s ++ evs) !!! r) model_dump_values).
  rewrite <- Hlen at 1. now rewrite deref_new.
Qed.

(** X15.  The calls of a run in which nothing fails: both connections are
    established, no driver call raises and looking up the rows of the
    column store's result lets no exception out.  The column store
    receives the four initialization statements twice (once from the
    loader's constructor, once from [main]), then one insert of 1000 rows
    into [example.events], then one [SELECT].  The row store receives the
    [CREATE TABLE], then 1000 single-row inserts, the [COMMIT], the [SELECT]
    and the fetch.  Both stores are sent the same rows in the same order:
    those of the 1000 events that the run added to the object store. *)
Theorem main_quiet_run_calls env s :
  ch_connect env = None -> v_connect env = None ->
  (forall k, ch_fault env k = None) -> (forall k, v_fault env k = None) ->
  (forall k, result_rows_fault env k = None) ->
  let database := ClickhouseSettings.database (Settings.clickhouse (settings env)) in
  let table := ClickhouseSettings.table (Settings.clickhouse (settings env)) in
  let schema := VerticaSettings.vertica_schema (Settings.vertica (settings env)) in
  let vtable := VerticaSettings.table (Settings.vertica (settings env)) in
  exists m s' rows,
    main env s = (Returns (Some m), s') /\
    length rows = 1000%nat /\
    rows = map model_dump_values (drop (length (heap s)) (heap s')) /\
    take (length (heap s)) (heap s') = heap s /\
    ch_calls s'
    = ch_calls s ++ init_statements database table ++ init_statements database table
      ++ [ChInsert "example.events" rows ["event_type"; "timestamp"; "user_id"; "url"]%string;
          ChQuery ("SELECT * FROM " +:+ database +:+ "." +:+ table)] /\
    v_calls s'
    = v_calls s
      ++ [VExecute ("CREATE TABLE IF NOT EXISTS " +:+ schema +:+ "." +:+ vtable
                      +:+ " (event_type VARCHAR(255), timestamp TIMESTAMP, "
                      +:+ "user_id UUID NULL, url VARCHAR(255) NULL)") None]
      ++ map (fun d => VExecute "INSERT INTO public.events VALUES (%s, %s, %s, %s)" (Some d))
             rows
      ++ [VExecute "COMMIT" None;
          VExecute ("SELECT * FROM " +:+ schema +:+ "." +:+ vtable) None;
          VFetchAll].
Proof.
  intros Hcc Hvc Hcf Hvf Hrows0 database table schema vtable. unfold main.
  match goal with |- context [try_except ?body ?h env s] =>
    assert (exists m s' rows,
      body env s = (Returns (Some m), s') /\
      length rows = 1000%nat /\
      rows = map model_dump_values (drop (length (heap s)) (heap s')) /\
      take (length (heap s)) (heap s') = heap s /\
      ch_calls s'
      = ch_calls s ++ init_statements database table ++ init_statements database table
        ++ [ChInsert "example.events" rows ["event_type"; "timestamp"; "user_id"; "url"]%string;
            ChQuery ("SELECT * FROM " +:+ database +:+ "." +:+ table)] /\
      v_calls s'
      = v_calls s
        ++ [VExecute ("CREATE TABLE IF NOT EXISTS " +:+ schema +:+ "." +:+ vtable
                        +:+ " (event_type VARCHAR(255), timestamp TIMESTAMP, "
                        +:+ "user_id UUID NULL, url VARCHAR(255) NULL)") None]
        ++ map (fun d => VExecute "INSERT INTO public.events VALUES (%s, %s, %s, %s)" (Some d))
               rows
        ++ [VExecute "COMMIT" None;
            VExecute ("SELECT * FROM " +:+ schema +:+ "." +:+ vtable) None;
            VFetchAll]) as (m & s' & rows & Hbody & Hrest)
  end.
  2:{ exists m, s', rows. now rewrite (try_except_returns _ _ _ _ _ _ Hbody). }
  unfold bind at 1. unfold logger_info at 1, emit at 1, modify at 1.
  unfold bind at 1. unfold ask at 1. unfold bind at 1.
  rewrite DatabaseManager_init_run, Hcc. cbn zeta.
  match goal with |- context [init_clickhouse ?l env ?st] =>
    destruct (init_clickhouse_run env st l)
      as (issued1 & c1 & session1 & lg1 & -> & _ & _ & Hok1)
  end.
  destruct Hok1 as (-> & -> & ->); [intros k _; apply Hcf |].
  cbn [snd]. rewrite connect_to_vertica_run, Hvc. cbn [clickhouse_loader].
  unfold bind at 1.
  match goal with |- context [init_clickhouse ?l env ?st] =>
    destruct (init_clickhouse_run env st l)
      as (issued2 & c2 & session2 & lg2 & -> & _ & _ & Hok2)
  end.
  destruct Hok2 as (-> & -> & ->); [intros k _; apply Hcf |].
  unfold bind at 1.
  match goal with |- context [create_vertica_table ?l env ?st] =>
    destruct (create_vertica_table_run env st l) as (rec3 & ->)
  end.
  unfold bind at 1.
  match goal with |- context [generate_events ?c env ?st] =>
    destruct (generate_events_rows env st)
      as (refs & evs & s4 & -> & Hrefs & Hevs & Hheap & Hch & Hv & Hrows)
  end.
  cbn [heap ch_calls v_calls set_log set_v_calls set_ch_server set_ch_calls] in Hheap, Hch, Hv.
  unfold bind at 1. unfold load_data_to_clickhouse.
  unfold bind at 1. unfold time_time at 1, read_clock at 1.
  unfold bind at 1.
  match goal with |- context [load_batch ?l ?ev env ?st] =>
    destruct (load_batch_run env st l ev) as (rec5 & -> & _)
  end.
  { intros ->. discriminate Hrefs. }
  unfold bind at 1. unfold time_time at 1, read_clock at 1. unfold ret at 1.
  unfold bind at 1.
  match goal with |- context [load_data_to_vertica ?ev env ?st] =>
    destruct (load_data_to_vertica_run env st ev)
      as (r6 & issued6 & cp6 & -> & _ & Hret6 & Hok6)
  end.
  destruct Hok6 as (d6 & ->); [intros k _; apply Hvf |].
  destruct (Hret6 d6 eq_refl) as (-> & _ & ->).
  unfold bind at 1. rewrite read_data_run, Hcf, Hrows0.
  unfold bind at 1. rewrite read_data_from_vertica_run, !Hvf.
  unfold bind, emit, modify, ret.
  eexists _, _, (map model_dump_values evs). split; [reflexivity |].
  cbn [heap ch_calls v_calls set_log set_v_calls set_ch_server set_ch_calls set_clock_pos].
  split; [now rewrite length_map |].
  rewrite Hheap, Hch, Hv.
  split; [now rewrite drop_app_length |].
  split; [now rewrite take_app_length |].
  unfold clickhouse_insert, clickhouse_rows, vertica_batch, inserts, vertica_rows.
  rewrite !Hrows by reflexivity.
  rewrite !init_calls_text. cbn [loader_settings]. fold database table.
  split.
  - rewrite <- !app_assoc. reflexivity.
  - rewrite <- !app_assoc. cbn [app]. unfold qualified. fold schema vtable.
    rewrite !append_assoc. reflexivity.
Qed.

Lemma main_quiet_run_calls_witness :
  exists m s' (rows : list Row),
    main (quiet_env Settings.defaults) initial_state = (Returns (Some m), s') /\
    length rows = 1000%nat /\
    length (heap s') = 1000%nat /\
    length (ch_calls s') = 10%nat /\
    length (v_calls s') = 1004%nat /\
    last (ch_calls s') = Some (ChQuery "SELECT * FROM example.events") /\
    last (v_calls s') = Some VFetchAll.
Proof.
  destruct (main_quiet_run_calls (quiet_env Settings.defaults) initial_state)
    as (m & s' & rows & Hmain & Hlen & Hrows & _ & Hch & Hv); try reflexivity.
  exists m, s', rows. split; [exact Hmain |]. split; [exact Hlen |].
  split.
  { apply (f_equal length) in Hrows. rewrite length_map, length_drop in Hrows.
    cbn [heap initial_state length] in Hrows. lia. }
  rewrite Hch, Hv. cbn [ch_calls v_calls initial_state app].
  split; [reflexivity |].
  split; [cbn [length]; rewrite length_app, length_map, Hlen; reflexivity |].
  split; [reflexivity |].
  now rewrite last_cons, last_app.
Defined.

Lemma DatabaseManager_init_value env s cs vs dm s' :
  DatabaseManager_init cs vs env s = (Returns dm, s') ->
  dm = mkDatabaseManager vs (mkClickhouseLoader cs).
Proof.
  rewrite DatabaseManager_init_run.
  destruct (ch_connect env); [discriminate |]. cbn zeta.
  destruct (connect_to_vertica vs env _) as [[[] | e] s2]; [| discriminate].
  now intros [= <- _].
Qed.

(** ** What a run never does *)

Section Preserves.
Variable R : State -> State -> Prop.
Variable env : Env.
Variable cs : ClickhouseSettings.t.

Hypothesis R_refl : forall s, R s s.
Hypothesis R_trans : forall s1 s2 s3, R s1 s2 -> R s2 s3 -> R s1 s3.
Hypothesis R_rng : forall s n, R s (set_rng_pos n s).
Hypothesis R_urandom : forall s n, R s (set_urandom_pos n s).
Hypothesis R_clock : forall s n, R s (set_clock_pos n s).
Hypothesis R_ch_calls : forall s c, R s (set_ch_calls c s).
Hypothesis R_v_calls : forall s c, R s (set_v_calls c s).
Hypothesis R_log : forall s l, R s (set_log l s).
Hypothesis R_new : forall s e, R s (set_heap (heap s ++ [e]) s).
Hypothesis R_session : forall s db, R s (set_ch_server (ch_catalog s) db s).
Hypothesis R_command :
  forall s q, q ∈ init_commands cs -> R s (snd (client_command q env s)).

Lemma preserves_ret {A} (a : A) : preserves R env (ret a).
Proof. intros s. apply R_refl. Qed.

Lemma preserves_raise {A} e : preserves R env (@raise A e).
Proof. intros s. apply R_refl. Qed.

Lemma preserves_ask : preserves R env ask.
Proof. intros s. apply R_refl. Qed.

Lemma preserves_get : preserves R env get.
Proof. intros s. apply R_refl. Qed.

Lemma preserves_bind {A B} (m : Py A) (k : A -> Py B) :
  preserves R env m -> (forall a, preserves R env (k a)) -> preserves R env (bind m k).
Proof.
  intros Hm Hk s. unfold bind. specialize (Hm s).
  destruct (m env s) as [[a | e] s1]; cbn [snd] in *; [| exact Hm].
  eapply R_trans; [exact Hm | apply Hk].
Qed.

Lemma preserves_bind_value {A B} (P : A -> Prop) (m : Py A) (k : A -> Py B) :
  (forall s a s', m env s = (Returns a, s') -> P a) ->
  preserves R env m -> (forall a, P a -> preserves R env (k a)) ->
  preserves R env (bind m k).
Proof.
  intros HP Hm Hk s. unfold bind. specialize (Hm s). specialize (HP s).
  destruct (m env s) as [[a | e] s1]; cbn [snd] in *; [| exact Hm].
  eapply R_trans; [exact Hm | apply Hk]. now apply (HP a s1).
Qed.

Lemma preserves_try_except {A} (m : Py A) (h : PyExc -> Py A) :
  preserves R env m -> (forall e, preserves R env (h e)) -> preserves R env (try_except m h).
Proof.
  intros Hm Hh s. unfold try_except. specialize (Hm s).
  destruct (m env s) as [[a | e] s1]; cbn [snd] in *; [exact Hm |].
  eapply R_trans; [exact Hm | apply Hh].
Qed.

Lemma preserves_for_each {A} (xs : list A) (body : A -> Py unit) :
  (forall x, preserves R env (body x)) -> preserves R env (for_each xs body).
Proof.
  intros Hbody. induction xs as [| x xs IH]; cbn [for_each].
  - apply preserves_ret.
  - apply preserves_bind; [apply Hbody | intros _; exact IH].
Qed.

Lemma preserves_comprehension {A} (n : nat) (body : Py A) :
  preserves R env body -> preserves R env (comprehension n body).
Proof.
  intros Hbody. induction n as [| n IH]; cbn [comprehension].
  - apply preserves_ret.
  - apply preserves_bind; [exact Hbody | intros x].
    apply preserves_bind; [exact IH | intros xs; apply preserves_ret].
Qed.

Lemma preserves_emit r : preserves R env (emit r).
Proof. intros s. cbn. apply R_log. Qed.

Lemma preserves_next_random : preserves R env next_random.
Proof. intros s. cbn. apply R_rng. Qed.

Lemma preserves_read_clock : preserves R env read_clock.
Proof. intros s. cbn. apply R_clock. Qed.

Lemma preserves_uuid4 : preserves R env uuid4.
Proof. intros s. cbn. apply R_urandom. Qed.

Lemma preserves_new_Event et ts uid u : preserves R env (new_Event et ts uid u).
Proof. intros s. cbn. apply R_new. Qed.

Lemma preserves_random_choice {A} (seq : list A) : preserves R env (random_choice seq).
Proof.
  unfold random_choice. destruct seq as [| a seq]; [apply preserves_raise |].
  apply preserves_bind; [apply preserves_next_random | intros r].
  destruct (_ !! _); [apply preserves_ret | apply preserves_raise].
Qed.

Lemma preserves_get_client host port database username password :
  preserves R env (get_client host port database username password).
Proof.
  intros s. unfold get_client. destruct (ch_connect env); cbn [snd];
    [apply R_refl | apply R_session].
Qed.

Lemma preserves_client_insert table data column_names :
  preserves R env (client_insert table data column_names).
Proof.
  intros s. unfold client_insert. destruct (ch_fault env _); cbn [snd]; apply R_ch_calls.
Qed.

Lemma preserves_client_query query : preserves R env (client_query query).
Proof.
  intros s. unfold client_query. destruct (ch_fault env _); cbn [snd]; apply R_ch_calls.
Qed.

Lemma preserves_hasattr_result_rows query_result :
  preserves R env (hasattr_result_rows query_result).
Proof.
  intros s. unfold hasattr_result_rows.
  destruct (ch_has_rows env _) as [e |]; [destruct (is_AttributeError e) |]; apply R_refl.
Qed.

Lemma preserves_get_result_rows query_result :
  preserves R env (get_result_rows query_result).
Proof.
  intros s. unfold get_result_rows. destruct (ch_rows env _); apply R_refl.
Qed.

Lemma preserves_vertica_python_connect info :
  preserves R env (vertica_python_connect info).
Proof.
  intros s. unfold vertica_python_connect. destruct (v_connect env); apply R_refl.
Qed.

Lemma preserves_cursor_execute operation parameters :
  preserves R env (cursor_execute operation parameters).
Proof.
  intros s. unfold cursor_execute. destruct (v_fault env _); cbn [snd]; apply R_v_calls.
Qed.

Lemma preserves_cursor_fetchall : preserves R env cursor_fetchall.
Proof.
  intros s. unfold cursor_fetchall. destruct (v_fault env _); cbn [snd]; apply R_v_calls.
Qed.

Lemma preserves_init_clickhouse :
  preserves R env (init_clickhouse (mkClickhouseLoader cs)).
Proof.
  unfold init_clickhouse, logger_info, logger_exception. cbn [loader_settings].
  apply preserves_bind; [apply preserves_emit | intros _].
  apply preserves_try_except; [| intros e; apply preserves_emit].
  apply preserves_bind;
    [intros s; apply R_command; unfold init_commands; repeat constructor | intros _].
  apply preserves_bind;
    [intros s; apply R_command; unfold init_commands; repeat constructor | intros _].
  apply preserves_bind;
    [intros s; apply R_command; unfold init_commands; repeat constructor | intros result].
  apply preserves_bind; [apply preserves_emit | intros _].
  apply preserves_bind; [apply preserves_emit | intros _].
  apply preserves_bind;
    [intros s; apply R_command; unfold init_commands; repeat constructor | intros _].
  apply preserves_emit.
Qed.

Lemma preserves_load_batch self batch : preserves R env (load_batch self batch).
Proof.
  unfold load_batch. destruct batch as [| e0 rest]; [apply preserves_ret |].
  apply preserves_bind; [apply preserves_get | intros st].
  apply preserves_try_except; [| intros e; apply preserves_emit].
  apply preserves_bind; [apply preserves_client_insert | intros r; apply preserves_emit].
Qed.

Lemma preserves_read_data self : preserves R env (read_data self).
Proof.
  unfold read_data, time_time.
  apply preserves_bind; [apply preserves_read_clock | intros t0].
  apply preserves_bind; [apply preserves_client_query | intros query_result].
  apply preserves_bind; [apply preserves_read_clock | intros t1].
  apply preserves_bind; [apply preserves_hasattr_result_rows | intros has_rows].
  apply preserves_bind; [| intros rows; apply preserves_ret].
  destruct has_rows; [apply preserves_get_result_rows | apply preserves_ret].
Qed.

Lemma preserves_connect_to_vertica vs : preserves R env (connect_to_vertica vs).
Proof.
  unfold connect_to_vertica, logger_info, logger_error.
  apply preserves_bind.
  - apply preserves_try_except.
    + apply preserves_bind; [apply preserves_emit | intros _].
      apply preserves_bind; [apply preserves_vertica_python_connect | intros _].
      apply preserves_bind; [apply preserves_emit | intros _; apply preserves_ret].
    + intros e. destruct e; try apply preserves_raise.
      apply preserves_bind; [apply preserves_emit | intros _; apply preserves_ret].
  - intros [c |]; [apply preserves_ret | apply preserves_raise].
Qed.

Lemma preserves_create_vertica_table self : preserves R env (create_vertica_table self).
Proof.
  unfold create_vertica_table, with_cursor, logger_info, logger_exception.
  apply preserves_bind; [apply preserves_emit | intros _].
  apply preserves_try_except; [| intros e; apply preserves_emit].
  apply preserves_bind; [apply preserves_ask | intros env'].
  apply preserves_bind; [apply preserves_emit | intros _].
  apply preserves_bind; [apply preserves_cursor_execute | intros _; apply preserves_emit].
Qed.

Lemma preserves_read_data_from_vertica self :
  preserves R env (read_data_from_vertica self).
Proof.
  unfold read_data_from_vertica, with_cursor, time_time.
  apply preserves_bind; [apply preserves_read_clock | intros t0].
  apply preserves_bind; [apply preserves_ask | intros env'].
  apply preserves_bind.
  - apply preserves_bind; [apply preserves_cursor_execute | intros _].
    apply preserves_cursor_fetchall.
  - intros _. apply preserves_bind; [apply preserves_read_clock | intros t1].
    apply preserves_ret.
Qed.

Lemma preserves_generate_events n : preserves R env (generate_events n).
Proof.
  unfold generate_events. apply preserves_comprehension. unfold generate_event.
  apply preserves_bind; [apply preserves_random_choice | intros et].
  apply preserves_bind; [apply preserves_read_clock | intros t].
  apply preserves_bind.
  { unfold random_randint.
    apply preserves_bind; [apply preserves_next_random | intros r; apply preserves_ret]. }
  intros days. apply preserves_bind.
  { unfold random_random.
    apply preserves_bind; [apply preserves_next_random | intros r; apply preserves_ret]. }
  intros r. apply preserves_bind.
  { destruct (gt_half r); [| apply preserves_ret].
    apply preserves_bind; [apply preserves_uuid4 | intros u; apply preserves_ret]. }
  intros uid. apply preserves_bind; [apply preserves_random_choice | intros u].
  apply preserves_new_Event.
Qed.

Lemma preserves_load_data_to_clickhouse events loader :
  preserves R env (load_data_to_clickhouse events loader).
Proof.
  unfold load_data_to_clickhouse, time_time.
  apply preserves_bind; [apply preserves_read_clock | intros t0].
  apply preserves_bind; [apply preserves_load_batch | intros _].
  apply preserves_bind; [apply preserves_read_clock | intros t1; apply preserves_ret].
Qed.

Lemma preserves_load_data_to_vertica events :
  preserves R env (load_data_to_vertica events).
Proof.
  unfold load_data_to_vertica, with_cursor, time_time.
  apply preserves_bind; [apply preserves_read_clock | intros t0].
  apply preserves_bind.
  - apply preserves_bind; [apply preserves_get | intros st].
    apply preserves_bind; [| intros _; apply preserves_cursor_execute].
    apply preserves_for_each. intros d. apply preserves_cursor_execute.
  - intros _. apply preserves_bind; [apply preserves_read_clock | intros t1].
    apply preserves_ret.
Qed.

Lemma preserves_main :
  Settings.clickhouse (settings env) = cs -> preserves R env main.
Proof.
  intros Hcs. unfold main, logger_info, logger_exception.
  apply preserves_try_except.
  2:{ intros e. apply preserves_bind; [apply preserves_emit | intros _; apply preserves_ret]. }
  apply preserves_bind; [apply preserves_emit | intros _].
  apply (preserves_bind_value (fun e => e = env));
    [now intros s a s' [= <- _] | apply preserves_ask | intros env' ->].
  rewrite Hcs.
  apply (preserves_bind_value
           (fun dm => dm = mkDatabaseManager (Settings.vertica (settings env))
                                             (mkClickhouseLoader cs))).
  { intros s a s' H. exact (DatabaseManager_init_value _ _ _ _ _ _ H). }
  { unfold DatabaseManager_init, ClickhouseLoader_init.
    apply preserves_bind.
    - apply preserves_bind; [apply preserves_get_client | intros _].
      apply preserves_bind; [apply preserves_init_clickhouse | intros _].
      apply preserves_ret.
    - intros loader. apply preserves_bind; [apply preserves_connect_to_vertica | intros _].
      apply preserves_ret. }
  intros db_manager ->. cbn [clickhouse_loader].
  apply preserves_bind; [apply preserves_init_clickhouse | intros _].
  apply preserves_bind; [apply preserves_create_vertica_table | intros _].
  apply preserves_bind; [apply preserves_generate_events | intros events].
  apply preserves_bind; [apply preserves_load_data_to_clickhouse | intros d1].
  apply preserves_bind; [apply preserves_load_data_to_vertica | intros d2].
  apply preserves_bind; [apply preserves_read_data | intros d3].
  apply preserves_bind; [apply preserves_read_data_from_vertica | intros d4].
  repeat (apply preserves_bind; [apply preserves_emit | intros _]).
  apply preserves_ret.
Qed.
End Preserves.

Lemma catalog_frame_same key s s' :
  ch_catalog s' = ch_catalog s -> catalog_frame key s s'.
Proof. intros H. unfold catalog_frame. rewrite H. now split. Qed.

Lemma catalog_frame_trans key s1 s2 s3 :
  catalog_frame key s1 s2 -> catalog_frame key s2 s3 -> catalog_frame key s1 s3.
Proof.
  intros [Hd1 Ht1] [Hd2 Ht2]. split; [now transitivity (databases (ch_catalog s2)) |].
  intros k Hk. now rewrite Ht2, Ht1.
Qed.

Lemma client_command_catalog_frame env cs s q :
  q ∈ init_commands cs ->
  catalog_frame (ClickhouseSettings.database cs, ClickhouseSettings.table cs)
                s (snd (client_command q env s)).
Proof.
  intros Hq. unfold client_command.
  destruct (ch_fault env (length (ch_calls s))); [now apply catalog_frame_same |].
  unfold init_commands in Hq.
  repeat (apply elem_of_cons in Hq; destruct Hq as [-> | Hq]);
    [| | | | now apply elem_of_nil in Hq]; cbn [ch_apply].
  - split; [apply union_subseteq_r | reflexivity].
  - destruct (decide _); now apply catalog_frame_same.
  - split; [reflexivity |]. intros k Hk. now apply lookup_delete_ne.
  - destruct (decide _); [| now apply catalog_frame_same].
    destruct (tables (ch_catalog s) !! _); [now apply catalog_frame_same |].
    split; [reflexivity |]. intros k Hk. now apply lookup_insert_ne.
Qed.

(** X16.  What initialization never does to the column store.  Whatever
    fails, [init_clickhouse] removes no database and leaves every table
    other than the configured one exactly as it was; the same holds for a
    whole run of [main], whose only statements that change the catalog are
    those of the two initializations. *)
Theorem init_clickhouse_touches_one_table env s self :
  let key := (ClickhouseSettings.database (loader_settings self),
              ClickhouseSettings.table (loader_settings self)) in
  let main_key := (ClickhouseSettings.database (Settings.clickhouse (settings env)),
                   ClickhouseSettings.table (Settings.clickhouse (settings env))) in
  let after_init := snd (init_clickhouse self env s) in
  let after_main := snd (main env s) in
  (databases (ch_catalog s) ⊆ databases (ch_catalog after_init) /\
   forall k, k <> key ->
     tables (ch_catalog after_init) !! k = tables (ch_catalog s) !! k) /\
  (databases (ch_catalog s) ⊆ databases (ch_catalog after_main) /\
   forall k, k <> main_key ->
     tables (ch_catalog after_main) !! k = tables (ch_catalog s) !! k).
Proof.
  intros key main_key after_init after_main. split.
  - destruct self as [cs].
    apply (preserves_init_clickhouse (catalog_frame key) env cs);
      try (intros; now apply catalog_frame_same).
    + apply catalog_frame_trans.
    + intros s0 q Hq. now apply client_command_catalog_frame.
  - apply (preserves_main (catalog_frame main_key) env (Settings.clickhouse (settings env)));
      try (intros; now apply catalog_frame_same); try reflexivity.
    + apply catalog_frame_trans.
    + intros s0 q Hq. now apply client_command_catalog_frame.
Qed.

Lemma client_command_heap env s q : heap (snd (client_command q env s)) = heap s.
Proof.
  unfold client_command. destruct (ch_fault env _); [reflexivity |].
  now destruct (ch_apply q _ _) as [e | [c db]].
Qed.

(** X17.  Across a whole run of [main], whatever fails, the object store
    only grows at its end: every [Event] that existed before the run is
    still there, at the same reference and with the same fields. *)
Theorem main_keeps_existing_events env s :
  let s' := snd (main env s) in
  heap s `prefix_of` heap s' /\
  forall r, (r < length (heap s))%nat -> heap s' !! r = heap s !! r.
Proof.
  intros s'.
  assert (heap s `prefix_of` heap s') as Hpre.
  { apply (preserves_main (fun a b => heap a `prefix_of` heap b) env
             (Settings.clickhouse (settings env)));
      try (intros; reflexivity).
    - intros s1 s2 s3. apply PreOrder_Transitive.
    - intros s0 e. now apply prefix_app_r.
    - intros s0 q _. now rewrite client_command_heap. }
  split; [exact Hpre |].
  intros r Hr. destruct Hpre as [rest ->]. now apply lookup_app_l.
Qed.

(** ** The script as a whole *)

(** X18.  How the script ends.  When [main] returned [None] (some exception
    reached its handler), unpacking it into the keyword arguments of
    [plot_results] raises a [TypeError] with the message the interpreter has
    for an argument that is no mapping: the script ends with that exception,
    no chart is drawn and nothing is saved.  When [main] returned its dict, the four keys are
    exactly the parameters of [plot_results], so the call binds; the charts
    are drawn from the four timings, the figure is saved last, and the
    script ends normally. *)
Theorem script_outcome binding_error env s :
  let s0 := set_log (log s ++ [LogInfo "Start script"]) s in
  (forall s1, main env s0 = (Returns None, s1) ->
     script binding_error env s
     = (Raises (DriverError "TypeError" (binding_error None)), s1)) /\
  (forall m s1, main env s0 = (Returns (Some m), s1) ->
     exists cw vw cr vr calls,
       m !! "clickhouse_write_time"%string = Some cw /\
       m !! "vertica_write_time"%string = Some vw /\
       m !! "clickhouse_read_time"%string = Some cr /\
       m !! "vertica_read_time"%string = Some vr /\
       script binding_error env s
       = (Returns calls,
          set_log (log s1 ++ [LogInfo "Graph saved as 'database_performance_comparison.png'"])
                  s1) /\
       Bar 0 ["ClickHouse"; "Vertica"]%string [cw; vw] ["blue"; "green"]%string ∈ calls /\
       Bar 1 ["ClickHouse"; "Vertica"]%string [cr; vr] ["blue"; "green"]%string ∈ calls /\
       last calls = Some (Savefig "database_performance_comparison.png")).
Proof.
  intros s0. split.
  - intros s1 Hmain. unfold script, bind, logger_info, emit, modify. cbn. fold s0.
    rewrite Hmain. reflexivity.
  - intros m s1 Hmain. pose proof (main_timings env s0 m s1 Hmain) as Hm. cbn zeta in Hm.
    eexists _, _, _, _, _.
    split; [rewrite Hm; now rewrite lookup_insert_ne, lookup_insert_ne, lookup_insert_ne,
                             lookup_insert_eq by discriminate |].
    split; [rewrite Hm; now rewrite lookup_insert_ne, lookup_insert_ne,
                             lookup_insert_eq by discriminate |].
    split; [rewrite Hm; now rewrite lookup_insert_ne, lookup_insert_eq by discriminate |].
    split; [rewrite Hm; now rewrite lookup_insert_eq |].
    split.
    + unfold script, bind, logger_info, emit, modify. cbn. fold s0. rewrite Hmain.
      unfold call_plot_results. rewrite decide_True.
      2:{ rewrite Hm, !dom_insert_L, dom_empty_L. unfold plot_results_parameters.
          cbn [list_to_set]. set_solver. }
      rewrite Hm.
      rewrite (lookup_insert_ne _ "vertica_read_time" "clickhouse_write_time")%string
        by discriminate.
      rewrite (lookup_insert_ne _ "clickhouse_read_time" "clickhouse_write_time")%string
        by discriminate.
      rewrite (lookup_insert_ne _ "vertica_write_time" "clickhouse_write_time")%string
        by discriminate.
      rewrite (lookup_insert_eq _ "clickhouse_write_time")%string.
      rewrite (lookup_insert_ne _ "vertica_read_time" "vertica_write_time")%string
        by discriminate.
      rewrite (lookup_insert_ne _ "clickhouse_read_time" "vertica_write_time")%string
        by discriminate.
      rewrite (lookup_insert_eq _ "vertica_write_time")%string.
      rewrite (lookup_insert_ne _ "vertica_read_time" "clickhouse_read_time")%string
        by discriminate.
      rewrite (lookup_insert_eq _ "clickhouse_read_time")%string.
      rewrite (lookup_insert_eq _ "vertica_read_time")%string.
      reflexivity.
    + split; [repeat constructor |]. split; [repeat constructor | reflexivity].
Qed.

Lemma script_outcome_witness :
  (exists s1,
     script (fun _ => none_is_not_a_mapping)
       (unreachable_vertica (quiet_env Settings.defaults)) initial_state
     = (Raises (DriverError "TypeError"
                  "__main__.plot_results() argument after ** must be a mapping, not NoneType"),
        s1)) /\
  (exists calls s',
     script (fun _ => none_is_not_a_mapping) (quiet_env Settings.defaults) initial_state
     = (Returns calls, s') /\
     last calls = Some (Savefig "database_performance_comparison.png")).
Proof.
  split.
  - destruct (script_outcome (fun _ => none_is_not_a_mapping)
                (unreachable_vertica (quiet_env Settings.defaults)) initial_state)
      as [Hnone _].
    destruct (main (unreachable_vertica (quiet_env Settings.defaults))
                (set_log (log initial_state ++ [LogInfo "Start script"]) initial_state))
      as [[[m |] | e] s1] eqn:Hmain.
    + vm_compute in Hmain. discriminate Hmain.
    + exists s1. now apply Hnone.
    + vm_compute in Hmain. discriminate Hmain.
  - destruct (script_outcome (fun _ => none_is_not_a_mapping)
                (quiet_env Settings.defaults) initial_state) as [_ Hsome].
    destruct (main_completes (quiet_env Settings.defaults)
                (set_log (log initial_state ++ [LogInfo "Start script"]) initial_state))
      as (m & s1 & Hmain); try reflexivity.
    destruct (Hsome m s1 Hmain) as (cw & vw & cr & vr & calls & _ & _ & _ & _ & Hrun & _ & _ & Hlast).
    eexists calls, _. split; [exact Hrun | exact Hlast].
Defined.

(** X19.  When [clickhouse_connect.get_client] raises, the run ends at once
    in the handler of [main]: [main] returns [None]; the log holds the start
    record and then that very exception, logged as unhandled; no statement
    is sent to either store, the row store is never connected to, and no
    event is generated. *)
Theorem clickhouse_connection_failure_aborts env s e :
  ch_connect env = Some e ->
  main env s
  = (Returns None,
     set_log (log s ++ [LogInfo "Starting data generation and loading process";
                        LogException "Unhandled exception" e]) s).
Proof.
  intros Hcc. unfold main, try_except.
  unfold bind at 1. unfold logger_info at 1, emit at 1, modify at 1.
  unfold bind at 1. unfold ask at 1. unfold bind at 1.
  rewrite DatabaseManager_init_run, Hcc.
  unfold bind, logger_exception, emit, modify, ret. cbn.
  now rewrite <- app_assoc.
Qed.

Lemma clickhouse_connection_failure_aborts_witness :
  main (unreachable_clickhouse (quiet_env Settings.defaults)) initial_state
  = (Returns None,
     set_log [LogInfo "Starting data generation and loading process";
              LogException "Unhandled exception"
                (DriverError "OperationalError" "connection refused")]
       initial_state).
Proof.
  apply (clickhouse_connection_failure_aborts
           (unreachable_clickhouse (quiet_env Settings.defaults)) initial_state
           (DriverError "OperationalError" "connection refused")).
  reflexivity.
Defined.
